(** * ICME rate for solar cycle 25 (Moestl2020_PSP_rate/icme_rate.py)

    A shallow embedding of the numerical core of [icme_rate.py]: the
    selections of catalog events (notebook cell 3), the
    coverage-normalised yearly ICME rates (cells 5 and 6), their
    cross-spacecraft statistics, the yearly rates of the Richardson and
    Cane list (cells 7, 9 and 10), the sunspot-to-rate conversion with its
    error composition (cells 11 to 14), the search for perihelia and
    aphelia (cell 19), the densification splines (cell 21) and the Parker
    Solar Probe exposure sums (cell 22).

    Number model.  The script computes with numpy [float64] arrays.  Here a
    float is an exact rational, or one of the three special values of
    IEEE 754: the arithmetic operations are exact (no rounding error, no
    overflow, no signed zero), while NaN and the infinities behave as in
    numpy (NaN propagates, [x/0] is an infinity or NaN, every comparison
    with NaN is false).  [np.round] and [np.rint] round half to even, as
    numpy does.  [np.sqrt] has a rational result, as it has on floats: the
    root cut after 52 binary digits.

    Times are day numbers (proleptic Gregorian ordinals, the scale of
    [plot_date]); both the [datetime] comparisons and the [plot_date]
    arithmetic of the script are read on that scale.

    Library calls whose code is not part of the repository
    ([scipy.stats.linregress], [heliocats.stats.hathaway],
    [heliocats.stats.is_float], [scipy.optimize.curve_fit], the spline
    behind [interp1d], the SPICE trajectory) enter as inputs. *)

From Stdlib Require Import String.
From Stdlib Require Import QArith Qround Qabs ZArith List Lia Lqa Bool Sorted.
From Stdlib Require Import Floats.
Import ListNotations.

Set Implicit Arguments.

(* ================================================================== *)
(** * Definitions *)
(* ================================================================== *)

(** ** Python exceptions *)

Inductive exn : Type :=
| IndexError (msg : string)
| ValueError (msg : string).

Inductive result (A : Type) : Type :=
| Ok (a : A)
| Raise (e : exn).

Arguments Ok {A} a.
Arguments Raise {A} e.

Definition bind {A B : Type} (m : result A) (k : A -> result B) : result B :=
  match m with
  | Ok a => k a
  | Raise e => Raise e
  end.

Notation "x <- m ;; k" := (bind m (fun x => k))
  (at level 61, m at next level, right associativity).

Fixpoint mapM {A B : Type} (f : A -> result B) (l : list A) : result (list B) :=
  match l with
  | [] => Ok []
  | x :: t => y <- f x ;; ys <- mapM f t ;; Ok (y :: ys)
  end.

(** A [for] loop over a list of indices, threading the state. *)
Fixpoint for_each {S : Type} (body : Z -> S -> result S) (l : list Z) (st : S)
  : result S :=
  match l with
  | [] => Ok st
  | i :: t => st' <- body i st ;; for_each body t st'
  end.

Definition is_ok {A : Type} (m : result A) : bool :=
  match m with Ok _ => true | Raise _ => false end.

(** ** numpy floats *)

Module NumPy.

Local Open Scope Q_scope.

Inductive npfloat : Type :=
| Fin (q : Q)
| PInf
| NInf
| NaN.

Definition of_Z (z : Z) : npfloat := Fin (inject_Z z).
Definition of_nat (n : nat) : npfloat := Fin (inject_Z (Z.of_nat n)).

Definition isnan (x : npfloat) : bool :=
  match x with NaN => true | _ => false end.

Definition notnan (x : npfloat) : bool := negb (isnan x).

Definition isfinite (x : npfloat) : bool :=
  match x with Fin _ => true | _ => false end.

Definition is_pinf (x : npfloat) : bool :=
  match x with PInf => true | _ => false end.

(** The sign of a value that is not NaN, as a comparison with zero. *)
Definition sign (x : npfloat) : comparison :=
  match x with
  | Fin q => Qcompare q 0
  | PInf => Gt
  | NInf => Lt
  | NaN => Eq
  end.

Definition inf_of_sign (c : comparison) : npfloat :=
  match c with Gt => PInf | Lt => NInf | Eq => NaN end.

Definition sign_mul (c d : comparison) : comparison :=
  match c, d with
  | Eq, _ | _, Eq => Eq
  | Gt, Gt | Lt, Lt => Gt
  | Gt, Lt | Lt, Gt => Lt
  end.

Definition fneg (x : npfloat) : npfloat :=
  match x with
  | Fin q => Fin (- q)
  | PInf => NInf
  | NInf => PInf
  | NaN => NaN
  end.

Definition fadd (x y : npfloat) : npfloat :=
  match x, y with
  | NaN, _ | _, NaN => NaN
  | Fin a, Fin b => Fin (a + b)
  | PInf, NInf | NInf, PInf => NaN
  | PInf, _ | _, PInf => PInf
  | NInf, _ | _, NInf => NInf
  end.

Definition fsub (x y : npfloat) : npfloat :=
  match x, y with
  | NaN, _ | _, NaN => NaN
  | Fin a, Fin b => Fin (a - b)
  | PInf, PInf | NInf, NInf => NaN
  | PInf, _ | _, NInf => PInf
  | NInf, _ | _, PInf => NInf
  end.

Definition fmul (x y : npfloat) : npfloat :=
  match x, y with
  | NaN, _ | _, NaN => NaN
  | Fin a, Fin b => Fin (a * b)
  | _, _ => inf_of_sign (sign_mul (sign x) (sign y))
  end.

(** Division; a zero divisor is the positive zero. *)
Definition fdiv (x y : npfloat) : npfloat :=
  match x, y with
  | NaN, _ | _, NaN => NaN
  | Fin a, Fin b =>
      if Qeq_bool b 0 then inf_of_sign (Qcompare a 0) else Fin (a / b)
  | Fin _, _ => Fin 0
  | _, Fin b =>
      inf_of_sign (sign_mul (sign x) (if Qle_bool 0 b then Gt else Lt))
  | _, _ => NaN
  end.

Definition fabs (x : npfloat) : npfloat :=
  match x with
  | Fin q => Fin (Qabs q)
  | PInf | NInf => PInf
  | NaN => NaN
  end.

(** [x < y] and [x <= y]; false as soon as one side is NaN. *)
Definition flt (x y : npfloat) : bool :=
  match x, y with
  | NaN, _ | _, NaN => false
  | Fin a, Fin b => negb (Qle_bool b a)
  | _, NInf => false
  | NInf, _ => true
  | PInf, _ => false
  | _, PInf => true
  end.

Definition fle (x y : npfloat) : bool :=
  match x, y with
  | NaN, _ | _, NaN => false
  | Fin a, Fin b => Qle_bool a b
  | NInf, _ => true
  | _, PInf => true
  | _, NInf => false
  | PInf, _ => false
  end.

(** Equality of values: equal rationals, or the same special value. *)
Definition feq (x y : npfloat) : Prop :=
  match x, y with
  | Fin a, Fin b => a == b
  | PInf, PInf | NInf, NInf | NaN, NaN => True
  | _, _ => False
  end.

(** [x ** 2] *)
Definition fsquare (x : npfloat) : npfloat := fmul x x.

(** The nearest integer, halves to the even one ([np.rint]). *)
Definition rint (x : Q) : Z :=
  let f := Qfloor x in
  match Qcompare (x - inject_Z f) (1 # 2) with
  | Lt => f
  | Gt => (f + 1)%Z
  | Eq => if Z.even f then f else (f + 1)%Z
  end.

Definition np_rint (x : npfloat) : npfloat :=
  match x with
  | Fin q => Fin (inject_Z (rint q))
  | _ => x
  end.

Definition pow10 (decimals : nat) : positive := Pos.of_nat (10 ^ decimals).

(** [np.round(x, decimals)] for [decimals >= 0]: scale by [10**decimals],
    [rint], scale back. *)
Definition np_round (x : npfloat) (decimals : nat) : npfloat :=
  match x with
  | Fin q => Fin (rint (q * inject_Z (Zpos (pow10 decimals))) # pow10 decimals)
  | _ => x
  end.

(** The square root cut after 52 binary digits. *)
Definition Qsqrt (x : Q) : Q :=
  Z.sqrt (Qfloor (x * inject_Z (2 ^ 104))) # (2 ^ 52).

Definition fsqrt (x : npfloat) : npfloat :=
  match x with
  | Fin q => if Qle_bool 0 q then Fin (Qsqrt q) else NaN
  | PInf => PInf
  | NInf => NaN
  | NaN => NaN
  end.

(** [int(x)] of a float: NaN and the infinities cannot be converted. *)
Definition py_int (x : npfloat) : result Z :=
  match x with
  | Fin q => Ok (Z.quot (Qnum q) (Zpos (Qden q)))
  | NaN => Raise (ValueError "cannot convert float NaN to integer")
  | _ => Raise (ValueError "cannot convert float infinity to integer")
  end.

(** ** numpy arrays (one-dimensional) *)

Definition ndarray : Type := list npfloat.

Definition np_full (n : nat) (v : npfloat) : ndarray := repeat v n.

Definition of_ints (l : list Z) : ndarray := map of_Z l.

Fixpoint where_from {A : Type} (p : A -> bool) (l : list A) (i : Z) : list Z :=
  match l with
  | [] => []
  | x :: t => if p x then i :: where_from p t (i + 1)%Z
              else where_from p t (i + 1)%Z
  end.

(** [np.where(cond)[0]]: the positions where the condition holds. *)
Definition np_where {A : Type} (p : A -> bool) (l : list A) : list Z :=
  where_from p l 0%Z.

(** A Python index into an array of [n] entries: negative indices count
    from the end. *)
Definition norm_index (n : nat) (i : Z) : option nat :=
  let j := if (i <? 0)%Z then (i + Z.of_nat n)%Z else i in
  if ((0 <=? j) && (j <? Z.of_nat n))%Z then Some (Z.to_nat j) else None.

(** [a[i]] *)
Definition np_get {A : Type} (a : list A) (i : Z) : result A :=
  match norm_index (length a) i with
  | Some j =>
      match nth_error a j with
      | Some v => Ok v
      | None => Raise (IndexError "index out of bounds")
      end
  | None => Raise (IndexError "index out of bounds")
  end.

(** [a[idx]] for an integer index array. *)
Definition np_take {A : Type} (a : list A) (idx : list Z) : result (list A) :=
  mapM (np_get a) idx.

Fixpoint set_nth {A : Type} (a : list A) (j : nat) (v : A) : list A :=
  match a, j with
  | [], _ => []
  | _ :: t, O => v :: t
  | x :: t, S j' => x :: set_nth t j' v
  end.

(** [a[i] = v] *)
Definition np_set {A : Type} (a : list A) (i : Z) (v : A) : result (list A) :=
  match norm_index (length a) i with
  | Some j => Ok (set_nth a j v)
  | None => Raise (IndexError "index out of bounds")
  end.

(** [a[n:]] and [a[0:-1]] *)
Definition slice_from {A : Type} (n : nat) (a : list A) : list A := skipn n a.
Definition drop_last {A : Type} (a : list A) : list A := removelast a.

Fixpoint diff_from (x : npfloat) (t : ndarray) : ndarray :=
  match t with
  | [] => []
  | y :: t' => fsub y x :: diff_from y t'
  end.

(** [np.diff(a)] *)
Definition np_diff (a : ndarray) : ndarray :=
  match a with
  | [] => []
  | x :: t => diff_from x t
  end.

(** [np.sum(a)]; the sum of no entries is [0.0]. *)
Definition np_sum (a : ndarray) : npfloat := fold_left fadd a (Fin 0).

Definition map2 (f : npfloat -> npfloat -> npfloat) (a b : ndarray) : ndarray :=
  map (fun p => f (fst p) (snd p)) (combine a b).

Definition map3 (f : npfloat -> npfloat -> npfloat -> npfloat)
           (a b c : ndarray) : ndarray :=
  map (fun p => f (fst (fst p)) (snd (fst p)) (snd p)) (combine (combine a b) c).

(** An elementwise binary operation of two arrays, with numpy's
    broadcasting of an array of one entry. *)
Definition broadcast2 (f : npfloat -> npfloat -> npfloat) (a b : ndarray)
  : result ndarray :=
  if Nat.eqb (length a) (length b) then Ok (map2 f a b)
  else match a, b with
       | [x], _ => Ok (map (f x) b)
       | _, [y] => Ok (map (fun x => f x y) a)
       | _, _ => Raise (ValueError "operands could not be broadcast together")
       end.

(** An array and a scalar. *)
Definition scalar_r (f : npfloat -> npfloat -> npfloat) (a : ndarray) (c : npfloat)
  : ndarray := map (fun x => f x c) a.

(** [np.mean], [np.var], [np.std] *)
Definition np_mean (a : ndarray) : npfloat :=
  fdiv (np_sum a) (of_nat (length a)).

Definition np_var (a : ndarray) : npfloat :=
  let m := np_mean a in
  np_mean (map (fun x => fsquare (fsub x m)) a).

Definition np_std (a : ndarray) : npfloat := fsqrt (np_var a).

(** The NaN-aware reductions.  [nanmean] and [nanstd] replace NaN by zero
    and divide by the number of entries that are not NaN. *)
Definition nan_to_zero (x : npfloat) : npfloat :=
  if isnan x then Fin 0 else x.

Definition count_notnan (a : ndarray) : nat := length (filter notnan a).

Definition nanmean (a : ndarray) : npfloat :=
  fdiv (np_sum (map nan_to_zero a)) (of_nat (count_notnan a)).

Definition nanvar (a : ndarray) : npfloat :=
  let avg := nanmean a in
  let dev := map (fun x => if isnan x then Fin 0 else fsub x avg) a in
  fdiv (np_sum (map fsquare dev)) (of_nat (count_notnan a)).

Definition nanstd (a : ndarray) : npfloat := fsqrt (nanvar a).

Fixpoint insert_sorted (x : npfloat) (l : ndarray) : ndarray :=
  match l with
  | [] => [x]
  | y :: t => if fle x y then x :: l else y :: insert_sorted x t
  end.

Fixpoint np_sort (a : ndarray) : ndarray :=
  match a with
  | [] => []
  | x :: t => insert_sorted x (np_sort t)
  end.

(** [np.median] of an array without NaN: the mean of the middle entry, or
    of the two middle entries, of the sorted array. *)
Definition np_median (a : ndarray) : npfloat :=
  let s := np_sort a in
  let n := length s in
  if Nat.eqb n 0 then NaN
  else if Nat.odd n then np_mean (firstn 1 (skipn (n / 2) s))
  else np_mean (firstn 2 (skipn (n / 2 - 1) s)).

Definition nanmedian (a : ndarray) : npfloat :=
  match filter notnan a with
  | [] => NaN
  | d => np_median d
  end.

(** [np.fmax] and [np.fmin] ignore a NaN operand. *)
Definition fmax (x y : npfloat) : npfloat :=
  match x, y with
  | NaN, _ => y
  | _, NaN => x
  | _, _ => if fle x y then y else x
  end.

Definition fmin (x y : npfloat) : npfloat :=
  match x, y with
  | NaN, _ => y
  | _, NaN => x
  | _, _ => if fle x y then x else y
  end.

(** [np.nanmax] and [np.nanmin] reduce with [fmax] and [fmin]; an array of
    NaN only gives NaN, an empty one is an error. *)
Definition nanmax (a : ndarray) : result npfloat :=
  match a with
  | [] => Raise (ValueError "zero-size array to reduction operation")
  | x :: t => Ok (fold_left fmax t x)
  end.

Definition nanmin (a : ndarray) : result npfloat :=
  match a with
  | [] => Raise (ValueError "zero-size array to reduction operation")
  | x :: t => Ok (fold_left fmin t x)
  end.

Definition count_in (lo hi : Q) (closed : bool) (a : list Q) : Z :=
  Z.of_nat (length (filter (fun x =>
     Qle_bool lo x && (if closed then Qle_bool x hi else negb (Qle_bool hi x))) a)).

(** [np.histogram(a, bins)[0]] for increasing bin edges: bin [k] holds the
    entries in [bins[k] <= x < bins[k+1]]; the last bin includes its right
    edge. *)
Fixpoint np_histogram (a : list Q) (bins : list Q) : list Z :=
  match bins with
  | lo :: ((hi :: rest) as tl) =>
      count_in lo hi (match rest with [] => true | _ => false end) a
        :: np_histogram a tl
  | _ => []
  end.

End NumPy.

(** ** Calendar dates as day numbers *)

Module Dates.

Local Open Scope Z_scope.

Definition is_leap (y : Z) : bool :=
  ((y mod 4 =? 0) && negb (y mod 100 =? 0)) || (y mod 400 =? 0).

Definition days_before_year (y : Z) : Z :=
  let p := y - 1 in 365 * p + p / 4 - p / 100 + p / 400.

Definition days_before_month (y m : Z) : Z :=
  nth (Z.to_nat (m - 1)) [0; 31; 59; 90; 120; 151; 181; 212; 243; 273; 304; 334] 0
  + (if (2 <? m) && is_leap y then 1 else 0).

(** [datetime.date(y, m, d).toordinal()] *)
Definition toordinal (y m d : Z) : Z :=
  days_before_year y + days_before_month y m + d.

(** The day number of midnight of a date. *)
Definition plot_date (y m d : Z) : Q := inject_Z (toordinal y m d).

(** [np.arange(a, b)] and [range(n)] *)
Definition arange (a b : Z) : list Z :=
  map (fun k => a + Z.of_nat k) (seq 0 (Z.to_nat (b - a))).

Definition range (n : nat) : list Z := map Z.of_nat (seq 0 n).

End Dates.

(** ** Notebook cells 5 and 6: data days, yearly rates, statistics *)

Module Rates.

Import NumPy Dates.
Local Open Scope Q_scope.

(** One record of an in situ data file: the time stamp and the total
    magnetic field, NaN where the measurement is missing. *)
Record sample : Type := { time : Q; bt : npfloat }.

Definition insitu : Type := list sample.

Definition times (d : insitu) : list Q := map time d.
Definition bts (d : insitu) : ndarray := map bt d.

(** One row of the ICMECAT catalog. *)
Record icme : Type := { sc_insitu : string; icme_start_time : Q }.

(** What cell 2 loads. *)
Record inputs : Type := {
  win : insitu;
  sta : insitu;
  stb : insitu;
  mes : insitu;
  mesnon : insitu;
  vexnon : insitu;
  mav : insitu;
  ic : list icme
}.

Definition last_year : Z := 2020.

Definition yearly_start_times : list Q :=
  map (fun y => plot_date y 1 1) (arange 2007 last_year).
Definition yearly_mid_times_num : list Q :=
  map (fun y => plot_date y 7 1) (arange 2007 last_year).
Definition yearly_end_times : list Q :=
  map (fun y => plot_date y 12 31) (arange 2007 last_year).

(** The six arrays of data days. *)
Record data_days : Type := {
  total_data_days_yearly_win : ndarray;
  total_data_days_yearly_sta : ndarray;
  total_data_days_yearly_stb : ndarray;
  total_data_days_yearly_mes : ndarray;
  total_data_days_yearly_vex : ndarray;
  total_data_days_yearly_mav : ndarray
}.

Definition data_days_init : data_days :=
  let a := np_full (length yearly_mid_times_num) NaN in
  {| total_data_days_yearly_win := a;
     total_data_days_yearly_sta := a;
     total_data_days_yearly_stb := a;
     total_data_days_yearly_mes := a;
     total_data_days_yearly_vex := a;
     total_data_days_yearly_mav := a |}.

Definition Qltb (x y : Q) : bool := negb (Qle_bool y x).

(** [np.where(np.logical_and(time > start, time < end))[0]] *)
Definition thisyear_of (t : list Q) (s e : Q) : list Z :=
  np_where (fun x => Qltb s x && Qltb x e) t.

(** [np.where(np.isnan(b) == False)] *)
Definition where_notnan (b : ndarray) : list Z := np_where notnan b.

(** [np.size(np.where(np.isnan(b[thisyear]) == False))], the index taken
    from the time stamps [t]. *)
Definition datas_of (t : list Q) (b : ndarray) (s e : Q) : result Z :=
  sel <- np_take b (thisyear_of t s e) ;;
  Ok (Z.of_nat (length (where_notnan sel))).

(** [if datas > 0: a[i] = datas * min_in_days] *)
Definition set_days (a : ndarray) (i datas : Z) (min_in_days : Q) : result ndarray :=
  if (0 <? datas)%Z then np_set a i (fmul (of_Z datas) (Fin min_in_days))
  else Ok a.

(** The MAVEN branch of the loop body. *)
Definition mav_days (m : insitu) (a : ndarray) (i : Z) (s e : Q) : result ndarray :=
  let thisyear := thisyear_of (times m) s e in
  sel <- np_take (bts m) thisyear ;;
  let datas := Z.of_nat (length (where_notnan sel)) in
  let datas_ind := where_notnan sel in
  t <- np_take (map Fin (times m)) datas_ind ;;
  let alldiff := np_diff t in
  let smalldiff_ind := np_where (fun d => flt d (Fin 0.25)) alldiff in
  if (0 <? datas)%Z then
    small <- np_take alldiff smalldiff_ind ;;
    np_set a i (np_sum small)
  else Ok a.

(** The body of [for i in range(np.size(yearly_mid_times))]. *)
Definition year_step (inp : inputs) (i : Z) (st : data_days) : result data_days :=
  s <- np_get yearly_start_times i ;;
  e <- np_get yearly_end_times i ;;
  (* Wind, with the manual override of the last two years *)
  datas <- datas_of (times (win inp)) (bts (win inp)) s e ;;
  let min_in_days := 1 / (60 * 24) in
  let min_in_days := if (10 <? i)%Z then 1 / (60 * 24) else min_in_days in
  w <- set_days (total_data_days_yearly_win st) i datas min_in_days ;;
  w <- np_set w (-1) (Fin 360) ;;
  w <- np_set w (-2) (Fin 360) ;;
  let min_in_days := 1 / (60 * 24) in
  (* STEREO-A *)
  datas <- datas_of (times (sta inp)) (bts (sta inp)) s e ;;
  a <- set_days (total_data_days_yearly_sta st) i datas min_in_days ;;
  (* STEREO-B *)
  datas <- datas_of (times (stb inp)) (bts (stb inp)) s e ;;
  b <- set_days (total_data_days_yearly_stb st) i datas min_in_days ;;
  (* MESSENGER: positions from mesnon.time, values from mes.bt *)
  datas <- datas_of (times (mesnon inp)) (bts (mes inp)) s e ;;
  m <- set_days (total_data_days_yearly_mes st) i datas min_in_days ;;
  (* VEX *)
  datas <- datas_of (times (vexnon inp)) (bts (vexnon inp)) s e ;;
  v <- set_days (total_data_days_yearly_vex st) i datas min_in_days ;;
  (* MAVEN *)
  mv <- mav_days (mav inp) (total_data_days_yearly_mav st) i s e ;;
  Ok {| total_data_days_yearly_win := w;
        total_data_days_yearly_sta := a;
        total_data_days_yearly_stb := b;
        total_data_days_yearly_mes := m;
        total_data_days_yearly_vex := v;
        total_data_days_yearly_mav := mv |}.

(** Cell 5. *)
Definition total_data_days (inp : inputs) : result data_days :=
  for_each (year_step inp) (range (length yearly_mid_times_num)) data_days_init.

(** Cell 6: the bin edges, January 1 of 2007 to 2020. *)
Definition yearly_bin_edges : list Q :=
  map (fun y => plot_date y 1 1) (arange 2007 (last_year + 1)).

(** [ic.icme_start_time[np.where(ic.sc_insitu == name)[0]]] *)
Definition start_times_of (cat : list icme) (name : string) : result (list Q) :=
  np_take (map icme_start_time cat)
          (np_where (fun r => String.eqb (sc_insitu r) name) cat).

(** [np.histogram(start times of the spacecraft, yearly_bin_edges)[0]] *)
Definition hist1_of (cat : list icme) (name : string) : result (list Z) :=
  t <- start_times_of cat name ;;
  Ok (np_histogram t yearly_bin_edges).

(** [np.round(hist1 / total_data_days * 365.24, 1)] *)
Definition corrected_rate (hist1 : list Z) (days : ndarray) : result ndarray :=
  q <- broadcast2 fdiv (of_ints hist1) days ;;
  Ok (map (fun x => np_round x 1) (scalar_r fmul q (Fin 365.24))).

Record rates : Type := {
  histmes : ndarray;
  histvex : ndarray;
  histwin : ndarray;
  histsta : ndarray;
  histstb : ndarray;
  histmav : ndarray
}.

Definition icme_rates (inp : inputs) (d : data_days) : result rates :=
  histmes1 <- hist1_of (ic inp) "MESSENGER" ;;
  histvex1 <- hist1_of (ic inp) "VEX" ;;
  histwin1 <- hist1_of (ic inp) "Wind" ;;
  histmav1 <- hist1_of (ic inp) "MAVEN" ;;
  histstb1 <- hist1_of (ic inp) "STEREO-B" ;;
  histsta1 <- hist1_of (ic inp) "STEREO-A" ;;
  hvex <- corrected_rate histvex1 (total_data_days_yearly_vex d) ;;
  hmes <- corrected_rate histmes1 (total_data_days_yearly_mes d) ;;
  hsta <- corrected_rate histsta1 (total_data_days_yearly_sta d) ;;
  (* STA beacon data used in 2019 - set manually *)
  hsta <- np_set hsta (-1) (Fin 13) ;;
  hstb <- corrected_rate histstb1 (total_data_days_yearly_stb d) ;;
  hwin <- corrected_rate histwin1 (total_data_days_yearly_win d) ;;
  hmav <- corrected_rate histmav1 (total_data_days_yearly_mav d) ;;
  (* not enough data for 2014 *)
  hmav <- np_set hmav 7 NaN ;;
  Ok {| histmes := hmes; histvex := hvex; histwin := hwin;
        histsta := hsta; histstb := hstb; histmav := hmav |}.

(** One row of the [icrate] data frame. *)
Record icrate_row : Type := {
  year : Q;
  std1 : npfloat;
  median1 : npfloat;
  mean1 : npfloat;
  max1 : npfloat;
  min1 : npfloat
}.

(** The six rates of year [i], in the order of the script. *)
Definition rates_of_year (r : rates) (i : Z) : result ndarray :=
  w <- np_get (histwin r) i ;;
  v <- np_get (histvex r) i ;;
  a <- np_get (histsta r) i ;;
  b <- np_get (histstb r) i ;;
  m <- np_get (histmes r) i ;;
  mv <- np_get (histmav r) i ;;
  Ok [w; v; a; b; m; mv].

Definition icrate_row_at (r : rates) (i : Z) : result icrate_row :=
  y <- np_get yearly_mid_times_num i ;;
  l <- rates_of_year r i ;;
  mx <- nanmax l ;;
  mn <- nanmin l ;;
  Ok {| year := y;
        median1 := np_round (nanmedian l) 1;
        mean1 := np_round (nanmean l) 1;
        std1 := np_round (nanstd l) 1;
        max1 := mx;
        min1 := mn |}.

Definition icrate (r : rates) : result (list icrate_row) :=
  mapM (icrate_row_at r) (range (length yearly_mid_times_num)).

(** Cells 5 and 6 in sequence. *)
Record stage12 : Type := {
  days_out : data_days;
  rates_out : rates;
  icrate_out : list icrate_row
}.

Definition run_stage12 (inp : inputs) : result stage12 :=
  d <- total_data_days inp ;;
  r <- icme_rates inp d ;;
  t <- icrate r ;;
  Ok {| days_out := d; rates_out := r; icrate_out := t |}.

(** The six spacecraft, to address the arrays by name. *)
Inductive spacecraft : Type := Wind | VEX | STA | STB | MESSENGER | MAVEN.

Definition sc_name (sc : spacecraft) : string :=
  match sc with
  | Wind => "Wind" | VEX => "VEX" | STA => "STEREO-A"
  | STB => "STEREO-B" | MESSENGER => "MESSENGER" | MAVEN => "MAVEN"
  end.

Definition days_of (sc : spacecraft) (d : data_days) : ndarray :=
  match sc with
  | Wind => total_data_days_yearly_win d
  | VEX => total_data_days_yearly_vex d
  | STA => total_data_days_yearly_sta d
  | STB => total_data_days_yearly_stb d
  | MESSENGER => total_data_days_yearly_mes d
  | MAVEN => total_data_days_yearly_mav d
  end.

Definition hist_of (sc : spacecraft) (r : rates) : ndarray :=
  match sc with
  | Wind => histwin r
  | VEX => histvex r
  | STA => histsta r
  | STB => histstb r
  | MESSENGER => histmes r
  | MAVEN => histmav r
  end.

(** Where the loop of cell 5 takes the time stamps and the field values
    of a spacecraft from: for MESSENGER two different files. *)
Definition time_source (sc : spacecraft) (inp : inputs) : insitu :=
  match sc with
  | Wind => win inp
  | VEX => vexnon inp
  | STA => sta inp
  | STB => stb inp
  | MESSENGER => mesnon inp
  | MAVEN => mav inp
  end.

Definition field_source (sc : spacecraft) (inp : inputs) : insitu :=
  match sc with
  | MESSENGER => mes inp
  | _ => time_source sc inp
  end.

(** The number [datas] of defined field values that the loop finds for a
    spacecraft in the year of index [i]. *)
Definition datas_in_year (inp : inputs) (sc : spacecraft) (i : Z) : result Z :=
  s <- np_get yearly_start_times i ;;
  e <- np_get yearly_end_times i ;;
  datas_of (times (time_source sc inp)) (bts (field_source sc inp)) s e.

(** The samples of a year that have a magnetic field value. *)
Definition defined_in_year (m : insitu) (s e : Q) : insitu :=
  filter (fun x => Qltb s (time x) && Qltb (time x) e && notnan (bt x)) m.

(** The entries that the script sets by hand after the computation. *)
Definition pinned (sc : spacecraft) (i : nat) : bool :=
  match sc with
  | STA => Nat.eqb i 12
  | MAVEN => Nat.eqb i 7
  | _ => false
  end.

(** Every array has one entry per year, 2007 to 2019. *)
Definition days_shape (d : data_days) : Prop :=
  forall sc, length (days_of sc d) = 13%nat.

Definition rates_shape (r : rates) : Prop :=
  forall sc, length (hist_of sc r) = 13%nat.

(** The catalog events of a spacecraft, and their yearly counts. *)
Definition events_of (cat : list icme) (name : string) : list Q :=
  map icme_start_time (filter (fun r => String.eqb (sc_insitu r) name) cat).

Definition yearly_counts (cat : list icme) (name : string) : list Z :=
  np_histogram (events_of cat name) yearly_bin_edges.

(** One entry of [np.round(hist1 / total_data_days * 365.24, 1)]. *)
Definition computed_rate (c : Z) (x : npfloat) : npfloat :=
  np_round (fmul (fdiv (of_Z c) x) (Fin 365.24)) 1.

(** The value such an entry is set to. *)
Definition pinned_value (sc : spacecraft) : npfloat :=
  match sc with
  | STA => Fin 13
  | _ => NaN
  end.

End Rates.

(** ** Cells 11 to 14: sunspot number to ICME rate, error composition *)

Module Prediction.

Import NumPy Dates Rates.
Local Open Scope Q_scope.

(** The result of [scipy.stats.linregress]. *)
Record LinregressResult : Type := {
  slope : npfloat;
  intercept : npfloat;
  rvalue : npfloat;
  pvalue : npfloat;
  stderr : npfloat
}.

Definition triple : Type := (npfloat * npfloat * npfloat)%type.

Definition tup0 (t : triple) : npfloat := fst (fst t).
Definition tup1 (t : triple) : npfloat := snd (fst t).
Definition tup2 (t : triple) : npfloat := snd t.

Section Regression.

(** The global [linfit]; the functions below read it and ignore their
    [fitresult] argument, as in the script. *)
Variable linfit : LinregressResult.

(** The first definition of [ssn_to_rate], in force while [mean_stddev] is
    computed. *)
Definition ssn_to_rate_first (ssn : npfloat) (fitresult : LinregressResult) : triple :=
  let rate := fadd (fmul (slope linfit) ssn) (intercept linfit) in
  let rate_low :=
    fadd (fmul (fsub (slope linfit) (fmul (Fin 1) (stderr linfit))) ssn)
         (intercept linfit) in
  let rate_up :=
    fadd (fmul (fadd (slope linfit) (fmul (Fin 1) (stderr linfit))) ssn)
         (intercept linfit) in
  (rate, rate_low, rate_up).

(** [np.mean([np.std(ssn_to_rate(spots23,linfit)[0]-rc_rate23),
              np.std(ssn_to_rate(spots24,linfit)[0]-rc_rate24)])] *)
Definition mean_stddev (spots23 : ndarray) (rc_rate23 : list Z)
                       (spots24 : ndarray) (rc_rate24 : list Z) : result npfloat :=
  d23 <- broadcast2 fsub
           (map (fun s => tup0 (ssn_to_rate_first s linfit)) spots23)
           (of_ints rc_rate23) ;;
  d24 <- broadcast2 fsub
           (map (fun s => tup0 (ssn_to_rate_first s linfit)) spots24)
           (of_ints rc_rate24) ;;
  Ok (np_mean [np_std d23; np_std d24]).

(** The global [mean_stddev], once computed. *)
Variable mean_stddev_value : npfloat.

(** The final definition of [ssn_to_rate]. *)
Definition ssn_to_rate (ssn : npfloat) (fitresult : LinregressResult) : triple :=
  let rate := fadd (fmul (slope linfit) ssn) (intercept linfit) in
  let rate_low :=
    fsub (fadd (fmul (fsub (slope linfit) (fmul (Fin 1) (stderr linfit))) ssn)
               (intercept linfit))
         mean_stddev_value in
  let rate_up :=
    fadd (fadd (fmul (fadd (slope linfit) (fmul (Fin 1) (stderr linfit))) ssn)
               (intercept linfit))
         mean_stddev_value in
  (rate, rate_low, rate_up).

(** [ssn_to_rate(array, linfit)[k]] *)
Definition rate_of (spots : ndarray) : ndarray :=
  map (fun s => tup0 (ssn_to_rate s linfit)) spots.
Definition rate_low_of (spots : ndarray) : ndarray :=
  map (fun s => tup1 (ssn_to_rate s linfit)) spots.

(** [ic_rate24_std = icrate[2:].std1] and
    [ic_rate25_std = np.hstack([ic_rate24_std[0:-1], [2.0, 2.0, 2.0]])] *)
Definition ic_rate24_std (t : list icrate_row) : ndarray :=
  slice_from 2 (map std1 t).

Definition ic_rate25_std (t : list icrate_row) : ndarray :=
  drop_last (ic_rate24_std t) ++ [Fin 2.0; Fin 2.0; Fin 2.0].

(** 1. error from the SSN prediction:
    [np.round(((high - mid) + abs(low - mid)) / 2, 2)] *)
Definition ssnpred_error (mid low high : ndarray) : result ndarray :=
  up <- broadcast2 fsub high mid ;;
  down <- broadcast2 fsub low mid ;;
  s <- broadcast2 fadd up (map fabs down) ;;
  Ok (map (fun x => np_round x 2) (scalar_r fdiv s (Fin 2))).

(** 2. error from the fit: [np.round(mid - mid_low, 1)] *)
Definition ssnfit_error (mid mid_low : ndarray) : result ndarray :=
  d <- broadcast2 fsub mid mid_low ;;
  Ok (map (fun x => np_round x 1) d).

(** [np.round(np.sqrt(e1**2 + e2**2 + e3**2), 1)] *)
Definition std_of_three (e1 e2 e3 : ndarray) : result ndarray :=
  s <- broadcast2 fadd (map fsquare e1) (map fsquare e2) ;;
  s <- broadcast2 fadd s (map fsquare e3) ;;
  Ok (map (fun x => np_round x 1) (map fsqrt s)).

(** One entry of it. *)
Definition std_of_three_at (a b c : npfloat) : npfloat :=
  np_round (fsqrt (fadd (fadd (fsquare a) (fsquare b)) (fsquare c))) 1.

(** [np.round(np.sqrt(e1**2 + e2**2), 1)] *)
Definition std_of_two (e1 e2 : ndarray) : result ndarray :=
  s <- broadcast2 fadd (map fsquare e1) (map fsquare e2) ;;
  Ok (map (fun x => np_round x 1) (map fsqrt s)).

(** Cell 12, the mean cycle model: fit error and rate spread only. *)
Definition ic_rate_25_m_std (spots_predict_25m : ndarray) (t : list icrate_row)
  : result ndarray :=
  fit <- ssnfit_error (rate_of spots_predict_25m) (rate_low_of spots_predict_25m) ;;
  std_of_two fit (ic_rate25_std t).

(** Cell 13, the panel prediction. *)
Definition ic_rate_25_pp_std
    (spots_predict_25pp spots_predict_25pp_low spots_predict_25pp_high : ndarray)
    (t : list icrate_row) : result ndarray :=
  ic_rate25_std_pp_ssnpred <-
    ssnpred_error (rate_of spots_predict_25pp) (rate_of spots_predict_25pp_low)
                  (rate_of spots_predict_25pp_high) ;;
  ic_rate25_std_pp_ssnfit <-
    ssnfit_error (rate_of spots_predict_25pp) (rate_low_of spots_predict_25pp) ;;
  std_of_three ic_rate25_std_pp_ssnpred ic_rate25_std_pp_ssnfit (ic_rate25_std t).

(** Cell 14, the McIntosh et al. prediction. *)
Definition ic_rate_25_mc20_std
    (spots_predict_25 spots_predict_25_lower68 spots_predict_25_upper68 : ndarray)
    (t : list icrate_row) : result ndarray :=
  ic_rate25_std_mc20_ssnpred <-
    ssnpred_error (rate_of spots_predict_25) (rate_of spots_predict_25_lower68)
                  (rate_of spots_predict_25_upper68) ;;
  ic_rate25_std_mc20_ssnfit <-
    ssnfit_error (rate_of spots_predict_25) (rate_low_of spots_predict_25) ;;
  std_of_three ic_rate25_std_mc20_ssnpred ic_rate25_std_mc20_ssnfit (ic_rate25_std t).

End Regression.

End Prediction.

(** ** Cells 21 and 22: daily rates by spline, expected counts at PSP *)

Module Exposure.

Import NumPy Dates Rates Prediction.
Local Open Scope Q_scope.

(** A [scipy.interpolate.interp1d] object: the control points sorted by
    [x], the spline order and the [bounds_error] flag. *)
Record interp1d : Type := {
  ix : list Q;
  iy : ndarray;
  order : nat;
  bounds_error : bool
}.

Fixpoint insert_by_x (p : Q * npfloat) (l : list (Q * npfloat)) : list (Q * npfloat) :=
  match l with
  | [] => [p]
  | q :: t => if Qltb (fst p) (fst q) then p :: l else q :: insert_by_x p t
  end.

Fixpoint sort_by_x (l : list (Q * npfloat)) : list (Q * npfloat) :=
  match l with
  | [] => []
  | p :: t => insert_by_x p (sort_by_x t)
  end.

(** [interp1d(x, y, kind=k)] with an integer [k]: a spline of order [k];
    [bounds_error] is left at its default, which raises. *)
Definition make_interp1d (x : list Q) (y : ndarray) (kind : nat) : result interp1d :=
  if negb (Nat.eqb (length x) (length y)) then
    Raise (ValueError "x and y arrays must be equal in length along interpolation axis.")
  else if Nat.ltb (length x) (kind + 1) then
    Raise (ValueError "x and y arrays must have at least order + 1 entries")
  else
    let s := sort_by_x (combine x y) in
    Ok {| ix := map fst s; iy := map snd s; order := kind; bounds_error := true |}.

Section Spline.

(** The value of the interpolating spline of the given order through the
    control points, inside their span (scipy's [make_interp_spline]). *)
Variable spline : list Q -> ndarray -> nat -> Q -> npfloat.

(** [f(x_new)]: the bounds check of [interp1d._check_bounds], then the
    evaluation.  Out of bounds values with [bounds_error] off get the fill
    value NaN. *)
Definition interp1d_call (f : interp1d) (x_new : list Q) : result ndarray :=
  let below_bounds := map (fun t => Qltb t (hd 0 (ix f))) x_new in
  let above_bounds := map (fun t => Qltb (last (ix f) 0) t) x_new in
  if bounds_error f && existsb (fun b => b) below_bounds then
    Raise (ValueError "A value in x_new is below the interpolation range.")
  else if bounds_error f && existsb (fun b => b) above_bounds then
    Raise (ValueError "A value in x_new is above the interpolation range.")
  else
    Ok (map (fun t =>
               if Qltb t (hd 0 (ix f)) || Qltb (last (ix f) 0) t then NaN
               else spline (ix f) (iy f) (order f) t) x_new).

(** July 1 of 2020 to 2032, and the days from the first to the day before
    the last. *)
Definition yearly_mid_times_25_num : list Q :=
  map (fun y => plot_date y 7 1) (arange 2020 2033).

Definition times_25_daily_icrange_num : list Q :=
  let first := toordinal 2020 7 1 in
  let final := toordinal 2032 7 1 in
  map (fun n => inject_Z (first + n)) (range (Z.to_nat (final - first))).

(** PP19: [fpp], [fpp_high], [fpp_low] *)
Definition fpp (icmes_predict_25pp : ndarray) : result interp1d :=
  make_interp1d yearly_mid_times_25_num icmes_predict_25pp 2.

Definition fpp_high (icmes_predict_25pp ic_rate_25_pp_std : ndarray) : result interp1d :=
  icratepp_high <- broadcast2 fadd icmes_predict_25pp ic_rate_25_pp_std ;;
  make_interp1d yearly_mid_times_25_num icratepp_high 2.

Definition fpp_low (icmes_predict_25pp ic_rate_25_pp_std : ndarray) : result interp1d :=
  icratepp_low <- broadcast2 fsub icmes_predict_25pp ic_rate_25_pp_std ;;
  make_interp1d yearly_mid_times_25_num icratepp_low 2.

(** MC20: [fmc], [fmc_high], [fmc_low] *)
Definition fmc (icmes_predict_25mc : ndarray) : result interp1d :=
  make_interp1d yearly_mid_times_25_num icmes_predict_25mc 2.

Definition fmc_high (icmes_predict_25mc ic_rate_25_mc20_std : ndarray) : result interp1d :=
  icratemc_high <- broadcast2 fadd icmes_predict_25mc ic_rate_25_mc20_std ;;
  make_interp1d yearly_mid_times_25_num icratemc_high 2.

Definition fmc_low (icmes_predict_25mc ic_rate_25_mc20_std : ndarray) : result interp1d :=
  icratemc_low <- broadcast2 fsub icmes_predict_25mc ic_rate_25_mc20_std ;;
  make_interp1d yearly_mid_times_25_num icratemc_low 2.

(** [pspt_time]: the days from July 1, 2020 up to August 31, 2025, and
    the distance of the probe from the Sun on these days, which the
    script takes from the SPICE kernels. *)
Definition pspt_time_num : list Q :=
  let first := toordinal 2020 7 1 in
  let final := toordinal 2025 9 1 in
  map (fun n => inject_Z (first + n)) (range (Z.to_nat (final - first))).

Variable psp_distance : Q -> npfloat.

Definition psp_r : ndarray := map psp_distance pspt_time_num.

(** [np.where(psp_r < thr)[0]] *)
Definition psp_below (r : ndarray) (thr : Q) : list Z :=
  np_where (fun x => flt x (Fin thr)) r.

(** [curve / 365.24] *)
Definition per_day (curve : ndarray) : ndarray := scalar_r fdiv curve (Fin 365.24).

(** [np.sum(daily[idx])] *)
Definition sum_at (daily : ndarray) (idx : list Z) : result npfloat :=
  sel <- np_take daily idx ;;
  Ok (np_sum sel).

(** The three sums below one distance threshold, for the yearly-rate curves
    [mean], [low] and [high] given at daily resolution. *)
Definition expected_icmes (r : ndarray) (thr : Q) (mean low high : ndarray)
  : result triple :=
  let idx := psp_below r thr in
  let icmes_psp_predict_daily := per_day mean in
  let icmes_psp_predict_daily_low := per_day low in
  let icmes_psp_predict_daily_high := per_day high in
  c <- sum_at icmes_psp_predict_daily idx ;;
  l <- sum_at icmes_psp_predict_daily_low idx ;;
  h <- sum_at icmes_psp_predict_daily_high idx ;;
  Ok (c, l, h).

(** [int(np.rint(x))], what the script prints. *)
Definition printed (x : npfloat) : result Z := py_int (np_rint x).

(** Cell 22 for one triple of splines (MC20 or PP19) and one threshold:
    the splines are evaluated on [times_25_daily_icrange_num]. *)
Definition icmes_psp_predict (f f_low f_high : interp1d) (thr : Q)
  : result triple :=
  m <- interp1d_call f times_25_daily_icrange_num ;;
  l <- interp1d_call f_low times_25_daily_icrange_num ;;
  h <- interp1d_call f_high times_25_daily_icrange_num ;;
  expected_icmes psp_r thr m l h.

End Spline.

End Exposure.

(** ** Reference definitions, written from the specification's words *)

Module Reference.

Import NumPy Dates Rates.
Local Open Scope Q_scope.




(** The MAVEN data days of a year as the specification words them: the
    sum of the time differences between consecutive samples of that year
    with a defined magnitude, counting the differences below 0.25 day;
    undefined when the year has no such sample. *)
Definition mav_days_of_year (m : insitu) (s e : Q) : npfloat :=
  match defined_in_year m s e with
  | [] => NaN
  | d => np_sum (filter (fun g => flt g (Fin 0.25))
                        (np_diff (map (fun x => Fin (time x)) d)))
  end.

End Reference.

(** ** The error composition in binary64 *)

(** The exact arithmetic above leaves out the rounding of the float
    operations.  For the one expression where that rounding can be seen
    in the result, [np.round(np.sqrt(e1**2 + e2**2 + e3**2), 1)], this is
    the same expression on IEEE 754 binary64 numbers. *)
Module Binary64.

Local Open Scope float_scope.

(** [np.rint] for magnitudes below [2**52]: adding and subtracting
    [2**52] rounds to the nearest integer, halves to the even one. *)
Definition rint (x : float) : float :=
  let two52 := 4503599627370496 in
  if abs x <? two52 then
    if x <? 0 then (x - two52) + two52 else (x + two52) - two52
  else x.

(** [np.round(x, 1)] *)
Definition np_round1 (x : float) : float := rint (x * 10) / 10.

Definition std_of_three_at (a b c : float) : float :=
  np_round1 (sqrt (a * a + b * b + c * c)).

End Binary64.

(** ** Small inputs *)

Module Examples.

Import NumPy Dates Rates Prediction Exposure.
Local Open Scope Q_scope.

(** A sample with a measured field. *)
Definition measured (t : Q) : sample := {| time := t; bt := Fin 5 |}.

(** [n] samples, one minute apart, from midnight of a date. *)
Definition minutes_from (y m d : Z) (n : nat) : insitu :=
  map (fun k => measured (plot_date y m d + inject_Z (Z.of_nat k) / 1440)) (seq 0 n).

Definition no_data : inputs :=
  {| win := []; sta := []; stb := []; mes := []; mesnon := [];
     vexnon := []; mav := []; ic := [] |}.

(** Seven minutes of STEREO-A data in May 2019 and one STEREO-A event. *)
Definition sta_2019_input : inputs :=
  {| win := []; sta := minutes_from 2019 5 1 7; stb := []; mes := [];
     mesnon := []; vexnon := []; mav := [];
     ic := [ {| sc_insitu := "STEREO-A"; icme_start_time := plot_date 2019 5 1 |} ] |}.

(** Seven minutes of VEX data in May 2010 and one VEX event. *)
Definition vex_2010_input : inputs :=
  {| win := []; sta := []; stb := []; mes := []; mesnon := [];
     vexnon := minutes_from 2010 5 1 7; mav := [];
     ic := [ {| sc_insitu := "VEX"; icme_start_time := plot_date 2010 5 1 |} ] |}.

(** No in situ data at all and one Wind event in March 2018. *)
Definition wind_2018_input : inputs :=
  {| win := []; sta := []; stb := []; mes := []; mesnon := [];
     vexnon := []; mav := [];
     ic := [ {| sc_insitu := "Wind"; icme_start_time := plot_date 2018 3 1 |} ] |}.

(** MAVEN samples in two years: two in October 2014, a tenth of a day
    apart, and three in March 2015, 0.2 and 0.1 day apart. *)
Definition maven_two_years : insitu :=
  [ measured (plot_date 2014 10 1);
    measured (plot_date 2014 10 1 + 0.1);
    measured (plot_date 2015 3 1);
    measured (plot_date 2015 3 1 + 0.2);
    measured (plot_date 2015 3 1 + 0.3) ].

Definition maven_input : inputs :=
  {| win := []; sta := []; stb := []; mes := []; mesnon := [];
     vexnon := []; mav := maven_two_years; ic := [] |}.

(** A fit result and two short reference cycles: the fitted rates are 7
    and 25 against 8 and 24 observed, and 9 and 17 against 6 and 20. *)
Definition linfit_example : LinregressResult :=
  {| slope := Fin 0.2; intercept := Fin 5; rvalue := Fin 0.9;
     pvalue := Fin 0.001; stderr := Fin 0.02 |}.

Definition spots23_example : ndarray := [Fin 10; Fin 100].
Definition rc_rate23_example : list Z := [8; 24]%Z.
Definition spots24_example : ndarray := [Fin 20; Fin 60].
Definition rc_rate24_example : list Z := [6; 20]%Z.

(** Thirteen yearly sunspot predictions of 100, with bounds 90 and 110. *)
Definition spots_mid_example : ndarray := repeat (Fin 100) 13.
Definition spots_low_example : ndarray := repeat (Fin 90) 13.
Definition spots_high_example : ndarray := repeat (Fin 110) 13.

(** The [icrate] table computed from no data at all. *)
Definition icrate_example : list icrate_row :=
  match run_stage12 no_data with
  | Ok out => icrate_out out
  | Raise _ => []
  end.

(** Thirteen yearly rates, 20 to 32. *)
Definition yearly_rates_example : ndarray :=
  map (fun k => Fin (inject_Z (20 + Z.of_nat k))) (seq 0 13).

(** Ten daily distances, four of them below 0.3 AU, and a constant yearly
    rate of 18.262 per year, that is 0.05 per day. *)
Definition psp_r_example : ndarray :=
  [Fin 0.5; Fin 0.4; Fin 0.29; Fin 0.2; Fin 0.1; Fin 0.25; Fin 0.35;
   Fin 0.5; Fin 0.7; Fin 0.9].
Definition curve_example : ndarray := repeat (Fin 18.262) 12.

End Examples.

(** ** Invariants of the loop of cell 5 *)

Module Invariants.

Import NumPy Dates Rates.
Local Open Scope Q_scope.

(** A data-days entry is undefined or a positive number of days. *)
Definition positive_or_nan (x : npfloat) : Prop :=
  x = NaN \/ exists q, x = Fin q /\ 0 < q.

Definition days_positive (st : data_days) : Prop :=
  days_shape st /\
  forall sc j x, sc <> MAVEN -> nth_error (days_of sc st) j = Some x ->
                 positive_or_nan x.

End Invariants.

(** ** Cell 3: the events of a spacecraft, of solar minimum and maximum *)

Module Catalog.

Import NumPy Dates Rates.
Local Open Scope Q_scope.

Definition mercury_orbit_insertion_time : Q := plot_date 2011 3 18.

(** The limits of solar minimum and maximum: [timedelta(days=366*1.5)]
    before and a year after December 1, 2008; three years before and
    half a year, [timedelta(days=365/2)], after April 1, 2014. *)
Definition solarmin : Q := plot_date 2008 12 1.
Definition minstart : Q := solarmin - 366 * 1.5.
Definition minend : Q := solarmin + 365.

Definition solarmax : Q := plot_date 2014 4 1.
Definition maxstart : Q := solarmax - 365 * 3.
Definition maxend : Q := solarmax + 365 / 2.

(** [np.where(ic.sc_insitu == name)[0]]: [vexi], [wini], [mesi], ... *)
Definition sc_index (cat : list icme) (name : string) : list Z :=
  np_where (fun r => String.eqb (sc_insitu r) name) cat.

(** [merci]: MESSENGER after the orbit insertion at Mercury. *)
Definition merci (cat : list icme) : list Z :=
  np_where (fun r => String.eqb (sc_insitu r) "MESSENGER"
                     && Qltb mercury_orbit_insertion_time (icme_start_time r)) cat.

(** [np.where(np.logical_and(ic.icme_start_time > lo,
                             ic.icme_start_time < hi))[0]] *)
Definition iall (cat : list icme) (lo hi : Q) : list Z :=
  np_where (fun r => Qltb lo (icme_start_time r) && Qltb (icme_start_time r) hi) cat.

Definition iall_min (cat : list icme) : list Z := iall cat minstart minend.
Definition iall_max (cat : list icme) : list Z := iall cat maxstart maxend.

(** [idx[np.where(ic.sc_insitu[idx] == name)]] *)
Definition sc_within (cat : list icme) (idx : list Z) (name : string)
  : result (list Z) :=
  sc <- np_take (map sc_insitu cat) idx ;;
  np_take idx (np_where (fun s => String.eqb s name) sc).

Definition wini_min (cat : list icme) := sc_within cat (iall_min cat) "Wind".
Definition wini_max (cat : list icme) := sc_within cat (iall_max cat) "Wind".
Definition vexi_min (cat : list icme) := sc_within cat (iall_min cat) "VEX".
Definition vexi_max (cat : list icme) := sc_within cat (iall_max cat) "VEX".
Definition mesi_min (cat : list icme) := sc_within cat (iall_min cat) "MESSENGER".
Definition mesi_max (cat : list icme) := sc_within cat (iall_max cat) "MESSENGER".
Definition stai_min (cat : list icme) := sc_within cat (iall_min cat) "STEREO-A".
Definition stai_max (cat : list icme) := sc_within cat (iall_max cat) "STEREO-A".
Definition stbi_min (cat : list icme) := sc_within cat (iall_min cat) "STEREO-B".
Definition stbi_max (cat : list icme) := sc_within cat (iall_max cat) "STEREO-B".

(** [idx[np.where(np.logical_and(ic.sc_insitu[idx] == 'MESSENGER',
       ic.icme_start_time[idx] > parse_time('2011-03-18').datetime))]] *)
Definition merc_within (cat : list icme) (idx : list Z) : result (list Z) :=
  sc <- np_take (map sc_insitu cat) idx ;;
  t <- np_take (map icme_start_time cat) idx ;;
  np_take idx
    (np_where (fun p => String.eqb (fst p) "MESSENGER"
                        && Qltb (plot_date 2011 3 18) (snd p))
              (combine sc t)).

Definition merci_min (cat : list icme) := merc_within cat (iall_min cat).
Definition merci_max (cat : list icme) := merc_within cat (iall_max cat).

End Catalog.

(** ** Cells 7, 9 and 10: the yearly rates of the Richardson and Cane list *)

Module RichardsonCane.

Import NumPy Dates Rates.
Local Open Scope Q_scope.

(** The entries of an array that are numbers. *)
Definition finite_values (a : ndarray) : list Q :=
  flat_map (fun x => match x with Fin q => [q] | _ => [] end) a.

(** [np.linspace(lo, hi, num)] for [num >= 2] *)
Definition np_linspace (lo hi : Q) (num : nat) : list Q :=
  map (fun k => lo + inject_Z (Z.of_nat k) * ((hi - lo) / inject_Z (Z.of_nat (num - 1))))
      (seq 0 num).

(** [np.histogram(a, bins=n, range=(lo, hi))[0]]: [n] bins of equal width
    from [lo] to [hi]; entries outside the range are left out. *)
Definition np_histogram_range (a : ndarray) (bins : nat) (lo hi : Q) : list Z :=
  np_histogram (finite_values a) (np_linspace lo hi (S bins)).

Definition is_zero (x : npfloat) : bool :=
  match x with Fin q => Qeq_bool q 0 | _ => false end.

Fixpoint trim_front (a : ndarray) : ndarray :=
  match a with
  | [] => []
  | x :: t => if is_zero x then trim_front t else a
  end.

(** [np.trim_zeros(a)]: the leading and the trailing zeros are cut. *)
Definition np_trim_zeros (a : ndarray) : ndarray :=
  rev (trim_front (rev (trim_front a))).

Section Parsing.

(** [heliocats.stats.is_float] and Python's [float], whose code is not
    part of the repository. *)
Variable is_float : string -> bool.
Variable py_float : string -> result npfloat.

(** One pass of the loop over the rows of the list: the year is read from
    the first four characters of the disturbance time; a row whose year
    cannot be read keeps the zero of [np.zeros]. *)
Definition rc_year_at (rc_yearstr : string) : result npfloat :=
  if is_float (substring 0 4 rc_yearstr) then
    y <- py_float (substring 0 4 rc_yearstr) ;;
    if isfinite y then py_float (substring 0 4 rc_yearstr) else Ok (Fin 0)
  else Ok (Fin 0).

Definition rc_year (r1 : list string) : result ndarray := mapM rc_year_at r1.

(** [rc_year.sort(); rc_icme_per_year = np.trim_zeros(rc_year)] *)
Definition rc_icme_per_year (r1 : list string) : result ndarray :=
  y <- rc_year r1 ;;
  Ok (np_trim_zeros (np_sort y)).

(** [np.histogram(rc_icme_per_year, bins=24, range=(1996,2020))[0]] *)
Definition rc_rate_values (r1 : list string) : result (list Z) :=
  a <- rc_icme_per_year r1 ;;
  Ok (np_histogram_range a 24 1996 2020).

(** [rc_rate_values[0:13]] and [rc_rate_values[13:]] *)
Definition rc_rate23 (r1 : list string) : result (list Z) :=
  v <- rc_rate_values r1 ;; Ok (firstn 13 v).
Definition rc_rate24 (r1 : list string) : result (list Z) :=
  v <- rc_rate_values r1 ;; Ok (skipn 13 v).

(** What the loop leaves in [rc_year] for a row, when [float] raises
    nothing on the strings that [is_float] accepts. *)
Definition rc_year_value (rc_yearstr : string) : npfloat :=
  if is_float (substring 0 4 rc_yearstr) then
    match py_float (substring 0 4 rc_yearstr) with
    | Ok y => if isfinite y then y else Fin 0
    | Raise _ => Fin 0
    end
  else Fin 0.

(** A row whose year is a number from [lo] up to [hi]. *)
Definition year_between (lo hi : Q) (closed : bool) (rc_yearstr : string) : bool :=
  is_float (substring 0 4 rc_yearstr)
  && match py_float (substring 0 4 rc_yearstr) with
     | Ok (Fin y) =>
         Qle_bool lo y && (if closed then Qle_bool y hi else Qltb y hi)
     | _ => false
     end.

End Parsing.

(** [years23 = np.arange(1996,2009)] and [years24 = np.arange(2009,2020)] *)
Definition years23 : list Z := arange 1996 2009.
Definition years24 : list Z := arange 2009 2020.

End RichardsonCane.

(** ** Cells 19 and 20: perihelia and aphelia of a trajectory *)

Module Orbit.

Import NumPy Dates Rates.
Local Open Scope Q_scope.

(** The central differences [(f[2:] - f[:-2]) / (2. * 1.0)]. *)
Fixpoint gradient_interior (f : ndarray) : ndarray :=
  match f with
  | a :: ((_ :: c :: _) as t) =>
      fdiv (fsub c a) (fmul (Fin 2) (Fin 1)) :: gradient_interior t
  | _ => []
  end.

(** [np.gradient(f)] with unit spacing: one-sided differences at the two
    ends, central differences in between; fewer than two samples are an
    error. *)
Definition np_gradient (f : ndarray) : result ndarray :=
  match f, rev f with
  | f0 :: f1 :: _, fn :: fm :: _ =>
      Ok (fdiv (fsub f1 f0) (Fin 1)
            :: gradient_interior f ++ [fdiv (fsub fn fm) (Fin 1)])
  | _, _ =>
      Raise (ValueError "Shape of array too small to calculate a numerical gradient, at least (edge_order + 1) elements are required.")
  end.

(** [np.sign] *)
Definition np_sign (x : npfloat) : npfloat :=
  match x with
  | NaN => NaN
  | _ => match sign x with Lt => Fin (-1) | Eq => Fin 0 | Gt => Fin 1 end
  end.

(** The truth value of a float: everything but zero. *)
Definition nonzero (x : npfloat) : bool :=
  match x with Fin q => negb (Qeq_bool q 0) | _ => true end.

(** [dr = np.gradient(r); dr_minmax = np.where(np.diff(np.sign(dr)))[0]] *)
Definition dr_minmax (r : ndarray) : result (list Z) :=
  dr <- np_gradient r ;;
  Ok (np_where nonzero (np_diff (map np_sign dr))).

(** [np.arange(a, b, step)] for a positive step *)
Definition arange_step (a b step : Z) : list Z :=
  map (fun k => (a + step * Z.of_nat k)%Z)
      (seq 0 (Z.to_nat ((b - a + step - 1) / step))).

(** One label of the figure: the time and the distance, lowered by 0.038,
    of the extremum of index [i], and the number [int(i/2)+1]. *)
Definition label_at (t : list Q) (r : ndarray) (idx : list Z) (i : Z)
  : result (Q * npfloat * Z) :=
  k <- np_get idx i ;;
  x <- np_get t k ;;
  k' <- np_get idx i ;;
  y <- np_get r k' ;;
  n <- py_int (fdiv (of_Z i) (Fin 2)) ;;
  Ok (x, fsub y (Fin 0.038), (n + 1)%Z).

(** [for i in np.arange(0,48,2): ax1.text(...)] *)
Definition perihelion_labels (t : list Q) (r : ndarray) (idx : list Z)
  : result (list (Q * npfloat * Z)) :=
  mapM (label_at t r idx) (arange_step 0 48 2).

End Orbit.

(** ** More small inputs *)

Module MoreExamples.

Import NumPy Dates Rates.
Local Open Scope Q_scope.

(** A reader of three year strings, and four rows of the list: the last
    one has no year. *)
Definition toy_is_float (s : string) : bool :=
  String.eqb s "1996" || String.eqb s "2019" || String.eqb s "2020".

Definition toy_float (s : string) : result npfloat :=
  if String.eqb s "1996" then Ok (Fin 1996)
  else if String.eqb s "2019" then Ok (Fin 2019)
  else if String.eqb s "2020" then Ok (Fin 2020)
  else Raise (ValueError "could not convert string to float").

Definition rc_rows_example : list string :=
  ["1996/05/27 1500"%string; "2019/05/10 1700"%string;
   "2020/01/05 0600"%string; "nan"%string].

(** Three MESSENGER samples of June 2012 in the full file, [mesnon], and
    four samples of 2011, the first without a field value, in the file
    with the magnetosphere removed, [mes]. *)
Definition messenger_input : inputs :=
  {| win := []; sta := []; stb := [];
     mes := [ {| time := plot_date 2011 4 1; bt := NaN |};
              Examples.measured (plot_date 2011 4 2);
              Examples.measured (plot_date 2011 4 3);
              Examples.measured (plot_date 2011 4 4) ];
     mesnon := Examples.minutes_from 2012 6 1 3;
     vexnon := []; mav := []; ic := [] |}.

(** One MAVEN sample in March 2015 and one MAVEN event a day later. *)
Definition maven_one_sample_input : inputs :=
  {| win := []; sta := []; stb := []; mes := []; mesnon := []; vexnon := [];
     mav := [ Examples.measured (plot_date 2015 3 1) ];
     ic := [ {| sc_insitu := "MAVEN"; icme_start_time := plot_date 2015 3 2 |} ] |}.

End MoreExamples.

(* ================================================================== *)
(** * Properties *)
(* ================================================================== *)

Unset Implicit Arguments.

(** ** The exception monad *)

Lemma bind_Ok {A B : Type} (m : result A) (k : A -> result B) (b : B) :
  bind m k = Ok b -> exists a, m = Ok a /\ k a = Ok b.
Proof.
  destruct m as [a|e]; simpl; intros H.
  - exists a; split; [reflexivity | exact H].
  - discriminate H.
Qed.

Ltac bind_inv :=
  repeat match goal with
  | H : bind _ _ = Ok _ |- _ =>
      let a := fresh "v" in
      let E := fresh "E" in
      apply bind_Ok in H; destruct H as (a & E & H)
  end.

Lemma mapM_length {A B : Type} (f : A -> result B) (l : list A) (l' : list B) :
  mapM f l = Ok l' -> length l' = length l.
Proof.
  revert l'; induction l as [|x t IH]; simpl; intros l' H.
  - injection H as <-. reflexivity.
  - bind_inv. injection H as <-. simpl. f_equal. apply IH. assumption.
Qed.

Lemma mapM_nth_error {A B : Type} (f : A -> result B) (l : list A) (l' : list B) :
  mapM f l = Ok l' ->
  forall i x, nth_error l i = Some x ->
  exists y, f x = Ok y /\ nth_error l' i = Some y.
Proof.
  revert l'; induction l as [|a t IH]; simpl; intros l' H i x Hi.
  - destruct i; discriminate Hi.
  - bind_inv. injection H as <-. destruct i as [|i]; simpl in *.
    + injection Hi as <-. eauto.
    + eapply IH; eauto.
Qed.

Lemma mapM_all_ok {A B : Type} (f : A -> result B) (g : A -> B) (l : list A) :
  (forall x, In x l -> f x = Ok (g x)) -> mapM f l = Ok (map g l).
Proof.
  induction l as [|a t IH]; simpl; intros H; [reflexivity|].
  rewrite (H a) by (left; reflexivity). simpl.
  rewrite IH by (intros; apply H; right; assumption). reflexivity.
Qed.

Lemma for_each_invariant {S : Type} (P : S -> Prop) (body : Z -> S -> result S) :
  (forall i s s', P s -> body i s = Ok s' -> P s') ->
  forall l st st', P st -> for_each body l st = Ok st' -> P st'.
Proof.
  intros step l; induction l as [|i t IH]; simpl; intros st st' HP H.
  - injection H as <-. exact HP.
  - bind_inv. eapply IH; [|eassumption]. eapply step; eassumption.
Qed.

Lemma for_each_invariant_In {S : Type} (P : S -> Prop) (body : Z -> S -> result S) l :
  (forall i s s', In i l -> P s -> body i s = Ok s' -> P s') ->
  forall st st', P st -> for_each body l st = Ok st' -> P st'.
Proof.
  induction l as [|i t IH]; simpl; intros step st st' HP H.
  - injection H as <-. exact HP.
  - bind_inv. eapply IH; [| |eassumption].
    + intros j s s' Hj. apply step. now right.
    + eapply step; [now left | eassumption | eassumption].
Qed.

(** ** Indexing *)

Module ArrayFacts.

Import NumPy.

Lemma norm_index_lt n i j : norm_index n i = Some j -> (j < n)%nat.
Proof.
  unfold norm_index. destruct (i <? 0)%Z eqn:Hi.
  - destruct ((0 <=? i + Z.of_nat n) && (i + Z.of_nat n <? Z.of_nat n))%Z eqn:Hb;
      [|discriminate].
    intros [= <-]. apply andb_prop in Hb as [H1 H2]. lia.
  - destruct ((0 <=? i) && (i <? Z.of_nat n))%Z eqn:Hb; [|discriminate].
    intros [= <-]. apply andb_prop in Hb as [H1 H2]. lia.
Qed.

Lemma norm_index_nat n j : (j < n)%nat -> norm_index n (Z.of_nat j) = Some j.
Proof.
  intros H. unfold norm_index.
  replace (Z.of_nat j <? 0)%Z with false by (symmetry; apply Z.ltb_ge; lia).
  replace ((0 <=? Z.of_nat j) && (Z.of_nat j <? Z.of_nat n))%Z with true.
  - now rewrite Nat2Z.id.
  - symmetry; apply andb_true_intro; split; [apply Z.leb_le | apply Z.ltb_lt]; lia.
Qed.

Lemma np_get_nat {A : Type} (a : list A) j v :
  nth_error a j = Some v -> np_get a (Z.of_nat j) = Ok v.
Proof.
  intros H. unfold np_get.
  rewrite norm_index_nat by (apply nth_error_Some; congruence).
  now rewrite H.
Qed.

Lemma np_get_Ok {A : Type} (a : list A) i v :
  np_get a i = Ok v ->
  exists j, norm_index (length a) i = Some j /\ nth_error a j = Some v.
Proof.
  unfold np_get. destruct (norm_index (length a) i) as [j|]; [|discriminate].
  destruct (nth_error a j) as [w|] eqn:E; [|discriminate].
  intros [= <-]. eauto.
Qed.

Lemma set_nth_length {A : Type} (a : list A) j v : length (set_nth a j v) = length a.
Proof.
  revert j; induction a as [|x t IH]; intros [|j]; simpl; auto.
Qed.

Lemma nth_error_set_nth_eq {A : Type} (a : list A) j v :
  (j < length a)%nat -> nth_error (set_nth a j v) j = Some v.
Proof.
  revert j; induction a as [|x t IH]; intros [|j]; simpl; intros H;
    try lia; auto. apply IH. lia.
Qed.

Lemma nth_error_set_nth_ne {A : Type} (a : list A) j k v :
  j <> k -> nth_error (set_nth a j v) k = nth_error a k.
Proof.
  revert j k; induction a as [|x t IH]; intros [|j] [|k]; simpl; intros H;
    auto; try congruence.
Qed.

Lemma np_set_length {A : Type} (a a' : list A) i v :
  np_set a i v = Ok a' -> length a' = length a.
Proof.
  unfold np_set. destruct (norm_index (length a) i); [|discriminate].
  intros [= <-]. apply set_nth_length.
Qed.

Lemma np_set_Ok {A : Type} (a a' : list A) i v :
  np_set a i v = Ok a' ->
  exists j, norm_index (length a) i = Some j /\ a' = set_nth a j v.
Proof.
  unfold np_set. destruct (norm_index (length a) i) as [j|]; [|discriminate].
  intros [= <-]. eauto.
Qed.

Lemma where_from_map {A B : Type} (p : B -> bool) (g : A -> B) (l : list A) i :
  where_from p (map g l) i = where_from (fun x => p (g x)) l i.
Proof.
  revert i; induction l as [|x t IH]; simpl; intros i; [reflexivity|].
  rewrite IH. reflexivity.
Qed.

Lemma where_from_length {A : Type} (p : A -> bool) (l : list A) i :
  length (where_from p l i) = length (filter p l).
Proof.
  revert i; induction l as [|x t IH]; simpl; intros i; [reflexivity|].
  destruct (p x); simpl; rewrite IH; reflexivity.
Qed.

Lemma where_from_bounds {A : Type} (p : A -> bool) (l : list A) i k :
  In k (where_from p l i) -> (i <= k < i + Z.of_nat (length l))%Z.
Proof.
  revert i; induction l as [|x t IH]; simpl; intros i H; [contradiction|].
  destruct (p x); [destruct H as [<-|H]|]; try lia;
    apply IH in H; lia.
Qed.

(** Taking the positions found by [np.where] in an array of the same
    length selects the entries where the condition holds. *)
Lemma np_take_where_from {A B : Type} (p : A -> bool) (f : A -> B)
      (pre : list B) (l : list A) :
  np_take (pre ++ map f l) (where_from p l (Z.of_nat (length pre)))
  = Ok (map f (filter p l)).
Proof.
  revert pre; induction l as [|x t IH]; intros pre; simpl; [reflexivity|].
  assert (Hnext : np_take (pre ++ f x :: map f t)
                   (where_from p t (Z.of_nat (length pre) + 1)%Z)
                  = Ok (map f (filter p t))).
  { specialize (IH (pre ++ [f x])).
    rewrite <- app_assoc in IH. simpl in IH.
    rewrite length_app in IH. simpl in IH.
    replace (Z.of_nat (length pre + 1)) with (Z.of_nat (length pre) + 1)%Z in IH by lia.
    exact IH. }
  destruct (p x); [|exact Hnext].
  unfold np_take in *. simpl. rewrite Hnext.
  rewrite (@np_get_nat _ (pre ++ f x :: map f t) (length pre) (f x)).
  - reflexivity.
  - rewrite nth_error_app2 by lia. now rewrite Nat.sub_diag.
Qed.

Lemma np_take_where {A B : Type} (p : A -> bool) (f : A -> B) (l : list A) :
  np_take (map f l) (np_where p l) = Ok (map f (filter p l)).
Proof. exact (np_take_where_from p f [] l). Qed.

Lemma np_take_length {A : Type} (a : list A) idx sel :
  np_take a idx = Ok sel -> length sel = length idx.
Proof. apply mapM_length. Qed.

Lemma map2_length f a b : length (map2 f a b) = Nat.min (length a) (length b).
Proof. unfold map2. now rewrite length_map, length_combine. Qed.

Lemma map2_nth_error f a b i x y :
  nth_error a i = Some x -> nth_error b i = Some y ->
  nth_error (map2 f a b) i = Some (f x y).
Proof.
  unfold map2. revert b i; induction a as [|a0 a IH]; intros [|b0 b] [|i];
    simpl; intros Ha Hb; try discriminate.
  - injection Ha as <-. injection Hb as <-. reflexivity.
  - apply IH; assumption.
Qed.

Lemma broadcast2_same_length f a b :
  length a = length b -> broadcast2 f a b = Ok (map2 f a b).
Proof. intros H. unfold broadcast2. now rewrite H, Nat.eqb_refl. Qed.

Lemma np_histogram_length a bins : length (np_histogram a bins) = pred (length bins).
Proof.
  induction bins as [|lo [|hi rest] IH]; simpl in *; auto.
Qed.

End ArrayFacts.

(** ** Rounding and order of numpy floats *)

Module FloatFacts.

Import NumPy.
Local Open Scope Q_scope.

Lemma Qle_bool_false (a b : Q) : Qle_bool a b = false <-> b < a.
Proof.
  split; intros H.
  - destruct (Qlt_le_dec b a) as [L|L]; [exact L|].
    apply Qle_bool_iff in L. congruence.
  - destruct (Qle_bool a b) eqn:E; [|reflexivity].
    apply Qle_bool_iff in E. lra.
Qed.

Ltac qbool :=
  repeat match goal with
  | H : Qle_bool _ _ = true |- _ => apply Qle_bool_iff in H
  | H : Qle_bool _ _ = false |- _ => apply Qle_bool_false in H
  | |- Qle_bool _ _ = true => apply Qle_bool_iff
  | |- Qle_bool _ _ = false => apply Qle_bool_false
  end.

Lemma feq_refl x : feq x x.
Proof. destruct x; simpl; auto. reflexivity. Qed.

Lemma feq_sym x y : feq x y -> feq y x.
Proof. destruct x, y; simpl; auto. intros H; now symmetry. Qed.

Lemma feq_trans x y z : feq x y -> feq y z -> feq x z.
Proof.
  destruct x, y, z; simpl; auto; try contradiction.
  intros H1 H2; now rewrite H1.
Qed.

Lemma fle_feq_l a a' b : feq a a' -> fle a b = fle a' b.
Proof.
  destruct a, a', b; simpl; intros H; try contradiction; auto.
  now rewrite H.
Qed.

Lemma fle_feq_r a b b' : feq b b' -> fle a b = fle a b'.
Proof.
  destruct a, b, b'; simpl; intros H; try contradiction; auto.
  now rewrite H.
Qed.

Lemma fle_refl x : isnan x = false -> fle x x = true.
Proof. destruct x; simpl; intros H; try discriminate; auto. qbool. lra. Qed.

Lemma fle_trans x y z : fle x y = true -> fle y z = true -> fle x z = true.
Proof.
  destruct x, y, z; simpl; intros H1 H2; try discriminate; auto.
  qbool. lra.
Qed.

Lemma fle_total x y :
  isnan x = false -> isnan y = false -> fle x y = true \/ fle y x = true.
Proof.
  destruct x as [a| | |], y as [b| | |]; simpl; intros Hx Hy;
    try discriminate; auto.
  destruct (Qlt_le_dec b a); [right|left]; qbool; lra.
Qed.

Lemma fle_notnan x y : fle x y = true -> isnan x = false /\ isnan y = false.
Proof. destruct x, y; simpl; intros H; try discriminate; auto. Qed.

(** *** [rint] *)

Lemma rint_comp x y : x == y -> rint x = rint y.
Proof.
  intros H. unfold rint. rewrite (Qfloor_comp _ _ H).
  assert (E : x - inject_Z (Qfloor y) == y - inject_Z (Qfloor y))
    by (rewrite H; reflexivity).
  rewrite (Qcompare_comp _ _ E _ _ (Qeq_refl _)). reflexivity.
Qed.

Lemma rint_inject_Z k : rint (inject_Z k) = k.
Proof.
  unfold rint. rewrite Qfloor_Z.
  destruct (Qcompare_spec (inject_Z k - inject_Z k) (1 # 2)) as [H|H|H];
    try reflexivity; exfalso; lra.
Qed.

(** [rint] is within one half of its argument. *)
Lemma rint_near x :
  inject_Z (rint x) - (1 # 2) <= x /\ x <= inject_Z (rint x) + (1 # 2).
Proof.
  unfold rint.
  pose proof (Qfloor_le x) as L. pose proof (Qlt_floor x) as U.
  rewrite inject_Z_plus in U. change (inject_Z 1) with 1 in U.
  destruct (Qcompare_spec (x - inject_Z (Qfloor x)) (1 # 2)) as [H|H|H].
  - destruct (Z.even (Qfloor x));
      [|rewrite inject_Z_plus; change (inject_Z 1) with 1]; lra.
  - lra.
  - rewrite inject_Z_plus; change (inject_Z 1) with 1; lra.
Qed.

Lemma rint_floor x : (Qfloor x <= rint x <= Qfloor x + 1)%Z.
Proof.
  unfold rint. destruct (Qcompare _ _); [destruct (Z.even _)|..]; lia.
Qed.

Lemma rint_mono x y : x <= y -> (rint x <= rint y)%Z.
Proof.
  intros H. pose proof (Qfloor_resp_le _ _ H) as F.
  pose proof (rint_floor x) as Hx. pose proof (rint_floor y) as Hy.
  destruct (Z.eq_dec (Qfloor x) (Qfloor y)) as [E|NE]; [|lia].
  unfold rint. rewrite <- E.
  destruct (Qcompare_spec (x - inject_Z (Qfloor x)) (1 # 2)) as [H1|H1|H1];
  destruct (Qcompare_spec (y - inject_Z (Qfloor x)) (1 # 2)) as [H2|H2|H2];
  try destruct (Z.even (Qfloor x)); try lia; exfalso; lra.
Qed.

(** *** [np.round] *)

Lemma np_round_feq x y d : feq x y -> feq (np_round x d) (np_round y d).
Proof.
  destruct x as [a| | |], y as [b| | |]; simpl; intros H; try contradiction; auto.
  assert (E : a * inject_Z (Z.pos (pow10 d)) == b * inject_Z (Z.pos (pow10 d)))
    by (rewrite H; reflexivity).
  rewrite (rint_comp _ _ E). reflexivity.
Qed.

Lemma np_round_mono x y d :
  fle x y = true -> fle (np_round x d) (np_round y d) = true.
Proof.
  destruct x as [a| | |], y as [b| | |]; simpl; intros H; try discriminate; auto.
  qbool. unfold Qle; simpl.
  apply Z.mul_le_mono_nonneg_r; [lia|].
  apply rint_mono.
  apply Qmult_le_compat_r; [exact H|].
  unfold Qle; simpl; lia.
Qed.

(** Rounding a value that is already rounded changes nothing. *)
Lemma np_round_idem x d : feq (np_round (np_round x d) d) (np_round x d).
Proof.
  destruct x as [a| | |]; simpl; auto.
  set (k := rint (a * inject_Z (Z.pos (pow10 d)))).
  assert (E : (k # pow10 d) * inject_Z (Z.pos (pow10 d)) == inject_Z k)
    by (unfold Qeq, Qmult, inject_Z; simpl; lia).
  rewrite (rint_comp _ _ E), rint_inject_Z. reflexivity.
Qed.


(** Between two rounded bounds, the rounded value stays between them. *)
Lemma np_round_between lo hi x d :
  feq (np_round lo d) lo -> feq (np_round hi d) hi ->
  fle lo x = true -> fle x hi = true ->
  fle lo (np_round x d) = true /\ fle (np_round x d) hi = true.
Proof.
  intros Hlo Hhi L U. split.
  - rewrite <- (fle_feq_l _ _ (np_round x d) Hlo). now apply np_round_mono.
  - rewrite <- (fle_feq_r (np_round x d) _ _ Hhi). now apply np_round_mono.
Qed.

End FloatFacts.

(** ** Cells 5 and 6: shapes and entries of the arrays *)

Module RatesFacts.

Import NumPy Dates Rates ArrayFacts FloatFacts.
Local Open Scope Q_scope.

Lemma set_days_length a i datas m a' :
  set_days a i datas m = Ok a' -> length a' = length a.
Proof.
  unfold set_days. destruct (0 <? datas)%Z.
  - apply np_set_length.
  - now intros [= <-].
Qed.

Lemma mav_days_length m a i s e a' :
  mav_days m a i s e = Ok a' -> length a' = length a.
Proof.
  unfold mav_days. intros H. bind_inv.
  destruct (0 <? _)%Z.
  - bind_inv. eapply np_set_length; eassumption.
  - now injection H as <-.
Qed.

Lemma data_days_init_shape : days_shape data_days_init.
Proof. intros []; reflexivity. Qed.

Lemma year_step_shape inp i st st' :
  days_shape st -> year_step inp i st = Ok st' -> days_shape st'.
Proof.
  intros Hs H. unfold year_step in H. bind_inv. injection H as <-.
  repeat match goal with
  | E : set_days _ _ _ _ = Ok _ |- _ => apply set_days_length in E
  | E : mav_days _ _ _ _ _ = Ok _ |- _ => apply mav_days_length in E
  | E : np_set _ _ _ = Ok _ |- _ => apply np_set_length in E
  end.
  pose proof (Hs Wind). pose proof (Hs VEX). pose proof (Hs STA).
  pose proof (Hs STB). pose proof (Hs MESSENGER). pose proof (Hs MAVEN).
  simpl in *. intros []; simpl; congruence.
Qed.

Lemma total_data_days_shape inp d : total_data_days inp = Ok d -> days_shape d.
Proof.
  unfold total_data_days.
  apply (for_each_invariant days_shape (year_step inp)).
  - intros i s s'. apply year_step_shape.
  - apply data_days_init_shape.
Qed.

(** The yearly counts are what the histogram of the catalog events gives. *)
Lemma hist1_of_counts cat name : hist1_of cat name = Ok (yearly_counts cat name).
Proof.
  unfold hist1_of, start_times_of. rewrite np_take_where. reflexivity.
Qed.

Lemma yearly_counts_length cat name : length (yearly_counts cat name) = 13%nat.
Proof. unfold yearly_counts. rewrite np_histogram_length. reflexivity. Qed.

Lemma np_histogram_nonneg a bins c : In c (np_histogram a bins) -> (0 <= c)%Z.
Proof.
  induction bins as [|lo [|hi rest] IH]; simpl; try contradiction.
  intros [<-|H]; [unfold count_in; lia | auto].
Qed.

Lemma corrected_rate_same_length h d :
  length h = length d ->
  corrected_rate h d
  = Ok (map2 (fun c x => np_round (fmul (fdiv c x) (Fin 365.24)) 1) (of_ints h) d).
Proof.
  intros H. unfold corrected_rate.
  rewrite broadcast2_same_length by (unfold of_ints; now rewrite length_map).
  simpl. unfold scalar_r, map2. rewrite !map_map. reflexivity.
Qed.

Lemma corrected_rate_length h d r :
  length h = length d -> corrected_rate h d = Ok r -> length r = length d.
Proof.
  intros H. rewrite corrected_rate_same_length by assumption.
  intros [= <-]. rewrite map2_length. unfold of_ints. rewrite length_map. lia.
Qed.

Lemma corrected_rate_nth h d r i c x :
  length h = length d -> corrected_rate h d = Ok r ->
  nth_error h i = Some c -> nth_error d i = Some x ->
  nth_error r i = Some (computed_rate c x).
Proof.
  unfold computed_rate.
  intros H. rewrite corrected_rate_same_length by assumption.
  intros [= <-] Hc Hx.
  apply (map2_nth_error (fun c x => np_round (fmul (fdiv c x) (Fin 365.24)) 1)).
  - unfold of_ints. rewrite nth_error_map, Hc. reflexivity.
  - exact Hx.
Qed.

Lemma np_set_13 (a a' : ndarray) k j v :
  length a = 13%nat -> norm_index 13 k = Some j -> np_set a k v = Ok a' ->
  length a' = 13%nat /\
  forall i, nth_error a' i
            = if Nat.eqb i j then Some v else nth_error a i.
Proof.
  intros La Hk H. apply np_set_Ok in H as (j' & Hj & ->).
  rewrite La, Hk in Hj. injection Hj as <-.
  split; [now rewrite set_nth_length|].
  intros i. destruct (Nat.eqb i j) eqn:E.
  - apply Nat.eqb_eq in E as ->. apply nth_error_set_nth_eq.
    rewrite La. eapply norm_index_lt; eassumption.
  - apply Nat.eqb_neq in E. apply nth_error_set_nth_ne. congruence.
Qed.

Lemma corrected_rate_13 cat name dd a :
  length dd = 13%nat -> corrected_rate (yearly_counts cat name) dd = Ok a ->
  length a = 13%nat /\
  forall i c x, nth_error (yearly_counts cat name) i = Some c ->
                nth_error dd i = Some x ->
                nth_error a i = Some (computed_rate c x).
Proof.
  intros Ld E.
  assert (Lh : length (yearly_counts cat name) = length dd)
    by (rewrite yearly_counts_length; congruence).
  split.
  - rewrite (corrected_rate_length _ _ _ Lh E). exact Ld.
  - intros i c x Hc Hx. exact (corrected_rate_nth _ _ _ _ _ _ Lh E Hc Hx).
Qed.

(** What cell 6 leaves in the six rate arrays. *)
Lemma icme_rates_entry inp d r :
  days_shape d -> icme_rates inp d = Ok r ->
  rates_shape r /\
  forall sc i c x,
    nth_error (yearly_counts (ic inp) (sc_name sc)) i = Some c ->
    nth_error (days_of sc d) i = Some x ->
    nth_error (hist_of sc r) i
    = Some (if pinned sc i then pinned_value sc else computed_rate c x).
Proof.
  intros Hd H. unfold icme_rates in H.
  rewrite !hist1_of_counts in H. cbn [bind] in H. bind_inv. injection H as <-.
  pose proof (Hd Wind) as Lw. pose proof (Hd VEX) as Lv.
  pose proof (Hd STA) as La. pose proof (Hd STB) as Lb.
  pose proof (Hd MESSENGER) as Lm. pose proof (Hd MAVEN) as Lmv.
  simpl in Lw, Lv, La, Lb, Lm, Lmv.
  assert (Lc : forall name, length (yearly_counts (ic inp) name) = 13%nat)
    by (intros; apply yearly_counts_length).
  repeat match goal with
  | E : corrected_rate (yearly_counts ?cat ?name) ?dd = Ok ?a |- _ =>
      let L := fresh "L" in
      let N := fresh "N" in
      destruct (corrected_rate_13 cat name dd a) as [L N]; [assumption | exact E |];
      clear E
  end.
  match goal with
  | E : np_set _ (-1) _ = Ok _ |- _ =>
      apply (np_set_13 _ _ (-1) 12%nat) in E as [Ls Ns]; [|assumption|reflexivity]
  end.
  match goal with
  | E : np_set _ 7 _ = Ok _ |- _ =>
      apply (np_set_13 _ _ 7 7%nat) in E as [Lp Np]; [|assumption|reflexivity]
  end.
  split.
  - intros []; simpl; assumption.
  - intros [] i c x Hc Hx; simpl in *; auto.
    + rewrite Ns. destruct (Nat.eqb i 12); [reflexivity | auto].
    + rewrite Np. destruct (Nat.eqb i 7); [reflexivity | auto].
Qed.

End RatesFacts.

(** ** The NaN-aware statistics *)

Module StatsFacts.

Import NumPy ArrayFacts FloatFacts.
Local Open Scope Q_scope.

(** *** [nanmax] and [nanmin] *)

Lemma fmax_nan_r x : fmax x NaN = x.
Proof. destruct x; reflexivity. Qed.

Lemma fmin_nan_r x : fmin x NaN = x.
Proof. destruct x; reflexivity. Qed.

Lemma fmax_cases x y : fmax x y = x \/ fmax x y = y.
Proof.
  destruct x, y; simpl; auto; destruct (Qle_bool _ _); auto.
Qed.

Lemma fmin_cases x y : fmin x y = x \/ fmin x y = y.
Proof.
  destruct x, y; simpl; auto; destruct (Qle_bool _ _); auto.
Qed.

Lemma fmax_ge_l x y : isnan x = false -> fle x (fmax x y) = true.
Proof.
  destruct x as [a| | |], y as [b| | |]; simpl; intros H; try discriminate; auto;
    try (qbool; lra).
  destruct (Qle_bool a b) eqn:E; simpl; qbool; lra.
Qed.

Lemma fmax_ge_r x y : isnan y = false -> fle y (fmax x y) = true.
Proof.
  destruct x as [a| | |], y as [b| | |]; simpl; intros H; try discriminate; auto;
    try (qbool; lra).
  destruct (Qle_bool a b) eqn:E; simpl; qbool; lra.
Qed.

Lemma fmin_le_l x y : isnan x = false -> fle (fmin x y) x = true.
Proof.
  destruct x as [a| | |], y as [b| | |]; simpl; intros H; try discriminate; auto;
    try (qbool; lra).
  destruct (Qle_bool a b) eqn:E; simpl; qbool; lra.
Qed.

Lemma fmin_le_r x y : isnan y = false -> fle (fmin x y) y = true.
Proof.
  destruct x as [a| | |], y as [b| | |]; simpl; intros H; try discriminate; auto;
    try (qbool; lra).
  destruct (Qle_bool a b) eqn:E; simpl; qbool; lra.
Qed.

(** The reduction with [fmax] returns an entry of the array that bounds
    every entry that is not NaN. *)
Lemma fold_fmax_spec t x :
  In (fold_left fmax t x) (x :: t) /\
  (forall z, In z (x :: t) -> isnan z = false -> fle z (fold_left fmax t x) = true).
Proof.
  revert x; induction t as [|y t IH]; intros x; simpl.
  - split; [auto|]. intros z [E|[]] Hz. subst z. now apply fle_refl.
  - destruct (IH (fmax x y)) as [Hin Hge]. split.
    + destruct Hin as [E|Hin]; [|auto]. rewrite <- E.
      destruct (fmax_cases x y) as [F|F]; rewrite F; auto.
    + intros z Hz Hn. destruct Hz as [E|[E|Hz]]; [subst z | subst z |].
      * apply fle_trans with (fmax x y); [now apply fmax_ge_l|].
        apply Hge; [now left|].
        pose proof (fmax_ge_l x y Hn) as G. now apply fle_notnan in G.
      * apply fle_trans with (fmax x y); [now apply fmax_ge_r|].
        apply Hge; [now left|].
        pose proof (fmax_ge_r x y Hn) as G. now apply fle_notnan in G.
      * apply Hge; [now right | assumption].
Qed.

Lemma fold_fmin_spec t x :
  In (fold_left fmin t x) (x :: t) /\
  (forall z, In z (x :: t) -> isnan z = false -> fle (fold_left fmin t x) z = true).
Proof.
  revert x; induction t as [|y t IH]; intros x; simpl.
  - split; [auto|]. intros z [E|[]] Hz. subst z. now apply fle_refl.
  - destruct (IH (fmin x y)) as [Hin Hge]. split.
    + destruct Hin as [E|Hin]; [|auto]. rewrite <- E.
      destruct (fmin_cases x y) as [F|F]; rewrite F; auto.
    + intros z Hz Hn. destruct Hz as [E|[E|Hz]]; [subst z | subst z |].
      * apply fle_trans with (fmin x y); [|now apply fmin_le_l].
        apply Hge; [now left|].
        pose proof (fmin_le_l x y Hn) as G. now apply fle_notnan in G.
      * apply fle_trans with (fmin x y); [|now apply fmin_le_r].
        apply Hge; [now left|].
        pose proof (fmin_le_r x y Hn) as G. now apply fle_notnan in G.
      * apply Hge; [now right | assumption].
Qed.

Lemma nanmax_spec l mx :
  nanmax l = Ok mx ->
  In mx l /\ (forall z, In z l -> isnan z = false -> fle z mx = true).
Proof.
  destruct l as [|x t]; simpl; [discriminate|]. intros [= <-].
  apply fold_fmax_spec.
Qed.

Lemma nanmin_spec l mn :
  nanmin l = Ok mn ->
  In mn l /\ (forall z, In z l -> isnan z = false -> fle mn z = true).
Proof.
  destruct l as [|x t]; simpl; [discriminate|]. intros [= <-].
  apply fold_fmin_spec.
Qed.

(** *** Sums *)

Lemma count_notnan_cons x l :
  count_notnan (x :: l)
  = if isnan x then count_notnan l else S (count_notnan l).
Proof. unfold count_notnan, notnan. simpl. destruct (isnan x); reflexivity. Qed.

Lemma inject_Z_S n : inject_Z (Z.of_nat (S n)) == inject_Z (Z.of_nat n) + 1.
Proof. rewrite Nat2Z.inj_succ, <- Z.add_1_r, inject_Z_plus. reflexivity. Qed.

Lemma fold_fadd_lower lo l :
  (forall x, In x l -> x = NaN \/ exists q, x = Fin q /\ lo <= q) ->
  forall a, exists s,
    fold_left fadd (map nan_to_zero l) (Fin a) = Fin s /\
    a + inject_Z (Z.of_nat (count_notnan l)) * lo <= s.
Proof.
  induction l as [|x t IH]; intros H a; cbn [map fold_left].
  - exists a. split; [reflexivity|]. unfold count_notnan; simpl.
    change (inject_Z 0) with 0. lra.
  - rewrite count_notnan_cons.
    destruct (H x (or_introl eq_refl)) as [->|(q & -> & Hq)];
      cbn [isnan nan_to_zero fadd].
    + destruct (IH (fun y Hy => H y (or_intror Hy)) (a + 0)) as (s & Es & Hs).
      exists s. split; [exact Es | lra].
    + destruct (IH (fun y Hy => H y (or_intror Hy)) (a + q)) as (s & Es & Hs).
      exists s. split; [exact Es|]. rewrite inject_Z_S. lra.
Qed.

Lemma fold_fadd_upper hi l :
  (forall x, In x l -> x = NaN \/ exists q, x = Fin q /\ q <= hi) ->
  forall a, exists s,
    fold_left fadd (map nan_to_zero l) (Fin a) = Fin s /\
    s <= a + inject_Z (Z.of_nat (count_notnan l)) * hi.
Proof.
  induction l as [|x t IH]; intros H a; cbn [map fold_left].
  - exists a. split; [reflexivity|]. unfold count_notnan; simpl.
    change (inject_Z 0) with 0. lra.
  - rewrite count_notnan_cons.
    destruct (H x (or_introl eq_refl)) as [->|(q & -> & Hq)];
      cbn [isnan nan_to_zero fadd].
    + destruct (IH (fun y Hy => H y (or_intror Hy)) (a + 0)) as (s & Es & Hs).
      exists s. split; [exact Es | lra].
    + destruct (IH (fun y Hy => H y (or_intror Hy)) (a + q)) as (s & Es & Hs).
      exists s. split; [exact Es|]. rewrite inject_Z_S. lra.
Qed.

(** With no negative infinity, one positive infinity makes the sum
    infinite. *)
Lemma fold_fadd_pinf_acc l :
  (forall x, In x l -> x <> NInf) ->
  fold_left fadd (map nan_to_zero l) PInf = PInf.
Proof.
  induction l as [|x t IH]; intros H; cbn [map fold_left]; [reflexivity|].
  assert (E : fadd PInf (nan_to_zero x) = PInf).
  { destruct x; simpl; auto. exfalso. apply (H NInf); [now left | reflexivity]. }
  rewrite E. apply IH. intros y Hy. apply H. now right.
Qed.

Lemma fold_fadd_pinf l :
  (forall x, In x l -> x <> NInf) -> In PInf l ->
  forall a, fold_left fadd (map nan_to_zero l) (Fin a) = PInf.
Proof.
  induction l as [|x t IH]; intros H Hin a; [contradiction|].
  assert (Ht : forall y, In y t -> y <> NInf) by (intros y Hy; apply H; now right).
  cbn [map fold_left].
  destruct Hin as [->|Hin].
  - cbn [nan_to_zero isnan fadd]. now apply fold_fadd_pinf_acc.
  - destruct x as [q| | |]; cbn [nan_to_zero isnan fadd].
    + now apply IH.
    + now apply fold_fadd_pinf_acc.
    + exfalso. apply (H NInf); [now left | reflexivity].
    + now apply IH.
Qed.

Lemma count_notnan_pos l x : In x l -> isnan x = false -> (0 < count_notnan l)%nat.
Proof.
  intros Hin Hx. unfold count_notnan.
  assert (In x (filter notnan l))
    by (apply filter_In; split; [assumption | unfold notnan; now rewrite Hx]).
  destruct (filter notnan l); [contradiction | simpl; lia].
Qed.

(** *** The mean lies between the bounds of the entries *)

Lemma of_nat_pos n : (0 < n)%nat -> 0 < inject_Z (Z.of_nat n).
Proof. intros H. unfold Qlt; simpl. lia. Qed.

Lemma fdiv_fin_pos s n :
  (0 < n)%nat -> fdiv (Fin s) (of_nat n) = Fin (s / inject_Z (Z.of_nat n)).
Proof.
  intros H. unfold fdiv, of_nat.
  destruct (Qeq_bool (inject_Z (Z.of_nat n)) 0) eqn:E; [|reflexivity].
  apply Qeq_bool_eq in E. pose proof (of_nat_pos n H). lra.
Qed.

Lemma fdiv_pinf_pos n : (0 < n)%nat -> fdiv PInf (of_nat n) = PInf.
Proof.
  intros H. unfold fdiv, of_nat.
  destruct (Qle_bool 0 (inject_Z (Z.of_nat n))) eqn:E; [reflexivity|].
  apply Qle_bool_false in E. pose proof (of_nat_pos n H). lra.
Qed.

Lemma nanmean_between l mn mx :
  (forall x, In x l ->
     x = NaN \/ (x <> NInf /\ fle mn x = true /\ fle x mx = true)) ->
  (exists x, In x l /\ isnan x = false) ->
  fle mn (nanmean l) = true /\ fle (nanmean l) mx = true.
Proof.
  intros H (x0 & Hin0 & Hn0).
  pose proof (count_notnan_pos l x0 Hin0 Hn0) as Hcnt.
  assert (Hx0 : x0 <> NInf /\ fle mn x0 = true /\ fle x0 mx = true).
  { destruct (H x0 Hin0) as [->|G]; [discriminate Hn0 | exact G]. }
  destruct Hx0 as (N0 & L0 & U0).
  assert (Hnn : forall x, In x l -> x <> NInf).
  { intros x Hx. destruct (H x Hx) as [->|[G _]]; [discriminate | exact G]. }
  unfold nanmean, np_sum.
  destruct (existsb is_pinf l) eqn:Ep.
  - (* an infinite entry *)
    apply existsb_exists in Ep as (p & Hp & Ip).
    destruct p; try discriminate Ip.
    rewrite (fold_fadd_pinf l Hnn Hp 0), (fdiv_pinf_pos _ Hcnt).
    destruct (H PInf Hp) as [G|(_ & Lp & Up)]; [discriminate G|].
    destruct mx; try discriminate Up.
    split; [|reflexivity].
    destruct mn; try discriminate Lp; reflexivity.
  - (* finite entries only *)
    assert (Hfin : forall x, In x l -> x = NaN \/ exists q, x = Fin q).
    { intros x Hx. destruct x as [q| | |]; eauto.
      - exfalso. assert (G : existsb is_pinf l = true)
          by (apply existsb_exists; exists PInf; auto). congruence.
      - exfalso. now apply (Hnn NInf Hx). }
    destruct (Hfin x0 Hin0) as [->|(q0 & ->)]; [discriminate Hn0|].
    assert (Hs : exists s, fold_left fadd (map nan_to_zero l) (Fin 0) = Fin s).
    { clear - Hfin. generalize 0 as a.
      induction l as [|x t IH]; intros a; cbn [map fold_left]; [eauto|].
      destruct (Hfin x (or_introl eq_refl)) as [->|(q & ->)];
        cbn [nan_to_zero isnan fadd];
        apply IH; intros y Hy; apply Hfin; now right. }
    destruct Hs as (s & Es). rewrite Es, (fdiv_fin_pos _ _ Hcnt).
    pose proof (of_nat_pos _ Hcnt) as Hp.
    split.
    + destruct mn as [lo| | |]; try discriminate L0; [|reflexivity].
      destruct (fold_fadd_lower lo l) with (a := 0) as (s' & Es' & Hs').
      { intros x Hx. destruct (H x Hx) as [->|(_ & Lx & _)]; [now left|].
        destruct (Hfin x Hx) as [->|(q & ->)]; [now left|].
        right. exists q. split; [reflexivity|]. simpl in Lx. now qbool. }
      rewrite Es in Es'. injection Es' as <-.
      simpl. qbool. apply Qle_shift_div_l; [exact Hp | lra].
    + destruct mx as [hi| | |]; try discriminate U0; [|reflexivity].
      destruct (fold_fadd_upper hi l) with (a := 0) as (s' & Es' & Hs').
      { intros x Hx. destruct (H x Hx) as [->|(_ & _ & Ux)]; [now left|].
        destruct (Hfin x Hx) as [->|(q & ->)]; [now left|].
        right. exists q. split; [reflexivity|]. simpl in Ux. now qbool. }
      rewrite Es in Es'. injection Es' as <-.
      simpl. qbool. apply Qle_shift_div_r; [exact Hp | lra].
Qed.

(** Without NaN the NaN-aware mean is the plain mean. *)
Lemma np_mean_nanmean l :
  (forall x, In x l -> isnan x = false) -> np_mean l = nanmean l.
Proof.
  intros H. unfold np_mean, nanmean, count_notnan.
  assert (E1 : map nan_to_zero l = l).
  { induction l as [|x t IH]; simpl; [reflexivity|].
    unfold nan_to_zero at 1. rewrite (H x (or_introl eq_refl)).
    f_equal. apply IH. intros y Hy. apply H. now right. }
  assert (E2 : filter notnan l = l).
  { clear E1. induction l as [|x t IH]; simpl; [reflexivity|].
    unfold notnan at 1. rewrite (H x (or_introl eq_refl)). simpl.
    f_equal. apply IH. intros y Hy. apply H. now right. }
  now rewrite E1, E2.
Qed.

(** *** The median *)

Lemma insert_sorted_In x y l : In y (insert_sorted x l) -> y = x \/ In y l.
Proof.
  induction l as [|z t IH]; simpl.
  - intros [<-|[]]; auto.
  - destruct (fle x z); simpl.
    + intros [<-|[<-|H]]; auto.
    + intros [<-|H]; auto. destruct (IH H); auto.
Qed.

Lemma np_sort_In y l : In y (np_sort l) -> In y l.
Proof.
  induction l as [|x t IH]; simpl; [auto|].
  intros H. apply insert_sorted_In in H as [->|H]; auto.
Qed.

Lemma insert_sorted_length x l : length (insert_sorted x l) = S (length l).
Proof.
  induction l as [|z t IH]; simpl; [reflexivity|].
  destruct (fle x z); simpl; auto.
Qed.

Lemma np_sort_length l : length (np_sort l) = length l.
Proof.
  induction l as [|x t IH]; simpl; [reflexivity|].
  now rewrite insert_sorted_length, IH.
Qed.

Lemma slice_nonempty {A : Type} (s : list A) j k :
  (j < length s)%nat -> (0 < k)%nat -> firstn k (skipn j s) <> [].
Proof.
  intros Hj Hk E.
  assert (L : length (firstn k (skipn j s)) = 0%nat) by now rewrite E.
  rewrite length_firstn, length_skipn in L. lia.
Qed.

Lemma In_firstn {A : Type} (l : list A) k x : In x (firstn k l) -> In x l.
Proof.
  revert k; induction l as [|y t IH]; intros [|k]; simpl; try contradiction.
  intros [<-|H]; [now left | right; eapply IH; eassumption].
Qed.

Lemma In_skipn {A : Type} (l : list A) j x : In x (skipn j l) -> In x l.
Proof.
  revert j; induction l as [|y t IH]; intros [|j]; simpl; auto.
  intros H. right. eapply IH; eassumption.
Qed.

Lemma slice_In {A : Type} (s : list A) j k x :
  In x (firstn k (skipn j s)) -> In x s.
Proof.
  intros H. apply In_firstn in H. eapply In_skipn; eassumption.
Qed.

Lemma np_median_between d mn mx :
  d <> [] ->
  (forall x, In x d -> x <> NInf /\ fle mn x = true /\ fle x mx = true) ->
  fle mn (np_median d) = true /\ fle (np_median d) mx = true.
Proof.
  intros Hd H. unfold np_median.
  assert (Ln : (0 < length (np_sort d))%nat).
  { rewrite np_sort_length. destruct d; [congruence | simpl; lia]. }
  set (s := np_sort d) in *. set (n := length s) in *.
  assert (Hs : forall x, In x s -> x <> NInf /\ fle mn x = true /\ fle x mx = true)
    by (intros x Hx; apply H; now apply np_sort_In).
  assert (Hslice : forall j k, (j < n)%nat -> (0 < k)%nat ->
            fle mn (np_mean (firstn k (skipn j s))) = true /\
            fle (np_mean (firstn k (skipn j s))) mx = true).
  { intros j k Hj Hk.
    assert (Hin : forall x, In x (firstn k (skipn j s)) ->
                   x <> NInf /\ fle mn x = true /\ fle x mx = true)
      by (intros x Hx; apply Hs; eapply slice_In; eassumption).
    rewrite np_mean_nanmean.
    - apply nanmean_between.
      + intros x Hx. right. now apply Hin.
      + pose proof (slice_nonempty s j k Hj Hk) as Ne.
        destruct (firstn k (skipn j s)) as [|x0 t] eqn:E; [congruence|].
        exists x0. split; [now left|].
        destruct (Hin x0 (or_introl eq_refl)) as (_ & L & _).
        now apply fle_notnan in L.
    - intros x Hx. destruct (Hin x Hx) as (_ & L & _).
      now apply fle_notnan in L. }
  destruct (Nat.eqb n 0) eqn:E0; [apply Nat.eqb_eq in E0; lia|].
  destruct (Nat.odd n).
  - apply Hslice; [|lia]. apply Nat.div_lt; lia.
  - apply Hslice; [|lia].
    assert (n / 2 <= n)%nat by (apply Nat.Div0.div_le_upper_bound; lia). lia.
Qed.

(** *** Minimum, mean, median, maximum in order *)

Lemma stats_ordered l mn mx :
  (forall x, In x l -> x <> NInf /\ feq (np_round x 1) x) ->
  (exists x, In x l /\ isnan x = false) ->
  nanmin l = Ok mn -> nanmax l = Ok mx ->
  (fle mn (np_round (nanmean l) 1) = true /\
   fle (np_round (nanmean l) 1) mx = true) /\
  (fle mn (np_round (nanmedian l) 1) = true /\
   fle (np_round (nanmedian l) 1) mx = true).
Proof.
  intros Hl (x0 & Hin0 & Hn0) Hmin Hmax.
  apply nanmin_spec in Hmin as [Imn Lmn].
  apply nanmax_spec in Hmax as [Imx Umx].
  destruct (Hl mn Imn) as [_ Rmn]. destruct (Hl mx Imx) as [_ Rmx].
  assert (Hb : forall x, In x l -> isnan x = false ->
                 x <> NInf /\ fle mn x = true /\ fle x mx = true).
  { intros x Hx Hn. split; [apply (Hl x Hx)|]. split; auto. }
  split.
  - destruct (nanmean_between l mn mx) as [A B]; [|eauto|].
    + intros x Hx. destruct (isnan x) eqn:E; [left; now destruct x | right; auto].
    + now apply np_round_between.
  - assert (Hd : forall x, In x (filter notnan l) ->
                   x <> NInf /\ fle mn x = true /\ fle x mx = true).
    { intros x Hx. apply filter_In in Hx as [Hx Hn].
      apply Hb; [assumption|]. unfold notnan in Hn. now destruct (isnan x). }
    assert (Ne : filter notnan l <> []).
    { intros E. assert (G : In x0 (filter notnan l))
        by (apply filter_In; split; [assumption | unfold notnan; now rewrite Hn0]).
      now rewrite E in G. }
    unfold nanmedian. destruct (filter notnan l) as [|y t] eqn:E; [congruence|].
    destruct (np_median_between (y :: t) mn mx Ne Hd) as [A B].
    now apply np_round_between.
Qed.

End StatsFacts.

(** ** The rows of [icrate] *)

Module IcrateFacts.

Import NumPy Dates Rates ArrayFacts FloatFacts RatesFacts StatsFacts.
Local Open Scope Q_scope.

Lemma norm_index_nat_inv n i j : norm_index n (Z.of_nat i) = Some j -> j = i.
Proof.
  unfold norm_index.
  replace (Z.of_nat i <? 0)%Z with false by (symmetry; apply Z.ltb_ge; lia).
  destruct ((0 <=? Z.of_nat i) && (Z.of_nat i <? Z.of_nat n))%Z; [|discriminate].
  intros [= <-]. apply Nat2Z.id.
Qed.

Lemma np_get_nat_inv {A : Type} (a : list A) i v :
  np_get a (Z.of_nat i) = Ok v -> nth_error a i = Some v.
Proof.
  intros H. apply np_get_Ok in H as (j & Hj & Hv).
  apply norm_index_nat_inv in Hj. now subst j.
Qed.

(** The six rates of a year are the entries of the six arrays. *)
Lemma rates_of_year_spec r i l :
  rates_of_year r (Z.of_nat i) = Ok l ->
  (forall x, In x l -> exists sc, nth_error (hist_of sc r) i = Some x) /\
  (forall sc x, nth_error (hist_of sc r) i = Some x -> In x l).
Proof.
  unfold rates_of_year. intros H. bind_inv. injection H as <-.
  repeat match goal with
  | E : np_get _ (Z.of_nat i) = Ok _ |- _ => apply np_get_nat_inv in E
  end.
  split.
  - intros x Hx. simpl in Hx.
    destruct Hx as [<-|[<-|[<-|[<-|[<-|[<-|[]]]]]]].
    + now exists Wind.
    + now exists VEX.
    + now exists STA.
    + now exists STB.
    + now exists MESSENGER.
    + now exists MAVEN.
  - intros [] x Hx; simpl in Hx; simpl;
      match goal with
      | E : nth_error ?a i = Some ?y, Hx : nth_error ?a i = Some x |- _ =>
          rewrite E in Hx; injection Hx as <-
      end; auto 7.
Qed.

Lemma range_nth_error n i : (i < n)%nat -> nth_error (range n) i = Some (Z.of_nat i).
Proof.
  intros H. unfold range. rewrite nth_error_map.
  rewrite (nth_error_nth' (seq 0 n) 0%nat) by (now rewrite length_seq).
  rewrite seq_nth by assumption. reflexivity.
Qed.

(** A row of [icrate] holds the statistics of the six rates of its year. *)
Lemma icrate_row_spec r t i row :
  icrate r = Ok t -> nth_error t i = Some row ->
  exists l, rates_of_year r (Z.of_nat i) = Ok l /\
            nanmax l = Ok (max1 row) /\ nanmin l = Ok (min1 row) /\
            mean1 row = np_round (nanmean l) 1 /\
            median1 row = np_round (nanmedian l) 1 /\
            std1 row = np_round (nanstd l) 1.
Proof.
  unfold icrate. intros H Hrow.
  assert (Hi : (i < length (range (length yearly_mid_times_num)))%nat).
  { rewrite <- (mapM_length _ _ _ H). apply nth_error_Some. congruence. }
  unfold range in Hi at 1. rewrite length_map, length_seq in Hi.
  destruct (mapM_nth_error _ _ _ H i (Z.of_nat i) (range_nth_error _ _ Hi))
    as (y & Hy & Hty).
  rewrite Hrow in Hty. injection Hty as <-.
  unfold icrate_row_at in Hy. bind_inv. injection Hy as <-. simpl.
  eexists. repeat split; eassumption.
Qed.

Lemma yearly_counts_nonneg cat name i c :
  nth_error (yearly_counts cat name) i = Some c -> (0 <= c)%Z.
Proof.
  intros H. apply nth_error_In in H. eapply np_histogram_nonneg; eassumption.
Qed.

(** A computed rate is NaN, plus infinity, or a multiple of one tenth. *)
Lemma computed_rate_shape c x :
  (0 <= c)%Z ->
  computed_rate c x <> NInf /\
  feq (np_round (computed_rate c x) 1) (computed_rate c x).
Proof.
  intros Hc. split; [|apply np_round_idem].
  unfold computed_rate, of_Z.
  assert (Hs : Qcompare (inject_Z c) 0 <> Lt).
  { destruct (Qcompare_spec (inject_Z c) 0) as [E|E|E]; try discriminate.
    exfalso. unfold Qlt in E; simpl in E. lia. }
  destruct x as [b| | |]; simpl; try discriminate.
  destruct (Qeq_bool b 0); [|discriminate].
  destruct (Qcompare (inject_Z c) 0); try congruence; simpl; discriminate.
Qed.

Lemma pinned_value_shape sc :
  pinned_value sc <> NInf /\ feq (np_round (pinned_value sc) 1) (pinned_value sc).
Proof.
  destruct sc; simpl; split; try discriminate; auto; reflexivity.
Qed.

(** For a year of the table, every spacecraft has a count, a data-days
    entry and a rate. *)
Lemma entries_exist inp d r sc i :
  days_shape d -> rates_shape r -> (i < 13)%nat ->
  exists c x y,
    nth_error (yearly_counts (ic inp) (sc_name sc)) i = Some c /\
    nth_error (days_of sc d) i = Some x /\
    nth_error (hist_of sc r) i = Some y.
Proof.
  intros Hd Hr Hi.
  destruct (nth_error (yearly_counts (ic inp) (sc_name sc)) i) as [c|] eqn:Ec;
    [|apply nth_error_None in Ec; rewrite yearly_counts_length in Ec; lia].
  destruct (nth_error (days_of sc d) i) as [x|] eqn:Ex;
    [|apply nth_error_None in Ex; rewrite (Hd sc) in Ex; lia].
  destruct (nth_error (hist_of sc r) i) as [y|] eqn:Ey;
    [|apply nth_error_None in Ey; rewrite (Hr sc) in Ey; lia].
  exists c, x, y. auto.
Qed.

(** Every rate of the tables is NaN, plus infinity, or a tenth. *)
Lemma rate_shape inp d r sc i y :
  days_shape d -> icme_rates inp d = Ok r ->
  nth_error (hist_of sc r) i = Some y ->
  y <> NInf /\ feq (np_round y 1) y.
Proof.
  intros Hd Hr Hy.
  destruct (icme_rates_entry inp d r Hd Hr) as [Hs He].
  assert (Hi : (i < 13)%nat).
  { rewrite <- (Hs sc). apply nth_error_Some. congruence. }
  destruct (entries_exist inp d r sc i Hd Hs Hi) as (c & x & y' & Ec & Ex & Ey).
  rewrite (He sc i c x Ec Ex) in Hy. injection Hy as <-.
  destruct (pinned sc i).
  - apply pinned_value_shape.
  - apply computed_rate_shape. eapply yearly_counts_nonneg; eassumption.
Qed.

End IcrateFacts.

(** ** The NaN-aware statistics are the statistics of the defined entries *)

Module NanFacts.

Import NumPy ArrayFacts FloatFacts StatsFacts.
Local Open Scope Q_scope.


Lemma fadd_feq a a' b b' : feq a a' -> feq b b' -> feq (fadd a b) (fadd a' b').
Proof.
  destruct a, a'; simpl; try contradiction; intros Ha;
    destruct b, b'; simpl; try contradiction; intros Hb; auto.
  now rewrite Ha, Hb.
Qed.

Lemma fsub_feq a a' b b' : feq a a' -> feq b b' -> feq (fsub a b) (fsub a' b').
Proof.
  destruct a, a'; simpl; try contradiction; intros Ha;
    destruct b, b'; simpl; try contradiction; intros Hb; auto.
  now rewrite Ha, Hb.
Qed.

Lemma sign_feq a a' : feq a a' -> sign a = sign a'.
Proof.
  destruct a, a'; simpl; try contradiction; intros H; auto.
  now rewrite H.
Qed.

Lemma fmul_feq a a' b b' : feq a a' -> feq b b' -> feq (fmul a b) (fmul a' b').
Proof.
  intros Ha Hb.
  pose proof (sign_feq _ _ Ha) as Sa. pose proof (sign_feq _ _ Hb) as Sb.
  destruct a, a'; simpl in Ha; try contradiction;
    destruct b, b'; simpl in Hb; try contradiction;
    unfold fmul; try apply feq_refl;
    try (rewrite Sa; apply feq_refl); try (rewrite Sb; apply feq_refl).
  simpl. now rewrite Ha, Hb.
Qed.

Lemma Qeq_bool_zero_comp q q' : q == q' -> Qeq_bool q 0 = Qeq_bool q' 0.
Proof.
  intros H. destruct (Qeq_bool q 0) eqn:E, (Qeq_bool q' 0) eqn:E'; auto.
  - apply Qeq_bool_iff in E. rewrite H in E. apply Qeq_bool_iff in E. congruence.
  - apply Qeq_bool_iff in E'. rewrite <- H in E'. apply Qeq_bool_iff in E'. congruence.
Qed.

Lemma fdiv_feq a a' b b' : feq a a' -> feq b b' -> feq (fdiv a b) (fdiv a' b').
Proof.
  intros Ha Hb.
  destruct a as [p| | |], a' as [p'| | |]; simpl in Ha; try contradiction;
    destruct b as [q| | |], b' as [q'| | |]; simpl in Hb; try contradiction;
    unfold fdiv; try apply feq_refl.
  - rewrite (Qeq_bool_zero_comp _ _ Hb).
    destruct (Qeq_bool q' 0) eqn:E.
    + rewrite (Qcompare_comp _ _ Ha 0 0 (Qeq_refl 0)). apply feq_refl.
    + simpl. rewrite Ha, Hb. reflexivity.
  - rewrite (Qleb_comp 0 0 (Qeq_refl 0) _ _ Hb). apply feq_refl.
  - rewrite (Qleb_comp 0 0 (Qeq_refl 0) _ _ Hb). apply feq_refl.
Qed.

Lemma fsqrt_feq a a' : feq a a' -> feq (fsqrt a) (fsqrt a').
Proof.
  destruct a as [p| | |], a' as [p'| | |]; simpl; try contradiction; intros H; auto.
  rewrite (Qleb_comp 0 0 (Qeq_refl 0) _ _ H).
  destruct (Qle_bool 0 p'); simpl; [|exact I].
  unfold Qsqrt.
  assert (E : p * inject_Z (2 ^ 104) == p' * inject_Z (2 ^ 104))
    by (rewrite H; reflexivity).
  rewrite (Qfloor_comp _ _ E). reflexivity.
Qed.

Lemma fadd_zero_r a z : feq z (Fin 0) -> feq (fadd a z) a.
Proof.
  destruct z as [q| | |]; simpl; try contradiction. intros H.
  destruct a; simpl; auto. rewrite H. ring.
Qed.

(** Summing [f] over an array, where [f] is zero on NaN, is summing over
    the entries that are not NaN. *)
Lemma fold_fadd_filter (f g : npfloat -> npfloat) l :
  (forall x, isnan x = true -> feq (f x) (Fin 0)) ->
  (forall x, isnan x = false -> feq (f x) (g x)) ->
  forall acc acc', feq acc acc' ->
  feq (fold_left fadd (map f l) acc)
      (fold_left fadd (map g (filter notnan l)) acc').
Proof.
  intros Hz Hg. induction l as [|x t IH]; intros acc acc' Ha; simpl; [exact Ha|].
  unfold notnan at 1. destruct (isnan x) eqn:E; simpl.
  - apply IH. eapply feq_trans; [|exact Ha]. apply fadd_zero_r. now apply Hz.
  - apply IH. apply fadd_feq; [exact Ha | now apply Hg].
Qed.

Lemma nanmean_filter l : feq (nanmean l) (np_mean (filter notnan l)).
Proof.
  unfold nanmean, np_mean, np_sum, count_notnan.
  apply fdiv_feq; [|apply feq_refl].
  rewrite <- (map_id (filter notnan l)) at 1.
  apply fold_fadd_filter.
  - intros x Hx. unfold nan_to_zero. rewrite Hx. apply feq_refl.
  - intros x Hx. unfold nan_to_zero. rewrite Hx. apply feq_refl.
  - apply feq_refl.
Qed.

Lemma nanstd_filter l : feq (nanstd l) (np_std (filter notnan l)).
Proof.
  unfold nanstd, np_std. apply fsqrt_feq.
  unfold nanvar, np_var. unfold np_mean at 1.
  rewrite length_map. fold (count_notnan l).
  apply fdiv_feq; [|apply feq_refl].
  unfold np_sum. rewrite map_map.
  apply fold_fadd_filter.
  - intros x Hx. rewrite Hx. simpl. ring.
  - intros x Hx. rewrite Hx. unfold fsquare.
    assert (D : feq (fsub x (nanmean l)) (fsub x (np_mean (filter notnan l))))
      by (apply fsub_feq; [apply feq_refl | apply nanmean_filter]).
    now apply fmul_feq.
  - apply feq_refl.
Qed.

Lemma nanmedian_filter l : nanmedian l = np_median (filter notnan l).
Proof.
  unfold nanmedian. destruct (filter notnan l); reflexivity.
Qed.



(** With a defined entry, [nanmax] and [nanmin] are the greatest and the
    least of the defined entries. *)
Lemma nanmax_defined l mx :
  nanmax l = Ok mx -> (exists x, In x l /\ isnan x = false) ->
  In mx (filter notnan l) /\ forall z, In z (filter notnan l) -> fle z mx = true.
Proof.
  intros H (x & Hx & Hn). apply nanmax_spec in H as [I U]. split.
  - apply filter_In. split; [exact I|].
    pose proof (U x Hx Hn) as G. apply fle_notnan in G as [_ G].
    unfold notnan. now rewrite G.
  - intros z Hz. apply filter_In in Hz as [Hz Nz]. apply U; [exact Hz|].
    unfold notnan in Nz. now destruct (isnan z).
Qed.

Lemma nanmin_defined l mn :
  nanmin l = Ok mn -> (exists x, In x l /\ isnan x = false) ->
  In mn (filter notnan l) /\ forall z, In z (filter notnan l) -> fle mn z = true.
Proof.
  intros H (x & Hx & Hn). apply nanmin_spec in H as [I U]. split.
  - apply filter_In. split; [exact I|].
    pose proof (U x Hx Hn) as G. apply fle_notnan in G as [G _].
    unfold notnan. now rewrite G.
  - intros z Hz. apply filter_In in Hz as [Hz Nz]. apply U; [exact Hz|].
    unfold notnan in Nz. now destruct (isnan z).
Qed.

End NanFacts.

(** ** Years without a defined sample *)

Module CoverageFacts.

Import NumPy Dates Rates ArrayFacts FloatFacts RatesFacts IcrateFacts.
Local Open Scope Q_scope.

Lemma filter_filter {A : Type} (p q : A -> bool) (l : list A) :
  filter p (filter q l) = filter (fun x => q x && p x) l.
Proof.
  induction l as [|a t IH]; simpl; [reflexivity|].
  destruct (q a); simpl; [destruct (p a)|]; now rewrite IH.
Qed.

Lemma filter_map {A B : Type} (p : B -> bool) (f : A -> B) (l : list A) :
  filter p (map f l) = map f (filter (fun x => p (f x)) l).
Proof.
  induction l as [|a t IH]; simpl; [reflexivity|].
  destruct (p (f a)); simpl; now rewrite IH.
Qed.

(** For a spacecraft whose time stamps and field values come from one
    file, [datas] is the number of samples of the year with a defined
    field. *)
Lemma datas_of_same_file d s e :
  datas_of (times d) (bts d) s e = Ok (Z.of_nat (length (defined_in_year d s e))).
Proof.
  unfold datas_of, thisyear_of, times, bts, np_where.
  rewrite where_from_map.
  change (where_from (fun x => Qltb s (time x) && Qltb (time x) e) d 0)
    with (np_where (fun x => Qltb s (time x) && Qltb (time x) e) d).
  rewrite np_take_where. cbn [bind].
  unfold where_notnan, np_where. rewrite where_from_length.
  rewrite filter_map, length_map, filter_filter. reflexivity.
Qed.

Lemma set_days_keeps_nan a k datas m a' j :
  set_days a (Z.of_nat k) datas m = Ok a' ->
  nth_error a j = Some NaN ->
  (k = j -> datas = 0%Z) ->
  nth_error a' j = Some NaN.
Proof.
  unfold set_days. intros H Ha Hk.
  destruct (0 <? datas)%Z eqn:E; [|now injection H as <-].
  apply np_set_Ok in H as (k' & Hn & ->).
  apply norm_index_nat_inv in Hn. subst k'.
  destruct (Nat.eq_dec k j) as [->|Ne].
  - rewrite (Hk eq_refl) in E. discriminate E.
  - now rewrite nth_error_set_nth_ne.
Qed.

Lemma mav_days_keeps_nan m a k s e a' j :
  mav_days m a (Z.of_nat k) s e = Ok a' ->
  nth_error a j = Some NaN ->
  (k = j -> datas_of (times m) (bts m) s e = Ok 0%Z) ->
  nth_error a' j = Some NaN.
Proof.
  unfold mav_days, datas_of. intros H Ha Hk. bind_inv.
  destruct (0 <? Z.of_nat (length (where_notnan v)))%Z eqn:Ed;
    [|now injection H as <-].
  bind_inv. apply np_set_Ok in H as (k' & Hn & ->).
  apply norm_index_nat_inv in Hn. subst k'.
  destruct (Nat.eq_dec k j) as [->|Ne].
  - specialize (Hk eq_refl). rewrite E in Hk. cbn [bind] in Hk.
    injection Hk as Hk. rewrite Hk in Ed. discriminate Ed.
  - now rewrite nth_error_set_nth_ne.
Qed.

Lemma np_set_other (a a' : ndarray) i v n j k :
  length a = n -> norm_index n i = Some k -> k <> j ->
  np_set a i v = Ok a' -> nth_error a' j = nth_error a j.
Proof.
  intros L Hn Ne H. apply np_set_Ok in H as (k' & Hn' & ->).
  rewrite L, Hn in Hn'. injection Hn' as <-.
  now apply nth_error_set_nth_ne.
Qed.

Lemma year_step_keeps_nan inp k st st' sc j :
  days_shape st -> year_step inp (Z.of_nat k) st = Ok st' ->
  ~ (sc = Wind /\ (11 <= j)%nat) ->
  (k = j -> datas_in_year inp sc (Z.of_nat j) = Ok 0%Z) ->
  nth_error (days_of sc st) j = Some NaN ->
  nth_error (days_of sc st') j = Some NaN.
Proof.
  intros Hs H Hw Hk Ha. unfold year_step in H. bind_inv. injection H as <-.
  assert (Hk' : k = j ->
            datas_of (times (time_source sc inp)) (bts (field_source sc inp)) v v0
            = Ok 0%Z).
  { intros ->. specialize (Hk eq_refl). unfold datas_in_year in Hk.
    rewrite E, E0 in Hk. exact Hk. }
  assert (Hz : forall datas,
            datas_of (times (time_source sc inp)) (bts (field_source sc inp)) v v0
            = Ok datas -> k = j -> datas = 0%Z).
  { intros datas Hd Hkj. rewrite (Hk' Hkj) in Hd. now injection Hd as <-. }
  destruct sc; simpl in *.
  - (* Wind *)
    assert (Hj : (j < 11)%nat) by (destruct (Nat.lt_ge_cases j 11); [assumption | tauto]).
    pose proof (set_days_keeps_nan _ _ _ _ _ _ E2 Ha (Hz _ E1)) as H2.
    pose proof (set_days_length _ _ _ _ _ E2) as L2.
    pose proof (Hs Wind) as Lw. simpl in Lw. rewrite Lw in L2.
    pose proof (np_set_length _ _ _ _ E3) as L3. rewrite L2 in L3.
    rewrite (np_set_other v3 v4 (-2) (Fin 360) 13 j 11 L3 eq_refl) by (lia || exact E4).
    rewrite (np_set_other v2 v3 (-1) (Fin 360) 13 j 12 L2 eq_refl) by (lia || exact E3).
    exact H2.
  - exact (set_days_keeps_nan _ _ _ _ _ _ E12 Ha (Hz _ E11)).
  - exact (set_days_keeps_nan _ _ _ _ _ _ E6 Ha (Hz _ E5)).
  - exact (set_days_keeps_nan _ _ _ _ _ _ E8 Ha (Hz _ E7)).
  - exact (set_days_keeps_nan _ _ _ _ _ _ E10 Ha (Hz _ E9)).
  - exact (mav_days_keeps_nan _ _ _ _ _ _ _ E13 Ha Hk').
Qed.

Lemma range_In n i : In i (range n) -> exists k, i = Z.of_nat k /\ (k < n)%nat.
Proof.
  unfold range. intros H. apply in_map_iff in H as (k & <- & Hk).
  apply in_seq in Hk. exists k. split; [reflexivity | lia].
Qed.

(** A year in which the loop finds no defined field value keeps its
    initial NaN in the array of data days (for Wind: before the two
    overridden years). *)
Lemma no_samples_no_coverage inp d sc j :
  total_data_days inp = Ok d -> (j < 13)%nat ->
  ~ (sc = Wind /\ (11 <= j)%nat) ->
  datas_in_year inp sc (Z.of_nat j) = Ok 0%Z ->
  nth_error (days_of sc d) j = Some NaN.
Proof.
  intros H Hj Hw Hz. unfold total_data_days in H.
  apply (for_each_invariant_In
           (fun st => days_shape st /\ nth_error (days_of sc st) j = Some NaN)
           (year_step inp) _) with (st' := d) (st := data_days_init) in H.
  - apply H.
  - intros i s s' Hi [Hs Ha] Hstep.
    apply range_In in Hi as (k & -> & Hk).
    split; [eapply year_step_shape; eassumption|].
    eapply year_step_keeps_nan; try eassumption. intros _. exact Hz.
  - split; [apply data_days_init_shape|].
    destruct sc; simpl;
      do 13 (destruct j as [|j]; [reflexivity|]); lia.
Qed.

(** For the five spacecraft read from one file, [datas] counts the
    samples of the year that have a defined field. *)
Lemma datas_in_year_same_file inp sc j :
  sc <> MESSENGER -> (j < 13)%nat ->
  exists s e,
    nth_error yearly_start_times j = Some s /\
    nth_error yearly_end_times j = Some e /\
    datas_in_year inp sc (Z.of_nat j)
    = Ok (Z.of_nat (length (defined_in_year (time_source sc inp) s e))).
Proof.
  intros Hsc Hj.
  destruct (nth_error yearly_start_times j) as [s|] eqn:Es;
    [|apply nth_error_None in Es; vm_compute in Es; lia].
  destruct (nth_error yearly_end_times j) as [e|] eqn:Ee;
    [|apply nth_error_None in Ee; vm_compute in Ee; lia].
  exists s, e. split; [reflexivity|]. split; [reflexivity|].
  unfold datas_in_year.
  rewrite (np_get_nat _ _ _ Es), (np_get_nat _ _ _ Ee). cbn [bind].
  replace (field_source sc inp) with (time_source sc inp)
    by (destruct sc; try reflexivity; congruence).
  apply datas_of_same_file.
Qed.

End CoverageFacts.

(** ** Coverage-corrected rates and their statistics (claims C1 to C4) *)

Module RateClaims.

Import NumPy Dates Rates Reference Examples.
Import ArrayFacts FloatFacts RatesFacts StatsFacts IcrateFacts NanFacts.
Import CoverageFacts.
Local Open Scope Q_scope.

Lemma run_stage12_inv inp out :
  run_stage12 inp = Ok out ->
  total_data_days inp = Ok (days_out out) /\
  icme_rates inp (days_out out) = Ok (rates_out out) /\
  icrate (rates_out out) = Ok (icrate_out out) /\
  days_shape (days_out out) /\ rates_shape (rates_out out).
Proof.
  unfold run_stage12. intros H. bind_inv. injection H as <-. simpl.
  pose proof (total_data_days_shape _ _ E) as Hd.
  destruct (icme_rates_entry _ _ _ Hd E0) as [Hr _].
  auto.
Qed.

(** A computed rate with defined, non-zero data days. *)
Lemma computed_rate_fin c d :
  ~ d == 0 ->
  computed_rate c (Fin d) = np_round (Fin (inject_Z c / d * 365.24)) 1.
Proof.
  intros Hd. unfold computed_rate, of_Z, fdiv.
  destruct (Qeq_bool d 0) eqn:E; [apply Qeq_bool_iff in E; contradiction|].
  reflexivity.
Qed.






Ltac run_example out Hrun :=
  match goal with
  | |- context [run_stage12 ?inp] =>
      destruct (run_stage12 inp) as [out|] eqn:Hrun;
      [|vm_compute in Hrun; discriminate Hrun];
      let E := fresh "E" in
      pose proof Hrun as E; vm_compute in E; injection E as <-
  end.






(** C4.  In every year in which at least one spacecraft has a defined
    rate, the statistics of [icrate] satisfy [min1 <= mean1 <= max1] and
    [min1 <= median1 <= max1], the mean and the median being rounded to one
    decimal place. *)
Theorem C4_min_mean_median_max inp out i row :
  run_stage12 inp = Ok out ->
  nth_error (icrate_out out) i = Some row ->
  (exists sc x, nth_error (hist_of sc (rates_out out)) i = Some x /\
                isnan x = false) ->
  (fle (min1 row) (mean1 row) = true /\ fle (mean1 row) (max1 row) = true) /\
  (fle (min1 row) (median1 row) = true /\ fle (median1 row) (max1 row) = true).
Proof.
  intros Hrun Hrow (sc & x & Hx & Hn).
  destruct (run_stage12_inv _ _ Hrun) as (_ & Hr & Ht & Sd & _).
  destruct (icrate_row_spec _ _ _ _ Ht Hrow)
    as (l & Hl & Hmx & Hmn & Hme & Hmd & _).
  destruct (rates_of_year_spec _ _ _ Hl) as [Hsc Hin].
  rewrite Hme, Hmd.
  apply stats_ordered; try assumption.
  - intros y Hy. destruct (Hsc y Hy) as (sc' & Hy').
    apply (rate_shape inp _ _ sc' i y Sd Hr Hy').
  - exists x. split; [eapply Hin; eassumption | exact Hn].
Qed.

Lemma C4_min_mean_median_max_witness :
  exists out row,
    run_stage12 sta_2019_input = Ok out /\
    nth_error (icrate_out out) 12 = Some row /\
    fle (min1 row) (mean1 row) = true /\ fle (mean1 row) (max1 row) = true.
Proof.
  run_example out Hrun.
  match type of Hrun with
  | _ = Ok ?o =>
      destruct (nth_error (icrate_out o) 12) as [row|] eqn:Hrow;
        [|vm_compute in Hrow; discriminate Hrow];
      assert (Hx : exists sc x,
                nth_error (hist_of sc (rates_out o)) 12 = Some x /\
                isnan x = false)
        by (exists STA; eexists; split; vm_compute; reflexivity);
      destruct (C4_min_mean_median_max _ o 12 row Hrun Hrow Hx) as [[A B] _];
      exists o, row
  end.
  split; [reflexivity|]. split; [exact Hrow|]. split; assumption.
Defined.

End RateClaims.

(** ** MAVEN data days (claim C9) *)

Module MavenClaims.

Import NumPy Dates Rates Reference Examples.
Import ArrayFacts FloatFacts RatesFacts.
Local Open Scope Q_scope.

(** C9, the code at a failing input.  MAVEN samples in October 2014 (two,
    0.1 day apart) and in March 2015 (three, 0.2 and 0.1 day apart).  For
    2015 the positions of the defined samples are counted inside the
    year's selection, [0, 1, 2], and are then used on the whole [mav.time]:
    the differences taken are those of the first three samples of the file
    (0.1 day, and the gap to 2015), so the table holds 0.1 day, while the
    defined samples of 2015 are 0.2 + 0.1 = 0.3 day apart. *)
Lemma C9_maven_days_failing_input :
  exists d v,
    total_data_days maven_input = Ok d /\
    nth_error (total_data_days_yearly_mav d) 8 = Some v /\
    feq v (Fin 0.1) /\
    feq (mav_days_of_year (mav maven_input)
           (plot_date 2015 1 1) (plot_date 2015 12 31)) (Fin 0.3) /\
    ~ feq v (mav_days_of_year (mav maven_input)
               (plot_date 2015 1 1) (plot_date 2015 12 31)).
Proof.
  do 2 eexists.
  split; [vm_compute; reflexivity|].
  split; [vm_compute; reflexivity|].
  split; [vm_compute; reflexivity|].
  split; [vm_compute; reflexivity|].
  vm_compute. discriminate.
Qed.

(** In the first year that has samples the two agree: there the year's
    selection starts at the first sample of the file. *)
Lemma maven_days_first_year :
  exists d v,
    total_data_days maven_input = Ok d /\
    nth_error (total_data_days_yearly_mav d) 7 = Some v /\
    feq v (mav_days_of_year (mav maven_input)
             (plot_date 2014 1 1) (plot_date 2014 12 31)).
Proof.
  do 2 eexists.
  split; [vm_compute; reflexivity|].
  split; [vm_compute; reflexivity|].
  vm_compute. reflexivity.
Qed.

End MavenClaims.

(** ** The conversion from sunspot number to ICME rate (claims C5, C10) *)

Module RegressionClaims.

Import NumPy Dates Rates Prediction Examples.
Import ArrayFacts FloatFacts StatsFacts NanFacts.
Local Open Scope Q_scope.

Lemma Qsqrt_nonneg q : 0 <= Qsqrt q.
Proof.
  unfold Qsqrt, Qle; simpl. rewrite Z.mul_1_r. apply Z.sqrt_nonneg.
Qed.

Lemma np_std_nonneg d a : np_std d = Fin a -> 0 <= a.
Proof.
  unfold np_std. destruct (np_var d) as [q| | |]; simpl; try discriminate.
  destruct (Qle_bool 0 q); [|discriminate].
  intros [= <-]. apply Qsqrt_nonneg.
Qed.

(** A finite mean of two values is half their sum. *)
Lemma np_mean_two A B m :
  np_mean [A; B] = Fin m ->
  exists a b, A = Fin a /\ B = Fin b /\ m == (a + b) / 2.
Proof.
  unfold np_mean, np_sum.
  destruct A as [a| | |], B as [b| | |]; try (vm_compute; discriminate).
  cbn [fold_left fadd length of_nat].
  unfold fdiv.
  replace (Qeq_bool (inject_Z (Z.of_nat 2)) 0) with false by reflexivity.
  intros [= <-]. exists a, b. repeat split.
  change (inject_Z (Z.of_nat 2)) with 2. field.
Qed.

(** What [mean_stddev] is: the mean, over the two reference cycles, of the
    standard deviation of fitted rate minus observed rate. *)
Lemma mean_stddev_spec linfit spots23 rc_rate23 spots24 rc_rate24 msd :
  mean_stddev linfit spots23 rc_rate23 spots24 rc_rate24 = Ok msd ->
  exists d23 d24,
    broadcast2 fsub
      (map (fun s => fadd (fmul (slope linfit) s) (intercept linfit)) spots23)
      (of_ints rc_rate23) = Ok d23 /\
    broadcast2 fsub
      (map (fun s => fadd (fmul (slope linfit) s) (intercept linfit)) spots24)
      (of_ints rc_rate24) = Ok d24 /\
    msd = np_mean [np_std d23; np_std d24].
Proof.
  unfold mean_stddev. intros H. bind_inv. injection H as <-.
  exists v, v0. auto.
Qed.

Lemma mean_stddev_nonneg linfit spots23 rc_rate23 spots24 rc_rate24 m :
  mean_stddev linfit spots23 rc_rate23 spots24 rc_rate24 = Ok (Fin m) -> 0 <= m.
Proof.
  intros H. apply mean_stddev_spec in H as (d23 & d24 & _ & _ & E).
  symmetry in E. apply np_mean_two in E as (a & b & Ha & Hb & ->).
  apply np_std_nonneg in Ha, Hb.
  apply Qle_shift_div_l; lra.
Qed.

(** C5.  With a finite fit (slope [s], intercept [c], standard error [e])
    and the spread [m] computed by [mean_stddev], the apply function
    returns, for every sunspot number [x], the triple
    [s*x + c], [(s - e)*x + c - m], [(s + e)*x + c + m]; and [m] is the mean
    over the two reference cycles of the standard deviation of fitted rate
    minus observed rate. *)
Theorem C5_ssn_to_rate linfit spots23 rc_rate23 spots24 rc_rate24
        (s c e m x : Q) fitresult :
  slope linfit = Fin s -> intercept linfit = Fin c -> stderr linfit = Fin e ->
  mean_stddev linfit spots23 rc_rate23 spots24 rc_rate24 = Ok (Fin m) ->
  (feq (tup0 (ssn_to_rate linfit (Fin m) (Fin x) fitresult)) (Fin (s * x + c)) /\
   feq (tup1 (ssn_to_rate linfit (Fin m) (Fin x) fitresult))
       (Fin ((s - e) * x + c - m)) /\
   feq (tup2 (ssn_to_rate linfit (Fin m) (Fin x) fitresult))
       (Fin ((s + e) * x + c + m))) /\
  exists d23 d24 a b,
    broadcast2 fsub
      (map (fun t => fadd (fmul (Fin s) t) (Fin c)) spots23)
      (of_ints rc_rate23) = Ok d23 /\
    broadcast2 fsub
      (map (fun t => fadd (fmul (Fin s) t) (Fin c)) spots24)
      (of_ints rc_rate24) = Ok d24 /\
    np_std d23 = Fin a /\ np_std d24 = Fin b /\ m == (a + b) / 2.
Proof.
  intros Hs Hc He Hm. split.
  - unfold ssn_to_rate, tup0, tup1, tup2. rewrite Hs, Hc, He. simpl.
    repeat split; ring.
  - destruct (mean_stddev_spec _ _ _ _ _ _ Hm) as (d23 & d24 & E1 & E2 & E).
    symmetry in E. apply np_mean_two in E as (a & b & Ha & Hb & Hab).
    rewrite Hs, Hc in E1, E2.
    exists d23, d24, a, b. auto.
Qed.

Ltac mean_stddev_example m Hm Em :=
  destruct (mean_stddev linfit_example spots23_example rc_rate23_example
              spots24_example rc_rate24_example) as [[m| | |]|] eqn:Hm;
    try (vm_compute in Hm; discriminate Hm);
  assert (Em : m == 2)
    by (let E := fresh "E" in
        pose proof Hm as E; vm_compute in E; injection E as <-;
        vm_compute; reflexivity).

Lemma C5_ssn_to_rate_witness :
  exists m,
    mean_stddev linfit_example spots23_example rc_rate23_example
      spots24_example rc_rate24_example = Ok (Fin m) /\
    m == 2 /\
    feq (tup0 (ssn_to_rate linfit_example (Fin m) (Fin 50) linfit_example))
        (Fin (0.2 * 50 + 5)) /\
    feq (tup1 (ssn_to_rate linfit_example (Fin m) (Fin 50) linfit_example))
        (Fin ((0.2 - 0.02) * 50 + 5 - m)) /\
    feq (tup2 (ssn_to_rate linfit_example (Fin m) (Fin 50) linfit_example))
        (Fin ((0.2 + 0.02) * 50 + 5 + m)).
Proof.
  mean_stddev_example m Hm Em.
  exists m. split; [reflexivity|]. split; [exact Em|].
  exact (proj1 (C5_ssn_to_rate linfit_example _ _ _ _ 0.2 5 0.02 m 50
                  linfit_example eq_refl eq_refl eq_refl Hm)).
Defined.

(** C10.  With a finite fit whose standard error is not negative, and the
    spread computed by [mean_stddev] (which is then not negative either),
    the three rates are in order for every sunspot number that is not
    negative: [rate_low <= rate <= rate_up]. *)
Theorem C10_rate_bounds_ordered linfit spots23 rc_rate23 spots24 rc_rate24
        (s c e m x : Q) fitresult :
  slope linfit = Fin s -> intercept linfit = Fin c -> stderr linfit = Fin e ->
  mean_stddev linfit spots23 rc_rate23 spots24 rc_rate24 = Ok (Fin m) ->
  0 <= e -> 0 <= x ->
  0 <= m /\
  fle (tup1 (ssn_to_rate linfit (Fin m) (Fin x) fitresult))
      (tup0 (ssn_to_rate linfit (Fin m) (Fin x) fitresult)) = true /\
  fle (tup0 (ssn_to_rate linfit (Fin m) (Fin x) fitresult))
      (tup2 (ssn_to_rate linfit (Fin m) (Fin x) fitresult)) = true.
Proof.
  intros Hs Hc He Hm Hpos Hx.
  pose proof (mean_stddev_nonneg _ _ _ _ _ _ Hm) as Hmpos.
  split; [exact Hmpos|].
  unfold ssn_to_rate, tup0, tup1, tup2. rewrite Hs, Hc, He. simpl.
  split; qbool; nra.
Qed.

Lemma C10_rate_bounds_ordered_witness :
  exists m,
    mean_stddev linfit_example spots23_example rc_rate23_example
      spots24_example rc_rate24_example = Ok (Fin m) /\
    0 <= m /\
    fle (tup1 (ssn_to_rate linfit_example (Fin m) (Fin 50) linfit_example))
        (tup0 (ssn_to_rate linfit_example (Fin m) (Fin 50) linfit_example)) = true /\
    fle (tup0 (ssn_to_rate linfit_example (Fin m) (Fin 50) linfit_example))
        (tup2 (ssn_to_rate linfit_example (Fin m) (Fin 50) linfit_example)) = true.
Proof.
  mean_stddev_example m Hm Em.
  assert (He : 0 <= 0.02) by (unfold Qle; simpl; lia).
  assert (Hx : 0 <= 50) by (unfold Qle; simpl; lia).
  exists m. split; [reflexivity|].
  exact (C10_rate_bounds_ordered linfit_example _ _ _ _ 0.2 5 0.02 m 50
           linfit_example eq_refl eq_refl eq_refl Hm He Hx).
Defined.

End RegressionClaims.

(** ** The composition of the three errors (claim C6) *)

Module UncertaintyClaims.

Import NumPy Dates Rates Prediction Examples.
Import ArrayFacts FloatFacts StatsFacts NanFacts.
Local Open Scope Q_scope.

(** [Qsqrt] is the square root cut after 52 binary digits. *)
Lemma Qsqrt_spec v :
  0 <= v ->
  Qsqrt v * Qsqrt v <= v /\
  v < (Qsqrt v + (1 # 2 ^ 52)) * (Qsqrt v + (1 # 2 ^ 52)).
Proof.
  intros Hv. unfold Qsqrt.
  set (P := inject_Z (2 ^ 104)).
  set (n := Qfloor (v * P)). set (r := Z.sqrt n).
  assert (HP : 0 < P) by (unfold P, Qlt; simpl; lia).
  assert (Hn : (0 <= n)%Z).
  { unfold n. rewrite <- (Qfloor_Z 0). apply Qfloor_resp_le.
    change (inject_Z 0) with 0. nra. }
  pose proof (Z.sqrt_spec n Hn) as [L U]. fold r in L, U.
  pose proof (Qfloor_le (v * P)) as FL. pose proof (Qlt_floor (v * P)) as FU.
  fold n in FL, FU.
  assert (Hr : (0 <= r)%Z) by apply Z.sqrt_nonneg.
  assert (E1 : (r # 2 ^ 52) * (r # 2 ^ 52) == inject_Z (r * r) / P).
  { unfold P, Qeq, Qdiv, Qmult, Qinv, inject_Z; simpl. lia. }
  assert (E2 : ((r # 2 ^ 52) + (1 # 2 ^ 52)) * ((r # 2 ^ 52) + (1 # 2 ^ 52))
               == inject_Z (Z.succ r * Z.succ r) / P).
  { unfold P, Qeq, Qdiv, Qmult, Qplus, Qinv, inject_Z; simpl. lia. }
  split.
  - rewrite E1. apply Qle_shift_div_r; [exact HP|].
    apply Qle_trans with (inject_Z n); [|exact FL].
    rewrite <- Zle_Qle. exact L.
  - rewrite E2. apply Qlt_shift_div_l; [exact HP|].
    apply Qlt_le_trans with (inject_Z (n + 1)); [exact FU|].
    rewrite <- Zle_Qle. lia.
Qed.

(** [np.sqrt] and [np.round] do not see how a rational is written. *)
Lemma fsqrt_eq a a' : feq a a' -> fsqrt a = fsqrt a'.
Proof.
  destruct a as [p| | |], a' as [p'| | |]; simpl; try contradiction; intros H; auto.
  rewrite (Qleb_comp 0 0 (Qeq_refl 0) _ _ H).
  destruct (Qle_bool 0 p'); [|reflexivity].
  unfold Qsqrt.
  assert (E : p * inject_Z (2 ^ 104) == p' * inject_Z (2 ^ 104))
    by (rewrite H; reflexivity).
  rewrite (Qfloor_comp _ _ E). reflexivity.
Qed.

Lemma sum_of_squares_swap12 a b c :
  feq (fadd (fadd (fsquare a) (fsquare b)) (fsquare c))
      (fadd (fadd (fsquare b) (fsquare a)) (fsquare c)).
Proof.
  destruct a, b, c; simpl; try exact I; ring.
Qed.

Lemma sum_of_squares_swap23 a b c :
  feq (fadd (fadd (fsquare a) (fsquare b)) (fsquare c))
      (fadd (fadd (fsquare a) (fsquare c)) (fsquare b)).
Proof.
  destruct a, b, c; simpl; try exact I; ring.
Qed.

(** The total of one year does not depend on the order of the three
    error sources. *)
Lemma std_of_three_at_swap12 a b c : std_of_three_at a b c = std_of_three_at b a c.
Proof.
  unfold std_of_three_at. f_equal. apply fsqrt_eq, sum_of_squares_swap12.
Qed.

Lemma std_of_three_at_swap23 a b c : std_of_three_at a b c = std_of_three_at a c b.
Proof.
  unfold std_of_three_at. f_equal. apply fsqrt_eq, sum_of_squares_swap23.
Qed.

Lemma std_of_three_at_permutations a b c :
  std_of_three_at a b c = std_of_three_at a c b /\
  std_of_three_at a b c = std_of_three_at b a c /\
  std_of_three_at a b c = std_of_three_at b c a /\
  std_of_three_at a b c = std_of_three_at c a b /\
  std_of_three_at a b c = std_of_three_at c b a.
Proof.
  split; [apply std_of_three_at_swap23|].
  split; [apply std_of_three_at_swap12|].
  split; [rewrite std_of_three_at_swap12; apply std_of_three_at_swap23|].
  split; [rewrite std_of_three_at_swap23; apply std_of_three_at_swap12|].
  rewrite std_of_three_at_swap12, std_of_three_at_swap23.
  apply std_of_three_at_swap12.
Qed.

(** *** Arrays of equal length *)

Lemma map3_length f a b c :
  length a = length b -> length b = length c -> length (map3 f a b c) = length a.
Proof.
  intros H1 H2. unfold map3. rewrite length_map, !length_combine. lia.
Qed.

Lemma map3_nth_error f a b c j x y z :
  nth_error a j = Some x -> nth_error b j = Some y -> nth_error c j = Some z ->
  nth_error (map3 f a b c) j = Some (f x y z).
Proof.
  unfold map3. revert b c j.
  induction a as [|a0 a IH]; intros [|b0 b] [|c0 c] [|j]; simpl;
    intros Ha Hb Hc; try discriminate.
  - injection Ha as <-. injection Hb as <-. injection Hc as <-. reflexivity.
  - apply IH; assumption.
Qed.




(** With three arrays of one length the array expression is the entry
    function applied year by year. *)
Lemma std_of_three_same_length e1 e2 e3 :
  length e1 = length e2 -> length e2 = length e3 ->
  std_of_three e1 e2 e3 = Ok (map3 std_of_three_at e1 e2 e3).
Proof.
  intros H1 H2. unfold std_of_three.
  rewrite broadcast2_same_length by (now rewrite !length_map).
  cbn [bind].
  rewrite broadcast2_same_length
    by (rewrite map2_length, !length_map; lia).
  cbn [bind]. apply f_equal. unfold map3, map2, std_of_three_at.
  clear H1 H2. revert e2 e3.
  induction e1 as [|a e1 IH]; intros [|b e2] [|c e3]; simpl; try reflexivity.
  apply f_equal. apply IH.
Qed.


Lemma ssnpred_error_length mid low high :
  length mid = length low -> length mid = length high ->
  exists e, ssnpred_error mid low high = Ok e /\ length e = length mid.
Proof.
  intros H1 H2. unfold ssnpred_error.
  rewrite (broadcast2_same_length fsub high mid) by congruence. cbn [bind].
  rewrite (broadcast2_same_length fsub low mid) by congruence. cbn [bind].
  rewrite broadcast2_same_length
    by (rewrite length_map, !map2_length; lia).
  cbn [bind]. eexists. split; [reflexivity|].
  unfold scalar_r. rewrite !length_map, !map2_length, length_map, map2_length. lia.
Qed.

Lemma ssnfit_error_length mid mid_low :
  length mid = length mid_low ->
  exists e, ssnfit_error mid mid_low = Ok e /\ length e = length mid.
Proof.
  intros H. unfold ssnfit_error.
  rewrite broadcast2_same_length by assumption. cbn [bind].
  eexists. split; [reflexivity|]. rewrite length_map, map2_length. lia.
Qed.

Lemma ic_rate25_std_length t : length t = 13%nat -> length (ic_rate25_std t) = 13%nat.
Proof.
  intros H. unfold ic_rate25_std, ic_rate24_std, drop_last, slice_from.
  rewrite length_app, removelast_firstn_len, length_firstn, length_skipn, length_map, H.
  reflexivity.
Qed.

(** For the years beyond the catalog the rate spread is the constant 2.0. *)
Lemma ic_rate25_std_floor t j :
  length t = 13%nat -> (10 <= j < 13)%nat ->
  nth_error (ic_rate25_std t) j = Some (Fin 2.0).
Proof.
  intros H Hj. unfold ic_rate25_std, ic_rate24_std, drop_last, slice_from.
  rewrite nth_error_app2;
    rewrite removelast_firstn_len, length_firstn, length_skipn, length_map, H;
    simpl; [|lia].
  destruct j as [|[|[|[|[|[|[|[|[|[|[|[|[|j]]]]]]]]]]]]]; try lia; reflexivity.
Qed.

(** On binary64 numbers the order matters in rare cases.  With the errors
    2.65, 11.1 and 8.7 (as [np.round] leaves them: 265/100, 111/10, 87/10)
    the sum of the squares is 205.9225 and its root 14.35, a tie for the
    rounding to one decimal; the float sum depends on the order of the
    additions in its last digit, and the total is 14.3 in one order and
    14.4 in another.  The exact arithmetic of this development does not
    show this. *)
Lemma binary64_total_depends_on_order :
  (Binary64.std_of_three_at (265 / 100) (111 / 10) (87 / 10) = 143 / 10)%float /\
  (Binary64.std_of_three_at (111 / 10) (87 / 10) (265 / 100) = 144 / 10)%float /\
  std_of_three_at (Fin 2.65) (Fin 11.1) (Fin 8.7)
  = std_of_three_at (Fin 11.1) (Fin 8.7) (Fin 2.65).
Proof.
  split; [vm_compute; reflexivity|].
  split; [vm_compute; reflexivity|].
  vm_compute; reflexivity.
Qed.




End UncertaintyClaims.

(** ** Splines and expected counts (claims C7, C8) *)

Module ExposureClaims.

Import NumPy Dates Rates Prediction Exposure Examples.
Import ArrayFacts FloatFacts StatsFacts.
Local Open Scope Q_scope.

(** *** The control points of an [interp1d] object *)

Lemma insert_by_x_In p q l : In q (insert_by_x p l) -> q = p \/ In q l.
Proof.
  induction l as [|r t IH]; simpl.
  - intros [<-|[]]; auto.
  - destruct (Qltb (fst p) (fst r)); simpl.
    + intros [<-|[<-|H]]; auto.
    + intros [<-|H]; auto. destruct (IH H); auto.
Qed.

Lemma sort_by_x_In q l : In q (sort_by_x l) -> In q l.
Proof.
  induction l as [|p t IH]; simpl; [auto|].
  intros H. apply insert_by_x_In in H as [->|H]; auto.
Qed.

Lemma insert_by_x_length p l : length (insert_by_x p l) = S (length l).
Proof.
  induction l as [|r t IH]; simpl; [reflexivity|].
  destruct (Qltb (fst p) (fst r)); simpl; auto.
Qed.

Lemma sort_by_x_length l : length (sort_by_x l) = length l.
Proof.
  induction l as [|p t IH]; simpl; [reflexivity|].
  now rewrite insert_by_x_length, IH.
Qed.

Lemma hd_In {A : Type} (d : A) l : l <> [] -> In (hd d l) l.
Proof. destruct l; [congruence | intros _; now left]. Qed.

Lemma last_In {A : Type} (d : A) l : l <> [] -> In (last l d) l.
Proof.
  induction l as [|a [|b t] IH]; intros H; [congruence | now left |].
  right. apply IH. discriminate.
Qed.

Lemma make_interp1d_Ok x y kind f :
  make_interp1d x y kind = Ok f ->
  bounds_error f = true /\ ix f <> [] /\ (forall a, In a (ix f) -> In a x).
Proof.
  unfold make_interp1d.
  destruct (negb (Nat.eqb (length x) (length y))) eqn:E1; [discriminate|].
  destruct (Nat.ltb (length x) (kind + 1)) eqn:E2; [discriminate|].
  intros [= <-]. simpl.
  apply negb_false_iff, Nat.eqb_eq in E1. apply Nat.ltb_ge in E2.
  split; [reflexivity|]. split.
  - intros H.
    assert (L : length (map fst (sort_by_x (combine x y))) = 0%nat) by now rewrite H.
    rewrite length_map, sort_by_x_length, length_combine in L. lia.
  - intros a Ha. apply in_map_iff in Ha as ((a', b) & <- & Hp).
    apply sort_by_x_In in Hp. simpl. eapply in_combine_l; eassumption.
Qed.

Lemma Qltb_true a b : Qltb a b = true <-> a < b.
Proof.
  unfold Qltb. rewrite negb_true_iff. apply Qle_bool_false.
Qed.

Lemma existsb_map_id {A : Type} (p : A -> bool) l :
  existsb (fun b => b) (map p l) = existsb p l.
Proof. induction l as [|a t IH]; simpl; [reflexivity | now rewrite IH]. Qed.

(** C8.  A query that contains a time outside the span of the control
    points (before all of them, or after all of them) makes the call fail
    with a [ValueError] naming the interpolation range, whatever the
    spline; a query one day past the last yearly control point, July 1,
    2032, fails with "above the interpolation range". *)
Theorem C8_out_of_domain
        (spline : list Q -> ndarray -> nat -> Q -> npfloat) x y kind f x_new t :
  make_interp1d x y kind = Ok f ->
  In t x_new ->
  (forall a, In a x -> t < a) \/ (forall a, In a x -> a < t) ->
  (interp1d_call spline f x_new
   = Raise (ValueError "A value in x_new is below the interpolation range.") \/
   interp1d_call spline f x_new
   = Raise (ValueError "A value in x_new is above the interpolation range.")) /\
  (x = yearly_mid_times_25_num ->
   interp1d_call spline f [plot_date 2032 7 1 + 1]
   = Raise (ValueError "A value in x_new is above the interpolation range.")).
Proof.
  intros Hf Ht Hout.
  destruct (make_interp1d_Ok _ _ _ _ Hf) as (Hb & Hne & Hin).
  pose proof (Hin _ (hd_In 0 (ix f) Hne)) as Hhd.
  pose proof (Hin _ (last_In 0 (ix f) Hne)) as Hlast.
  split.
  - unfold interp1d_call. rewrite Hb, !existsb_map_id. simpl.
    destruct (existsb (fun t0 => Qltb t0 (hd 0 (ix f))) x_new) eqn:Eb; [now left|].
    right.
    assert (Ea : existsb (fun t0 => Qltb (last (ix f) 0) t0) x_new = true).
    { apply existsb_exists. exists t. split; [exact Ht|].
      apply Qltb_true.
      destruct Hout as [Hlt|Hgt]; [|now apply Hgt].
      exfalso.
      assert (G : existsb (fun t0 => Qltb t0 (hd 0 (ix f))) x_new = true).
      { apply existsb_exists. exists t. split; [exact Ht|].
        apply Qltb_true. now apply Hlt. }
      congruence. }
    now rewrite Ea.
  - intros ->.
    assert (Hall : forall a, In a yearly_mid_times_25_num ->
                     a < plot_date 2032 7 1 + 1).
    { intros a Ha. vm_compute in Ha.
      repeat (destruct Ha as [<-|Ha]; [vm_compute; reflexivity|]).
      contradiction. }
    unfold interp1d_call. rewrite Hb. cbn [map existsb andb orb].
    assert (E1 : Qltb (plot_date 2032 7 1 + 1) (hd 0 (ix f)) = false).
    { unfold Qltb. rewrite negb_false_iff. apply Qle_bool_iff.
      apply Qlt_le_weak. now apply Hall. }
    assert (E2 : Qltb (last (ix f) 0) (plot_date 2032 7 1 + 1) = true)
      by (apply Qltb_true; now apply Hall).
    rewrite E1, E2. reflexivity.
Qed.

Lemma C8_out_of_domain_witness :
  exists f,
    fpp yearly_rates_example = Ok f /\
    interp1d_call (fun _ _ _ _ => NaN) f [plot_date 2032 7 1 + 1]
    = Raise (ValueError "A value in x_new is above the interpolation range.").
Proof.
  destruct (fpp yearly_rates_example) as [f|] eqn:Hf;
    [|vm_compute in Hf; discriminate Hf].
  exists f. split; [reflexivity|].
  assert (Hin : In (plot_date 2032 7 1 + 1) [plot_date 2032 7 1 + 1]) by (now left).
  assert (Hout : (forall a, In a yearly_mid_times_25_num -> plot_date 2032 7 1 + 1 < a) \/
                 (forall a, In a yearly_mid_times_25_num -> a < plot_date 2032 7 1 + 1)).
  { right. intros a Ha. vm_compute in Ha.
    repeat (destruct Ha as [<-|Ha]; [vm_compute; reflexivity|]).
    contradiction. }
  exact (proj2 (C8_out_of_domain (fun _ _ _ _ => NaN) _ _ _ f _ _ Hf Hin Hout) eq_refl).
Defined.

(** *** The sums over the selected days *)

Lemma where_from_In {A : Type} (p : A -> bool) (l : list A) i0 k :
  In k (where_from p l i0) <->
  exists j x, k = (i0 + Z.of_nat j)%Z /\ nth_error l j = Some x /\ p x = true.
Proof.
  revert i0; induction l as [|a t IH]; intros i0; simpl.
  - split; [contradiction|]. intros (j & x & _ & H & _). destruct j; discriminate H.
  - assert (Hrest : In k (where_from p t (i0 + 1)%Z) <->
              exists j x, k = (i0 + Z.of_nat (S j))%Z /\
                          nth_error t j = Some x /\ p x = true).
    { rewrite IH. split; intros (j & x & E & H); exists j, x; split; auto; lia. }
    destruct (p a) eqn:Pa; simpl.
    + split.
      * intros [<-|H].
        -- exists 0%nat, a. simpl. repeat split; auto. lia.
        -- apply Hrest in H as (j & x & E & H). exists (S j), x. auto.
      * intros ([|j] & x & E & H & Px); simpl in H.
        -- left. lia.
        -- right. apply Hrest. exists j, x. auto.
    + split.
      * intros H. apply Hrest in H as (j & x & E & H). exists (S j), x. auto.
      * intros ([|j] & x & E & H & Px); simpl in H.
        -- injection H as <-. congruence.
        -- apply Hrest. exists j, x. auto.
Qed.

(** The selected positions are those of the distances below the
    threshold. *)
Lemma psp_below_spec psp_r thr i :
  In i (psp_below psp_r thr) <->
  exists j x, i = Z.of_nat j /\ nth_error psp_r j = Some x /\ flt x (Fin thr) = true.
Proof.
  unfold psp_below, np_where. rewrite where_from_In.
  split; intros (j & x & E & H); exists j, x; split; auto; lia.
Qed.

Lemma sum_at_in_range daily idx :
  (forall i, In i idx -> (0 <= i < Z.of_nat (length daily))%Z) ->
  sum_at daily idx = Ok (np_sum (map (fun i => nth (Z.to_nat i) daily NaN) idx)).
Proof.
  intros H. unfold sum_at, np_take.
  rewrite (mapM_all_ok (np_get daily) (fun i => nth (Z.to_nat i) daily NaN)).
  - reflexivity.
  - intros i Hi. specialize (H i Hi).
    rewrite <- (Z2Nat.id i) at 1 by lia.
    apply np_get_nat. apply nth_error_nth'. lia.
Qed.

Lemma per_day_nth curve j :
  nth j (per_day curve) NaN = fdiv (nth j curve NaN) (Fin 365.24).
Proof.
  unfold per_day, scalar_r.
  exact (map_nth (fun x => fdiv x (Fin 365.24)) curve NaN j).
Qed.

Lemma sum_at_per_day curve idx :
  (forall i, In i idx -> (0 <= i < Z.of_nat (length curve))%Z) ->
  sum_at (per_day curve) idx
  = Ok (np_sum (map (fun i => fdiv (nth (Z.to_nat i) curve NaN) (Fin 365.24)) idx)).
Proof.
  intros H. rewrite sum_at_in_range.
  - f_equal. f_equal. apply map_ext. intros i. apply per_day_nth.
  - unfold per_day, scalar_r. now rewrite length_map.
Qed.

Lemma below_in_range (r c : ndarray) thr i :
  (length r <= length c)%nat -> In i (psp_below r thr) ->
  (0 <= i < Z.of_nat (length c))%Z.
Proof.
  intros Hc Hi. apply psp_below_spec in Hi as (j & x & -> & Hj & _).
  assert (j < length r)%nat by (apply nth_error_Some; congruence). lia.
Qed.

(** *** Cell 22 as the script runs it

    The splines are built on the thirteen mid-year times and evaluated on
    the 4383 days between the first and the last of them, so the bounds
    check passes; the trajectory has the 1888 days up to August 31, 2025,
    so every selected position exists in the daily curves. *)

Lemma make_interp1d_yearly (y : ndarray) f :
  make_interp1d yearly_mid_times_25_num y 2 = Ok f ->
  f = {| ix := yearly_mid_times_25_num; iy := y; order := 2;
         bounds_error := true |}.
Proof.
  unfold make_interp1d.
  destruct (Nat.eqb (length yearly_mid_times_25_num) (length y)) eqn:L;
    [|discriminate].
  apply Nat.eqb_eq in L. cbn [negb].
  replace (length yearly_mid_times_25_num) with 13%nat in * by reflexivity.
  do 13 (destruct y as [|? y]; [discriminate L|]).
  destruct y; [|discriminate L].
  intros H. vm_compute in H. injection H as <-. vm_compute. reflexivity.
Qed.

Lemma daily_times_within :
  forall t, In t times_25_daily_icrange_num ->
    Qltb t (hd 0 yearly_mid_times_25_num)
    || Qltb (last yearly_mid_times_25_num 0) t = false.
Proof.
  intros t Ht.
  assert (F : forallb (fun t => negb (Qltb t (hd 0 yearly_mid_times_25_num)
                                      || Qltb (last yearly_mid_times_25_num 0) t))
                times_25_daily_icrange_num = true)
    by (vm_compute; reflexivity).
  rewrite forallb_forall in F. specialize (F t Ht).
  now apply negb_true_iff in F.
Qed.

Lemma existsb_map_false {A : Type} (p : A -> bool) l :
  (forall t, In t l -> p t = false) ->
  existsb (fun b : bool => b) (map p l) = false.
Proof.
  intros H. rewrite existsb_map_id. apply not_true_is_false. intros E.
  apply existsb_exists in E as (t & Ht & Et). rewrite (H t Ht) in Et.
  discriminate.
Qed.

Lemma interp1d_call_daily spline (y : ndarray) f :
  make_interp1d yearly_mid_times_25_num y 2 = Ok f ->
  interp1d_call spline f times_25_daily_icrange_num
  = Ok (map (spline yearly_mid_times_25_num y 2%nat) times_25_daily_icrange_num).
Proof.
  intros H. apply make_interp1d_yearly in H. subst f.
  unfold interp1d_call. cbn [ix iy order bounds_error andb].
  assert (B : existsb (fun b : bool => b)
                (map (fun t => Qltb t (hd 0 yearly_mid_times_25_num))
                     times_25_daily_icrange_num) = false).
  { apply existsb_map_false. intros t Ht.
    pose proof (daily_times_within t Ht) as W.
    apply orb_false_iff in W. tauto. }
  assert (A : existsb (fun b : bool => b)
                (map (fun t => Qltb (last yearly_mid_times_25_num 0) t)
                     times_25_daily_icrange_num) = false).
  { apply existsb_map_false. intros t Ht.
    pose proof (daily_times_within t Ht) as W.
    apply orb_false_iff in W. tauto. }
  rewrite B, A. apply f_equal. apply map_ext_in. intros t Ht.
  now rewrite (daily_times_within t Ht).
Qed.

(** For every trajectory, threshold and three series of thirteen yearly
    rates, cell 22 returns the three sums; it raises nothing. *)
Lemma icmes_psp_predict_returns spline psp_distance (y yl yh : ndarray) f fl fh thr :
  make_interp1d yearly_mid_times_25_num y 2 = Ok f ->
  make_interp1d yearly_mid_times_25_num yl 2 = Ok fl ->
  make_interp1d yearly_mid_times_25_num yh 2 = Ok fh ->
  let daily c := map (spline yearly_mid_times_25_num c 2%nat)
                     times_25_daily_icrange_num in
  let idx := psp_below (psp_r psp_distance) thr in
  icmes_psp_predict spline psp_distance f fl fh thr
  = Ok (np_sum (map (fun i => fdiv (nth (Z.to_nat i) (daily y) NaN) (Fin 365.24)) idx),
        np_sum (map (fun i => fdiv (nth (Z.to_nat i) (daily yl) NaN) (Fin 365.24)) idx),
        np_sum (map (fun i => fdiv (nth (Z.to_nat i) (daily yh) NaN) (Fin 365.24)) idx)).
Proof.
  intros Hf Hl Hh daily idx. subst daily idx. unfold icmes_psp_predict.
  rewrite (interp1d_call_daily spline y f Hf),
          (interp1d_call_daily spline yl fl Hl),
          (interp1d_call_daily spline yh fh Hh).
  cbn [bind].
  assert (L : forall g : Q -> npfloat,
             (length (psp_r psp_distance)
              <= length (map g times_25_daily_icrange_num))%nat).
  { intros g. unfold psp_r. rewrite !length_map.
    apply Nat.leb_le. vm_compute. reflexivity. }
  unfold expected_icmes.
  rewrite (sum_at_per_day _ _ (fun i => below_in_range _ _ thr i (L _))),
          (sum_at_per_day _ _ (fun i => below_in_range _ _ thr i (L _))),
          (sum_at_per_day _ _ (fun i => below_in_range _ _ thr i (L _))).
  reflexivity.
Qed.

(** C7.  For a distance series not longer than the three daily curves,
    the result is the triple of the sums, over the positions where the
    distance is below the threshold, of the yearly-rate values divided by
    365.24, one sum per curve; with no position below the threshold the
    result is the triple of zeros, whatever the lengths. *)
Theorem C7_expected_icmes psp_r thr mean low high :
  ((length psp_r <= length mean)%nat -> (length psp_r <= length low)%nat ->
   (length psp_r <= length high)%nat ->
   expected_icmes psp_r thr mean low high
   = Ok (np_sum (map (fun i => fdiv (nth (Z.to_nat i) mean NaN) (Fin 365.24))
                     (psp_below psp_r thr)),
         np_sum (map (fun i => fdiv (nth (Z.to_nat i) low NaN) (Fin 365.24))
                     (psp_below psp_r thr)),
         np_sum (map (fun i => fdiv (nth (Z.to_nat i) high NaN) (Fin 365.24))
                     (psp_below psp_r thr)))) /\
  (forall i, In i (psp_below psp_r thr) <->
     exists j x, i = Z.of_nat j /\ nth_error psp_r j = Some x /\
                 flt x (Fin thr) = true) /\
  (psp_below psp_r thr = [] ->
   expected_icmes psp_r thr mean low high = Ok (Fin 0, Fin 0, Fin 0)).
Proof.
  split; [|split].
  - intros Hm Hl Hh.
    unfold expected_icmes.
    rewrite (sum_at_per_day mean _ (fun i => below_in_range _ _ thr i Hm)),
            (sum_at_per_day low _ (fun i => below_in_range _ _ thr i Hl)),
            (sum_at_per_day high _ (fun i => below_in_range _ _ thr i Hh)).
    reflexivity.
  - intros i. apply psp_below_spec.
  - intros E. unfold expected_icmes. rewrite E. reflexivity.
Qed.

(** Ten daily distances, four of them below 0.3 AU, and a constant rate
    of 0.05 per day: each sum is 0.2, printed as 0. *)
Lemma C7_expected_icmes_witness :
  exists c l h,
    expected_icmes psp_r_example 0.3 curve_example curve_example curve_example
    = Ok (c, l, h) /\
    psp_below psp_r_example 0.3 = [2; 3; 4; 5]%Z /\
    feq c (Fin 0.2) /\ printed c = Ok 0%Z.
Proof.
  destruct (C7_expected_icmes psp_r_example 0.3 curve_example curve_example
              curve_example) as (H & _ & _).
  assert (L : (length psp_r_example <= length curve_example)%nat)
    by (vm_compute; lia).
  specialize (H L L L).
  do 3 eexists. split; [exact H|].
  split; [vm_compute; reflexivity|].
  split; vm_compute; reflexivity.
Defined.

End ExposureClaims.

(** ** Cells 5 and 6: what the loop stores, what it counts, when it fails *)

Module CoverageProperties.

Import NumPy Dates Rates Examples Invariants.
Import ArrayFacts FloatFacts RatesFacts StatsFacts IcrateFacts NanFacts CoverageFacts.
Local Open Scope Q_scope.

(** *** Loops *)

(** A property that one iteration establishes and the others keep holds
    after the loop. *)
Lemma for_each_establish {S : Type} (I Q : S -> Prop) (body : Z -> S -> result S) l j :
  In j l ->
  (forall i s s', In i l -> I s -> body i s = Ok s' ->
     I s' /\ (Q s -> Q s') /\ (i = j -> Q s')) ->
  forall st st', I st -> for_each body l st = Ok st' -> Q st'.
Proof.
  intros Hj step st st' HI H.
  assert (G : forall l', (forall i, In i l' -> In i l) ->
            forall s0, I s0 -> for_each body l' s0 = Ok st' ->
            (Q s0 \/ In j l') -> Q st').
  { induction l' as [|i t IH]; simpl; intros Hsub s0 HI0 H0 HQ.
    - injection H0 as <-. destruct HQ as [HQ|[]]. exact HQ.
    - bind_inv.
      destruct (step i s0 v (Hsub i (or_introl eq_refl)) HI0 E) as (HI1 & Hk & He).
      apply (IH (fun i' Hi' => Hsub i' (or_intror Hi')) v HI1 H0).
      destruct HQ as [HQ|[->|Hin]]; auto. }
  apply (G l (fun _ H => H) st HI H). now right.
Qed.


(** Every iteration of a loop that ends has run to its end, from a state
    that satisfies the invariant. *)
Lemma for_each_steps {S : Type} (I : S -> Prop) (body : Z -> S -> result S) l :
  (forall i s s', In i l -> I s -> body i s = Ok s' -> I s') ->
  forall st st', I st -> for_each body l st = Ok st' ->
  forall i, In i l -> exists s s', I s /\ body i s = Ok s'.
Proof.
  induction l as [|i t IH]; simpl; intros step st st' HI H j Hj; [contradiction|].
  bind_inv. destruct Hj as [->|Hj].
  - eauto.
  - apply (IH (fun i' s s' Hi' => step i' s s' (or_intror Hi')) v st'); auto.
    eapply step; [now left | exact HI | exact E].
Qed.


(** *** Indexing with an index array *)

Lemma norm_index_nonneg n i :
  (0 <= i)%Z -> norm_index n i <> None <-> (i < Z.of_nat n)%Z.
Proof.
  intros Hi. unfold norm_index.
  replace (i <? 0)%Z with false by (symmetry; apply Z.ltb_ge; lia).
  replace (0 <=? i)%Z with true by (symmetry; apply Z.leb_le; lia).
  cbn [andb]. destruct (i <? Z.of_nat n)%Z eqn:E.
  - apply Z.ltb_lt in E. split; [auto | discriminate].
  - apply Z.ltb_ge in E. split; [congruence | lia].
Qed.


Lemma np_get_Raise {A : Type} (a : list A) i e :
  np_get a i = Raise e -> e = IndexError "index out of bounds".
Proof.
  unfold np_get. destruct (norm_index (length a) i) as [j|].
  - destruct (nth_error a j); [discriminate | now intros [= <-]].
  - now intros [= <-].
Qed.

Lemma np_get_out_of_range {A : Type} (a : list A) i :
  (Z.of_nat (length a) <= i)%Z ->
  np_get a i = Raise (IndexError "index out of bounds").
Proof.
  intros Hi. unfold np_get, norm_index.
  replace (i <? 0)%Z with false by (symmetry; apply Z.ltb_ge; lia).
  replace (i <? Z.of_nat (length a))%Z with false by (symmetry; apply Z.ltb_ge; lia).
  now rewrite andb_false_r.
Qed.


Lemma np_take_Raise {A : Type} (a : list A) idx e :
  np_take a idx = Raise e -> e = IndexError "index out of bounds".
Proof.
  unfold np_take. induction idx as [|i t IH]; simpl; [discriminate|].
  destruct (np_get a i) eqn:E; cbn [bind].
  - destruct (mapM (np_get a) t); cbn [bind]; [discriminate | auto].
  - intros [= <-]. eapply np_get_Raise; eassumption.
Qed.

(** An index array with a position past the end raises. *)
Lemma np_take_out_of_range {A : Type} (a : list A) idx i :
  In i idx -> (Z.of_nat (length a) <= i)%Z ->
  np_take a idx = Raise (IndexError "index out of bounds").
Proof.
  intros Hin Hi.
  destruct (np_take a idx) as [sel|e] eqn:E.
  - exfalso. unfold np_take in E.
    destruct (In_nth_error _ _ Hin) as (k & Hk).
    destruct (mapM_nth_error _ _ _ E k i Hk) as (y & Hy & _).
    rewrite (np_get_out_of_range a i Hi) in Hy. discriminate Hy.
  - now rewrite (np_take_Raise _ _ _ E).
Qed.

Lemma np_set_Raise {A : Type} (a : list A) i v e :
  np_set a i v = Raise e -> e = IndexError "index out of bounds".
Proof.
  unfold np_set. destruct (norm_index (length a) i); [discriminate|].
  now intros [= <-].
Qed.


(** *** One iteration of the loop of cell 5 *)

Lemma set_days_entry a k n m a' j :
  length a = 13%nat -> (k < 13)%nat ->
  set_days a (Z.of_nat k) n m = Ok a' ->
  nth_error a' j
  = if Nat.eqb j k && (0 <? n)%Z then Some (fmul (of_Z n) (Fin m))
    else nth_error a j.
Proof.
  intros La Hk. unfold set_days. destruct (0 <? n)%Z.
  - intros H.
    apply (np_set_13 _ _ _ k) in H as [_ H];
      [|assumption|now apply norm_index_nat].
    rewrite H. now rewrite andb_true_r.
  - intros [= <-]. now rewrite andb_false_r.
Qed.


Lemma set_days_Raise a i n m e :
  set_days a i n m = Raise e -> e = IndexError "index out of bounds".
Proof.
  unfold set_days. destruct (0 <? n)%Z; [apply np_set_Raise | discriminate].
Qed.


(** What one iteration leaves in the array of a spacecraft sampled every
    minute. *)
Lemma year_step_entry inp k st st' sc j :
  days_shape st -> (k < 13)%nat ->
  year_step inp (Z.of_nat k) st = Ok st' ->
  sc <> MAVEN -> ~ (sc = Wind /\ (11 <= j)%nat) ->
  exists n, datas_in_year inp sc (Z.of_nat k) = Ok n /\
    nth_error (days_of sc st') j
    = if Nat.eqb j k && (0 <? n)%Z
      then Some (fmul (of_Z n) (Fin (1 / (60 * 24))))
      else nth_error (days_of sc st) j.
Proof.
  intros Hs Hk H Hsc Hw.
  pose proof (Hs Wind) as Lw. pose proof (Hs VEX) as Lv.
  pose proof (Hs STA) as La. pose proof (Hs STB) as Lb.
  pose proof (Hs MESSENGER) as Lm.
  simpl in Lw, Lv, La, Lb, Lm.
  unfold year_step in H. bind_inv. injection H as <-.
  assert (Hd : forall sc' n,
            datas_of (times (time_source sc' inp)) (bts (field_source sc' inp)) v v0
            = Ok n -> datas_in_year inp sc' (Z.of_nat k) = Ok n).
  { intros sc' n Hn. unfold datas_in_year. rewrite E, E0. exact Hn. }
  destruct sc; try congruence; cbn [days_of total_data_days_yearly_win
    total_data_days_yearly_sta total_data_days_yearly_stb
    total_data_days_yearly_mes total_data_days_yearly_vex].
  - (* Wind *)
    exists v1. split; [apply (Hd Wind); assumption|].
    assert (Hj : (j < 11)%nat)
      by (destruct (Nat.lt_ge_cases j 11); [assumption | tauto]).
    assert (E2' : set_days (total_data_days_yearly_win st) (Z.of_nat k) v1
                    (1 / (60 * 24)) = Ok v2)
      by (destruct (10 <? Z.of_nat k)%Z; exact E2).
    pose proof (set_days_length _ _ _ _ _ E2') as L2. rewrite Lw in L2.
    pose proof (np_set_length _ _ _ _ E3) as L3. rewrite L2 in L3.
    rewrite (np_set_other v3 v4 (-2) (Fin 360) 13 j 11 L3 eq_refl) by (lia || exact E4).
    rewrite (np_set_other v2 v3 (-1) (Fin 360) 13 j 12 L2 eq_refl) by (lia || exact E3).
    exact (set_days_entry _ _ _ _ _ j Lw Hk E2').
  - exists v11. split; [apply (Hd VEX); assumption|].
    exact (set_days_entry _ _ _ _ _ j Lv Hk E12).
  - exists v5. split; [apply (Hd STA); assumption|].
    exact (set_days_entry _ _ _ _ _ j La Hk E6).
  - exists v7. split; [apply (Hd STB); assumption|].
    exact (set_days_entry _ _ _ _ _ j Lb Hk E8).
  - exists v9. split; [apply (Hd MESSENGER); assumption|].
    exact (set_days_entry _ _ _ _ _ j Lm Hk E10).
Qed.

(** After every iteration the last two Wind entries are 360. *)
Lemma year_step_wind inp k st st' :
  days_shape st -> (k < 13)%nat ->
  year_step inp (Z.of_nat k) st = Ok st' ->
  nth_error (total_data_days_yearly_win st') 11 = Some (Fin 360) /\
  nth_error (total_data_days_yearly_win st') 12 = Some (Fin 360).
Proof.
  intros Hs Hk H. pose proof (Hs Wind) as Lw. simpl in Lw.
  unfold year_step in H. bind_inv. injection H as <-.
  cbn [total_data_days_yearly_win].
  pose proof (set_days_length _ _ _ _ _ E2) as L2. rewrite Lw in L2.
  destruct (np_set_13 _ _ (-1) 12%nat _ L2 eq_refl E3) as [L3 N3].
  destruct (np_set_13 _ _ (-2) 11%nat _ L3 eq_refl E4) as [L4 N4].
  split.
  - rewrite N4. reflexivity.
  - rewrite N4. cbn [Nat.eqb]. rewrite N3. reflexivity.
Qed.


Lemma n_years : length yearly_mid_times_num = 13%nat.
Proof. vm_compute. reflexivity. Qed.

Lemma range_13_In i : In i (range (length yearly_mid_times_num)) ->
  exists k, i = Z.of_nat k /\ (k < 13)%nat.
Proof. rewrite n_years. apply range_In. Qed.

Lemma In_range_13 k : (k < 13)%nat -> In (Z.of_nat k) (range (length yearly_mid_times_num)).
Proof.
  intros Hk. rewrite n_years. unfold range. apply in_map. apply in_seq. lia.
Qed.

(** X1.  The last two Wind entries are 360 days whatever the Wind data. *)
Theorem wind_last_two_years inp d :
  total_data_days inp = Ok d ->
  nth_error (total_data_days_yearly_win d) 11 = Some (Fin 360) /\
  nth_error (total_data_days_yearly_win d) 12 = Some (Fin 360).
Proof.
  intros H. unfold total_data_days in H.
  apply (for_each_establish days_shape
           (fun st => nth_error (total_data_days_yearly_win st) 11 = Some (Fin 360) /\
                      nth_error (total_data_days_yearly_win st) 12 = Some (Fin 360))
           (year_step inp) (range (length yearly_mid_times_num)) (Z.of_nat 0))
    with (st := data_days_init) (st' := d).
  - apply In_range_13. lia.
  - intros i s s' Hi HI Hs. apply range_13_In in Hi as (k & -> & Hk).
    split; [eapply year_step_shape; eassumption|].
    pose proof (year_step_wind inp k s s' HI Hk Hs). auto.
  - apply data_days_init_shape.
  - exact H.
Qed.

(** One Wind event and no Wind data at all. *)
Lemma wind_last_two_years_witness :
  exists d, total_data_days wind_2018_input = Ok d /\
            nth_error (total_data_days_yearly_win d) 11 = Some (Fin 360) /\
            nth_error (total_data_days_yearly_win d) 12 = Some (Fin 360).
Proof.
  destruct (total_data_days wind_2018_input) as [d|] eqn:E;
    [|vm_compute in E; discriminate].
  exists d. split; [reflexivity|].
  exact (wind_last_two_years wind_2018_input d E).
Defined.

(** X2.  For Wind before 2018, STEREO-A, STEREO-B and VEX the data days
    of a year are the number of samples with a field value that lie
    between January 1 and December 31 of the year, each counted as a
    minute, 1/1440 of a day; they are NaN when the year has no such
    sample. *)
Theorem data_days_one_minute inp d sc j s e :
  total_data_days inp = Ok d ->
  sc <> MAVEN -> sc <> MESSENGER -> ~ (sc = Wind /\ (11 <= j)%nat) ->
  nth_error yearly_start_times j = Some s ->
  nth_error yearly_end_times j = Some e ->
  nth_error (days_of sc d) j
  = Some (match defined_in_year (time_source sc inp) s e with
          | [] => NaN
          | l => Fin (inject_Z (Z.of_nat (length l)) * (1 / (60 * 24)))
          end).
Proof.
  intros H Hmav Hmes Hw Hs He.
  assert (Hj : (j < 13)%nat).
  { assert (L : (j < length yearly_start_times)%nat)
      by (apply nth_error_Some; congruence).
    vm_compute in L. exact L. }
  destruct (datas_in_year_same_file inp sc j Hmes Hj) as (s' & e' & Hs' & He' & Hn).
  rewrite Hs in Hs'. injection Hs' as <-.
  rewrite He in He'. injection He' as <-.
  destruct (defined_in_year (time_source sc inp) s e) as [|x l] eqn:D.
  - exact (no_samples_no_coverage inp d sc j H Hj Hw Hn).
  - unfold total_data_days in H.
    apply (for_each_establish days_shape
             (fun st => nth_error (days_of sc st) j
                        = Some (Fin (inject_Z (Z.of_nat (length (x :: l)))
                                     * (1 / (60 * 24)))))
             (year_step inp) (range (length yearly_mid_times_num)) (Z.of_nat j))
      with (st := data_days_init) (st' := d).
    + now apply In_range_13.
    + intros i st st' Hi HI Hstep. apply range_13_In in Hi as (k & -> & Hk).
      split; [eapply year_step_shape; eassumption|].
      destruct (year_step_entry inp k st st' sc j HI Hk Hstep Hmav Hw)
        as (n & Hdn & Hent).
      destruct (Nat.eqb j k) eqn:Ejk.
      * apply Nat.eqb_eq in Ejk. subst k.
        rewrite Hn in Hdn. injection Hdn as <-.
        assert (Q : nth_error (days_of sc st') j
                    = Some (Fin (inject_Z (Z.of_nat (length (x :: l)))
                                 * (1 / (60 * 24))))).
        { rewrite Hent. cbn [andb]. simpl length.
          replace (0 <? Z.of_nat (S (length l)))%Z with true
            by (symmetry; apply Z.ltb_lt; lia).
          reflexivity. }
        auto.
      * cbn [andb] in Hent. split.
        -- intros Q. now rewrite Hent.
        -- intros Ek. apply Nat2Z.inj in Ek. subst k.
           rewrite Nat.eqb_refl in Ejk. discriminate Ejk.
    + apply data_days_init_shape.
    + exact H.
Qed.

(** Seven minutes of VEX data in May 2010 are 7/1440 of a day. *)
Lemma data_days_one_minute_witness :
  exists d, total_data_days vex_2010_input = Ok d /\
            nth_error (total_data_days_yearly_vex d) 3
            = Some (Fin (inject_Z 7 * (1 / (60 * 24)))).
Proof.
  destruct (total_data_days vex_2010_input) as [d|] eqn:E;
    [|vm_compute in E; discriminate].
  exists d. split; [reflexivity|].
  assert (Hs : nth_error yearly_start_times 3 = Some (plot_date 2010 1 1))
    by (vm_compute; reflexivity).
  assert (He : nth_error yearly_end_times 3 = Some (plot_date 2010 12 31))
    by (vm_compute; reflexivity).
  pose proof (data_days_one_minute vex_2010_input d VEX 3 _ _ E
                ltac:(discriminate) ltac:(discriminate)
                ltac:(intros [? _]; discriminate) Hs He) as H.
  cbn [days_of] in H. rewrite H.
  vm_compute. reflexivity.
Defined.


(** *** Data days are positive, rates are not negative *)

Lemma minutes_positive n : (0 < n)%Z -> 0 < inject_Z n * (1 / (60 * 24)).
Proof.
  intros Hn. apply Qmult_lt_0_compat; [|reflexivity].
  change 0 with (inject_Z 0). now rewrite <- Zlt_Qlt.
Qed.

Lemma year_step_positive inp k st st' :
  (k < 13)%nat -> days_positive st -> year_step inp (Z.of_nat k) st = Ok st' ->
  days_positive st'.
Proof.
  intros Hk [Hs Hp] H.
  pose proof (year_step_shape inp _ st st' Hs H) as Hs'.
  split; [exact Hs'|].
  intros sc j x Hsc Hx.
  assert (Hj : (j < 13)%nat).
  { rewrite <- (Hs' sc). apply nth_error_Some. congruence. }
  destruct (Nat.lt_ge_cases j 11) as [Hlt|Hge].
  - destruct (year_step_entry inp k st st' sc j Hs Hk H Hsc ltac:(lia))
      as (n & _ & Hent).
    rewrite Hent in Hx.
    destruct (Nat.eqb j k && (0 <? n)%Z) eqn:B.
    + injection Hx as <-. right. eexists. split; [reflexivity|].
      apply andb_true_iff in B as [_ B]. apply Z.ltb_lt in B.
      now apply minutes_positive.
    + exact (Hp sc j x Hsc Hx).
  - destruct sc; try congruence.
    + (* Wind *)
      destruct (year_step_wind inp k st st' Hs Hk H) as [W11 W12].
      simpl in Hx.
      assert (Hc : j = 11%nat \/ j = 12%nat) by lia.
      destruct Hc as [-> | ->];
        [rewrite W11 in Hx | rewrite W12 in Hx];
        injection Hx as <-; right; exists 360; split; reflexivity.
    + destruct (year_step_entry inp k st st' VEX j Hs Hk H Hsc
                  ltac:(intros [? _]; discriminate)) as (n & _ & Hent).
      rewrite Hent in Hx.
      destruct (Nat.eqb j k && (0 <? n)%Z) eqn:B.
      * injection Hx as <-. right. eexists. split; [reflexivity|].
        apply andb_true_iff in B as [_ B]. apply Z.ltb_lt in B.
        now apply minutes_positive.
      * exact (Hp VEX j x Hsc Hx).
    + destruct (year_step_entry inp k st st' STA j Hs Hk H Hsc
                  ltac:(intros [? _]; discriminate)) as (n & _ & Hent).
      rewrite Hent in Hx.
      destruct (Nat.eqb j k && (0 <? n)%Z) eqn:B.
      * injection Hx as <-. right. eexists. split; [reflexivity|].
        apply andb_true_iff in B as [_ B]. apply Z.ltb_lt in B.
        now apply minutes_positive.
      * exact (Hp STA j x Hsc Hx).
    + destruct (year_step_entry inp k st st' STB j Hs Hk H Hsc
                  ltac:(intros [? _]; discriminate)) as (n & _ & Hent).
      rewrite Hent in Hx.
      destruct (Nat.eqb j k && (0 <? n)%Z) eqn:B.
      * injection Hx as <-. right. eexists. split; [reflexivity|].
        apply andb_true_iff in B as [_ B]. apply Z.ltb_lt in B.
        now apply minutes_positive.
      * exact (Hp STB j x Hsc Hx).
    + destruct (year_step_entry inp k st st' MESSENGER j Hs Hk H Hsc
                  ltac:(intros [? _]; discriminate)) as (n & _ & Hent).
      rewrite Hent in Hx.
      destruct (Nat.eqb j k && (0 <? n)%Z) eqn:B.
      * injection Hx as <-. right. eexists. split; [reflexivity|].
        apply andb_true_iff in B as [_ B]. apply Z.ltb_lt in B.
        now apply minutes_positive.
      * exact (Hp MESSENGER j x Hsc Hx).
Qed.

Lemma data_days_init_positive : days_positive data_days_init.
Proof.
  split; [apply data_days_init_shape|].
  intros sc j x _ Hx. left.
  assert (In x (np_full 13 NaN)).
  { apply nth_error_In with (n := j). destruct sc; exact Hx. }
  eapply repeat_spec; eassumption.
Qed.

Lemma total_data_days_positive inp d :
  total_data_days inp = Ok d -> days_positive d.
Proof.
  unfold total_data_days.
  apply (for_each_invariant_In days_positive (year_step inp)).
  - intros i s s' Hi HP Hs. apply range_13_In in Hi as (k & -> & Hk).
    eapply year_step_positive; eassumption.
  - apply data_days_init_positive.
Qed.

Lemma rint_nonneg x : 0 <= x -> (0 <= rint x)%Z.
Proof.
  intros Hx. rewrite <- (rint_inject_Z 0). apply rint_mono. exact Hx.
Qed.

(** The rate computed from a count and positive data days is a tenth that
    is not negative. *)
Lemma computed_rate_positive_days c q :
  (0 <= c)%Z -> 0 < q ->
  exists k, (0 <= k)%Z /\ computed_rate c (Fin q) = Fin (k # 10).
Proof.
  intros Hc Hq.
  rewrite RateClaims.computed_rate_fin by (intros E; rewrite E in Hq; discriminate Hq).
  unfold np_round. eexists. split; [|reflexivity].
  apply rint_nonneg.
  assert (0 <= inject_Z c) by (change 0 with (inject_Z 0); now rewrite <- Zle_Qle).
  assert (0 <= inject_Z c / q) by (apply Qle_shift_div_l; [assumption | lra]).
  apply Qmult_le_0_compat; [|discriminate].
  apply Qmult_le_0_compat; [assumption|discriminate].
Qed.

(** X3.  For the five spacecraft sampled every minute a yearly rate is
    undefined or a tenth that is not negative: it is never infinite. *)
Theorem rate_never_negative_nor_infinite inp out sc i y :
  run_stage12 inp = Ok out -> sc <> MAVEN ->
  nth_error (hist_of sc (rates_out out)) i = Some y ->
  y = NaN \/ exists k, (0 <= k)%Z /\ feq y (Fin (k # 10)).
Proof.
  intros Hrun Hsc Hy.
  unfold run_stage12 in Hrun. bind_inv. injection Hrun as <-.
  cbn [rates_out] in Hy.
  pose proof (total_data_days_positive _ _ E) as [Hd Hp].
  destruct (icme_rates_entry _ _ _ Hd E0) as [Hr He].
  assert (Hi : (i < 13)%nat).
  { rewrite <- (Hr sc). apply nth_error_Some. congruence. }
  destruct (entries_exist inp v v0 sc i Hd Hr Hi) as (c & x & y' & Ec & Ex & Ey).
  rewrite (He sc i c x Ec Ex) in Hy. injection Hy as <-.
  destruct (pinned sc i) eqn:P.
  - destruct sc; try discriminate P; try congruence.
    right. exists 130%Z. split; [lia | reflexivity].
  - destruct (Hp sc i x Hsc Ex) as [-> | (q & -> & Hq)].
    + left. unfold computed_rate. reflexivity.
    + right.
      destruct (computed_rate_positive_days c q
                  (yearly_counts_nonneg _ _ _ _ Ec) Hq) as (k & Hk & ->).
      exists k. split; [exact Hk | reflexivity].
Qed.

(** Seven minutes of data and one event: 1 / (7/1440) * 365.24, rounded,
    is 75135.1. *)
Lemma rate_never_negative_nor_infinite_witness :
  exists out y,
    run_stage12 vex_2010_input = Ok out /\
    nth_error (histvex (rates_out out)) 3 = Some y /\
    (y = NaN \/ exists k, (0 <= k)%Z /\ feq y (Fin (k # 10))).
Proof.
  destruct (run_stage12 vex_2010_input) as [out|] eqn:E;
    [|vm_compute in E; discriminate].
  destruct (nth_error (histvex (rates_out out)) 3) as [y|] eqn:Ey.
  - exists out, y. split; [reflexivity|]. split; [exact Ey|].
    exact (rate_never_negative_nor_infinite vex_2010_input out VEX 3 y E
             ltac:(discriminate) Ey).
  - exfalso. pose proof E as E'. vm_compute in E'. injection E' as <-.
    vm_compute in Ey. discriminate Ey.
Defined.


(** *** When cells 5 and 6 run *)



Lemma datas_of_Raise t (b : ndarray) s e err :
  datas_of t b s e = Raise err -> err = IndexError "index out of bounds".
Proof.
  unfold datas_of. destruct (np_take b (thisyear_of t s e)) eqn:E; cbn [bind].
  - discriminate.
  - intros [= <-]. eapply np_take_Raise; eassumption.
Qed.

Lemma where_from_range {A : Type} (p : A -> bool) (l : list A) k :
  In k (np_where p l) -> (0 <= k < Z.of_nat (length l))%Z.
Proof. intros H. apply where_from_bounds in H. lia. Qed.



Lemma mav_days_Raise m a i s e err :
  mav_days m a i s e = Raise err -> err = IndexError "index out of bounds".
Proof.
  unfold mav_days.
  destruct (np_take (bts m) (thisyear_of (times m) s e)) eqn:E1; cbn [bind];
    [|intros [= <-]; eapply np_take_Raise; eassumption].
  destruct (np_take (map Fin (times m)) (where_notnan a0)) eqn:E2; cbn [bind];
    [|intros [= <-]; eapply np_take_Raise; eassumption].
  destruct (0 <? Z.of_nat (length (where_notnan a0)))%Z; [|discriminate].
  destruct (np_take (np_diff a1) _) eqn:E3; cbn [bind];
    [|intros [= <-]; eapply np_take_Raise; eassumption].
  apply np_set_Raise.
Qed.


Ltac raise_step H :=
  match type of H with
  | bind ?m _ = Raise _ =>
      let E := fresh "R" in
      destruct m eqn:E; cbn [bind] in H;
      [| injection H as <-;
         first [ eapply np_get_Raise; eassumption
               | eapply datas_of_Raise; eassumption
               | eapply set_days_Raise; eassumption
               | eapply np_set_Raise; eassumption
               | eapply mav_days_Raise; eassumption
               | eapply np_take_Raise; eassumption ] ]
  end.




Lemma mapM_total {A B : Type} (f : A -> result B) (l : list A) :
  (forall x, In x l -> exists y, f x = Ok y) -> exists l', mapM f l = Ok l'.
Proof.
  induction l as [|a t IH]; simpl; intros H; [eauto|].
  destruct (H a (or_introl eq_refl)) as (y & ->).
  destruct IH as (l' & ->); [intros; apply H; now right|].
  cbn [bind]. eauto.
Qed.



End CoverageProperties.

(** ** Cell 6: the yearly counts *)

Module CountProperties.

Import NumPy Dates Rates Examples.
Import ArrayFacts FloatFacts RatesFacts CoverageFacts.
Local Open Scope Q_scope.

Lemma arange_nth_error a b k :
  (Z.of_nat k < b - a)%Z -> nth_error (arange a b) k = Some (a + Z.of_nat k)%Z.
Proof.
  intros H. unfold arange. rewrite nth_error_map.
  rewrite (nth_error_nth' (seq 0 (Z.to_nat (b - a))) 0%nat)
    by (rewrite length_seq; lia).
  rewrite seq_nth by lia. reflexivity.
Qed.

Lemma yearly_bin_edges_nth k :
  (k < 14)%nat ->
  nth_error yearly_bin_edges k = Some (plot_date (2007 + Z.of_nat k) 1 1).
Proof.
  intros H. unfold yearly_bin_edges. rewrite nth_error_map.
  rewrite arange_nth_error by (unfold last_year; lia). reflexivity.
Qed.

(** Bin [k] of a histogram counts the entries from edge [k] up to edge
    [k+1], which belongs to the last bin only. *)
Lemma np_histogram_nth a bins k lo hi :
  nth_error bins k = Some lo -> nth_error bins (S k) = Some hi ->
  nth_error (np_histogram a bins) k
  = Some (count_in lo hi (Nat.eqb (S (S k)) (length bins)) a).
Proof.
  revert k; induction bins as [|b0 [|b1 rest] IH]; intros k Hlo Hhi.
  - destruct k; discriminate Hlo.
  - destruct k as [|[|k]]; discriminate Hhi.
  - destruct k as [|k].
    + injection Hlo as <-. injection Hhi as <-. cbn [np_histogram nth_error].
      destruct rest; reflexivity.
    + change (nth_error (np_histogram a (b0 :: b1 :: rest)) (S k))
        with (nth_error (np_histogram a (b1 :: rest)) k).
      rewrite (IH k Hlo Hhi). reflexivity.
Qed.

Lemma events_count cat name (p : Q -> bool) :
  length (filter p (events_of cat name))
  = length (filter (fun r => String.eqb (sc_insitu r) name && p (icme_start_time r)) cat).
Proof.
  unfold events_of. rewrite filter_map, length_map, filter_filter. reflexivity.
Qed.

(** X5.  The count of a spacecraft in a year is the number of its catalog
    events that start from January 1 of the year up to January 1 of the
    next year, which is left out except for the last year, 2019. *)
Theorem yearly_counts_by_year cat name k :
  (k < 13)%nat ->
  exists h, hist1_of cat name = Ok h /\
    nth_error h k
    = Some (Z.of_nat (length (filter
        (fun r => String.eqb (sc_insitu r) name
                  && (Qle_bool (plot_date (2007 + Z.of_nat k) 1 1) (icme_start_time r)
                      && (if Nat.eqb k 12
                          then Qle_bool (icme_start_time r) (plot_date 2020 1 1)
                          else Qltb (icme_start_time r)
                                    (plot_date (2007 + Z.of_nat (S k)) 1 1))))
        cat))).
Proof.
  intros Hk. exists (yearly_counts cat name).
  split; [apply hist1_of_counts|].
  unfold yearly_counts.
  rewrite (np_histogram_nth _ _ k _ _ (yearly_bin_edges_nth k ltac:(lia))
             (yearly_bin_edges_nth (S k) ltac:(lia))).
  unfold count_in. rewrite events_count.
  replace (length yearly_bin_edges) with 14%nat by (vm_compute; reflexivity).
  change (Nat.eqb (S (S k)) 14) with (Nat.eqb k 12).
  apply f_equal. apply f_equal. apply f_equal. apply filter_ext. intros r.
  unfold Qltb.
  destruct (Nat.eqb k 12) eqn:E; [|reflexivity].
  apply Nat.eqb_eq in E. subst k. reflexivity.
Qed.


(** The one STEREO-A event of May 2019 is counted in the last year. *)
Lemma yearly_counts_by_year_witness :
  exists h, hist1_of (ic sta_2019_input) "STEREO-A" = Ok h /\
            nth_error h 12 = Some 1%Z.
Proof.
  destruct (yearly_counts_by_year (ic sta_2019_input) "STEREO-A" 12 ltac:(lia))
    as (h & Hh & Hk).
  exists h. split; [exact Hh|]. rewrite Hk. vm_compute. reflexivity.
Defined.

(** *** No event is lost or counted twice *)

Lemma count_in_split lo mid hi a :
  lo <= mid -> mid <= hi ->
  (count_in lo mid false a + count_in mid hi true a = count_in lo hi true a)%Z.
Proof.
  intros H1 H2. unfold count_in.
  induction a as [|x t IH]; [reflexivity|].
  cbn [filter].
  destruct (Qle_bool lo x) eqn:A; destruct (Qle_bool mid x) eqn:B;
    destruct (Qle_bool x hi) eqn:C; cbn [andb negb length];
    qbool; try lia; exfalso; lra.
Qed.

Lemma Sorted_last_ge lo bins :
  Sorted Qle (lo :: bins) -> lo <= last bins lo.
Proof.
  revert lo; induction bins as [|b t IH]; intros lo H; [simpl; lra|].
  inversion H as [|? ? Hs Hh]; subst. inversion Hh as [|? ? Hle]; subst.
  destruct t as [|c t']; [simpl; exact Hle|].
  specialize (IH b Hs).
  change (last (b :: c :: t') lo) with (last (c :: t') lo).
  replace (last (c :: t') lo) with (last (c :: t') b)
    by (clear; revert c; induction t' as [|d t'' IH']; intros c;
        [reflexivity | exact (IH' d)]).
  lra.
Qed.

Lemma last_cons_default {A : Type} (c : A) t d d' : last (c :: t) d = last (c :: t) d'.
Proof. revert c; induction t as [|x t IH]; intros c; [reflexivity | exact (IH x)]. Qed.

(** The counts of all bins add up to the number of entries between the
    first and the last edge. *)
Lemma np_histogram_total a lo bins :
  Sorted Qle (lo :: bins) -> bins <> [] ->
  fold_right Z.add 0%Z (np_histogram a (lo :: bins))
  = count_in lo (last bins lo) true a.
Proof.
  revert lo; induction bins as [|hi rest IH]; intros lo Hs Hne; [congruence|].
  destruct rest as [|hi2 rest'].
  - simpl. lia.
  - inversion Hs as [|? ? Hs' Hh]; subst. inversion Hh as [|? ? Hle]; subst.
    change (np_histogram a (lo :: hi :: hi2 :: rest'))
      with (count_in lo hi false a :: np_histogram a (hi :: hi2 :: rest')).
    cbn [fold_right]. rewrite (IH hi Hs') by discriminate.
    change (last (hi :: hi2 :: rest') lo) with (last (hi2 :: rest') lo).
    rewrite (last_cons_default hi2 rest' lo hi).
    apply count_in_split; [exact Hle|].
    exact (Sorted_last_ge hi (hi2 :: rest') Hs').
Qed.

Lemma yearly_bin_edges_sorted : Sorted Qle yearly_bin_edges.
Proof.
  assert (E : yearly_bin_edges
              = map inject_Z (map (fun y => toordinal y 1 1) (arange 2007 (last_year + 1))))
    by (unfold yearly_bin_edges, plot_date; now rewrite map_map).
  rewrite E.
  set (l := map (fun y => toordinal y 1 1) (arange 2007 (last_year + 1))).
  vm_compute in l. subst l. cbn [map].
  repeat (constructor; [|first [constructor; rewrite <- Zle_Qle; lia | constructor]]).
  constructor.
Qed.

(** X6.  The thirteen yearly counts of a spacecraft add up to the number of its
    catalog events from January 1, 2007 to January 1, 2020, both
    included. *)
Theorem yearly_counts_total cat name :
  exists h, hist1_of cat name = Ok h /\
    fold_right Z.add 0%Z h
    = Z.of_nat (length (filter
        (fun r => String.eqb (sc_insitu r) name
                  && (Qle_bool (plot_date 2007 1 1) (icme_start_time r)
                      && Qle_bool (icme_start_time r) (plot_date 2020 1 1)))
        cat)).
Proof.
  exists (yearly_counts cat name). split; [apply hist1_of_counts|].
  unfold yearly_counts.
  pose proof yearly_bin_edges_sorted as Hs.
  assert (E : yearly_bin_edges
              = plot_date 2007 1 1
                :: map (fun y => plot_date y 1 1) (arange 2008 (last_year + 1)))
    by reflexivity.
  rewrite E in Hs |- *.
  rewrite (np_histogram_total _ _ _ Hs) by discriminate.
  replace (last (map (fun y => plot_date y 1 1) (arange 2008 (last_year + 1)))
                (plot_date 2007 1 1))
    with (plot_date 2020 1 1) by (vm_compute; reflexivity).
  unfold count_in. now rewrite events_count.
Qed.

(** *** The year windows of cell 5 against the bins of cell 6 *)

Lemma window_false s e t :
  t <= s \/ e <= t -> Qltb s t && Qltb t e = false.
Proof.
  intros H. unfold Qltb. apply andb_false_iff.
  destruct H as [H|H]; [left | right]; apply negb_false_iff; now apply Qle_bool_iff.
Qed.

Lemma count_in_singleton lo hi closed t :
  lo <= t -> t < hi -> count_in lo hi closed [t] = 1%Z.
Proof.
  intros H1 H2. unfold count_in. cbn [filter].
  replace (Qle_bool lo t) with true by (symmetry; now apply Qle_bool_iff).
  replace (Qle_bool t hi) with true by (symmetry; apply Qle_bool_iff; lra).
  replace (Qle_bool hi t) with false by (symmetry; now apply Qle_bool_false).
  destruct closed; reflexivity.
Qed.


(** X7.  A time stamp on December 31 lies in the data window of no year (the
    windows are open and end with the first instant of December 31),
    while an event that starts then is counted in that year. *)
Theorem december_31_not_covered k e b t :
  nth_error yearly_end_times k = Some e ->
  nth_error yearly_bin_edges (S k) = Some b ->
  e <= t -> t < b ->
  (forall j s' e', nth_error yearly_start_times j = Some s' ->
                   nth_error yearly_end_times j = Some e' ->
                   Qltb s' t && Qltb t e' = false) /\
  nth_error (np_histogram [t] yearly_bin_edges) k = Some 1%Z.
Proof.
  intros He Hb Hlo Hhi.
  assert (Hk : (k < 13)%nat).
  { assert (L : (k < length yearly_end_times)%nat)
      by (apply nth_error_Some; congruence).
    vm_compute in L. exact L. }
  split.
  - intros j s' e' Hs' He'.
    assert (Hj : (j < 13)%nat).
    { assert (L : (j < length yearly_end_times)%nat)
        by (apply nth_error_Some; congruence).
      vm_compute in L. exact L. }
    apply window_false.
    do 13 (destruct k as [|k];
      [ vm_compute in He, Hb; injection He as <-; injection Hb as <-;
        do 13 (destruct j as [|j];
          [ vm_compute in Hs', He'; injection Hs' as <-; injection He' as <-;
            first [left; lra | right; lra] |]);
        lia |]).
    lia.
  - rewrite (np_histogram_nth _ _ k _ _ (yearly_bin_edges_nth k ltac:(lia)) Hb).
    apply f_equal. apply count_in_singleton; [|exact Hhi].
    do 13 (destruct k as [|k];
      [ vm_compute in He; injection He as <-;
        eapply Qle_trans; [|exact Hlo]; vm_compute; discriminate |]).
    lia.
Qed.

(** Noon of December 31, 2010. *)
Lemma december_31_not_covered_witness :
  (forall j s' e', nth_error yearly_start_times j = Some s' ->
                   nth_error yearly_end_times j = Some e' ->
                   Qltb s' (plot_date 2010 12 31 + 1 / 2)
                   && Qltb (plot_date 2010 12 31 + 1 / 2) e' = false) /\
  nth_error (np_histogram [plot_date 2010 12 31 + 1 / 2] yearly_bin_edges) 3
  = Some 1%Z.
Proof.
  apply (december_31_not_covered 3 (plot_date 2010 12 31) (plot_date 2011 1 1)).
  - vm_compute. reflexivity.
  - vm_compute. reflexivity.
  - vm_compute. discriminate.
  - vm_compute. reflexivity.
Defined.

End CountProperties.

(** ** Cells 12 to 14: the three error sources *)

Module ErrorProperties.

Import NumPy Dates Rates Prediction Examples.
Import ArrayFacts FloatFacts StatsFacts NanFacts IcrateFacts.
Local Open Scope Q_scope.



Section FiniteFit.

Variable linfit : LinregressResult.
Variable s c e m : Q.
Hypothesis Hs : slope linfit = Fin s.
Hypothesis Hc : intercept linfit = Fin c.
Hypothesis He : stderr linfit = Fin e.






End FiniteFit.




(** *** The error from the sunspot prediction *)






(** *** The total is not below its rounded sources *)

Lemma Qsquare_nonneg (x : Q) : 0 <= x * x.
Proof. nra. Qed.

Lemma sq_lt_inv a b : 0 <= a -> 0 <= b -> a * a < b * b -> a < b.
Proof.
  intros Ha Hb H. destruct (Qlt_le_dec a b) as [L|G]; [exact L|].
  exfalso. assert (b * b <= a * a) by nra. lra.
Qed.

Lemma tenth_of_rounded b :
  feq (np_round (Fin b) 1) (Fin b) -> b == inject_Z (rint (b * 10)) / 10.
Proof.
  simpl. change (pow10 1) with 10%positive. intros H.
  rewrite <- H at 1. rewrite Qmake_Qdiv. reflexivity.
Qed.

Lemma Qabs_tenth n : Qabs (inject_Z n / 10) == inject_Z (Z.abs n) / 10.
Proof.
  unfold Qdiv. rewrite Qabs_Qmult.
  rewrite (Qabs_pos (/ 10)) by discriminate.
  apply Qmult_comp; [|reflexivity].
  unfold Qabs, inject_Z. reflexivity.
Qed.

(** The rounded root of a sum is not below a tenth whose square the sum
    contains. *)
Lemma round_sqrt_ge v n :
  (inject_Z n / 10) * (inject_Z n / 10) <= v ->
  (Z.abs n <= rint (Qsqrt v * 10))%Z.
Proof.
  intros Hv.
  assert (V0 : 0 <= v).
  { apply Qle_trans with (2 := Hv). apply Qsquare_nonneg. }
  destruct (UncertaintyClaims.Qsqrt_spec v V0) as [_ U].
  pose proof (RegressionClaims.Qsqrt_nonneg v) as Q0.
  set (q := Qsqrt v) in *.
  assert (Heps : (1 # 2 ^ 52) <= 1 # 100) by (vm_compute; discriminate).
  assert (Heps0 : 0 < (1 # 2 ^ 52)) by reflexivity.
  set (eps := 1 # 2 ^ 52) in *.
  set (N := Z.abs n).
  assert (N0 : 0 <= inject_Z N).
  { change 0 with (inject_Z 0). rewrite <- Zle_Qle. apply Z.abs_nonneg. }
  assert (Esq : inject_Z N * inject_Z N == inject_Z n * inject_Z n).
  { rewrite <- !inject_Z_mult. unfold N. now rewrite Z.abs_square. }
  assert (Hlt : inject_Z N / 10 < q + eps).
  { apply sq_lt_inv.
    - apply Qle_shift_div_l; lra.
    - lra.
    - apply Qle_lt_trans with (2 := U).
      apply Qle_trans with (2 := Hv).
      assert (E : inject_Z N / 10 * (inject_Z N / 10)
                  == inject_Z n / 10 * (inject_Z n / 10)).
      { unfold Qdiv.
        setoid_replace (inject_Z N * / 10 * (inject_Z N * / 10))
          with (inject_Z N * inject_Z N * (/ 10 * / 10)) by ring.
        rewrite Esq. ring. }
      rewrite E. apply Qle_refl. }
  pose proof (rint_near (q * 10)) as [_ R].
  assert (Hn : inject_Z N < inject_Z (rint (q * 10)) + 1).
  { assert (Ex : inject_Z N == inject_Z N / 10 * 10) by field.
    set (x := inject_Z N / 10) in *. lra. }
  change 1 with (inject_Z 1) in Hn. rewrite <- inject_Z_plus in Hn.
  rewrite <- Zlt_Qlt in Hn. lia.
Qed.

Lemma std_of_three_at_fin a b c T :
  std_of_three_at a b c = Fin T ->
  exists x y z, a = Fin x /\ b = Fin y /\ c = Fin z.
Proof.
  unfold std_of_three_at.
  destruct a as [x| | |], b as [y| | |], c as [z| | |];
    try (simpl; discriminate); try (cbv; discriminate); eauto 7.
Qed.

(** One entry: the total is finite and not below the size of a source
    that is itself rounded to one decimal. *)
Lemma total_ge_rounded_source a b c T :
  feq (np_round (Fin b) 1) (Fin b) ->
  std_of_three_at (Fin a) (Fin b) (Fin c) = Fin T -> Qabs b <= T.
Proof.
  intros Hb. unfold std_of_three_at, fsquare. cbn [fmul fadd fsqrt].
  set (v := a * a + b * b + c * c).
  assert (V0 : 0 <= v).
  { unfold v. pose proof (Qsquare_nonneg a). pose proof (Qsquare_nonneg b).
    pose proof (Qsquare_nonneg c). lra. }
  replace (Qle_bool 0 v) with true by (symmetry; now apply Qle_bool_iff).
  cbn [np_round]. change (pow10 1) with 10%positive.
  intros [= <-].
  pose proof (tenth_of_rounded b Hb) as Eb.
  set (n := rint (b * 10)) in *.
  assert (Hsq : inject_Z n / 10 * (inject_Z n / 10) <= v).
  { rewrite <- Eb. unfold v. pose proof (Qsquare_nonneg a).
    pose proof (Qsquare_nonneg c). lra. }
  pose proof (round_sqrt_ge v n Hsq) as Hn.
  rewrite Eb, Qabs_tenth.
  assert (G : inject_Z (Z.abs n) / 10 == Z.abs n # 10)
    by (unfold Qeq, Qdiv, Qmult, Qinv, inject_Z; simpl; lia).
  rewrite G. unfold Qle. cbn [Qnum Qden].
  change (inject_Z 10) with 10. lia.
Qed.


(** *** The rate spread assumed for cycle 25 *)

Lemma ic_rate25_std_shift t j :
  length t = 13%nat -> (j < 10)%nat ->
  nth_error (ic_rate25_std t) j = option_map std1 (nth_error t (2 + j)).
Proof.
  intros H Hj. unfold ic_rate25_std, ic_rate24_std, drop_last, slice_from.
  rewrite nth_error_app1
    by (rewrite removelast_firstn_len, length_firstn, length_skipn, length_map, H;
        simpl; lia).
  rewrite removelast_firstn_len, nth_error_firstn, length_skipn, length_map, H.
  replace (Nat.ltb j (Nat.pred (13 - 2))) with true
    by (symmetry; apply Nat.ltb_lt; simpl; lia).
  rewrite nth_error_skipn. apply nth_error_map.
Qed.

(** X10.  The rate spread of the year [2020 + j] is the spread of the year
    [2009 + j], eleven years earlier, for the first ten years, and 2.0 for
    the last three: the rows of 2007, 2008 and 2019 do not enter. *)
Theorem ic_rate25_std_entries t :
  length t = 13%nat ->
  length (ic_rate25_std t) = 13%nat /\
  (forall j row, (j < 10)%nat -> nth_error t (2 + j) = Some row ->
     nth_error (ic_rate25_std t) j = Some (std1 row)) /\
  (forall j, (10 <= j < 13)%nat ->
     nth_error (ic_rate25_std t) j = Some (Fin 2.0)) /\
  (forall t', length t' = 13%nat ->
     (forall k, (2 <= k < 12)%nat -> nth_error t' k = nth_error t k) ->
     ic_rate25_std t' = ic_rate25_std t).
Proof.
  intros H.
  split; [now apply UncertaintyClaims.ic_rate25_std_length|].
  split; [intros j row Hj Hr; rewrite ic_rate25_std_shift, Hr by assumption;
          reflexivity|].
  split; [intros j Hj; now apply UncertaintyClaims.ic_rate25_std_floor|].
  intros t' H' Hk.
  apply nth_error_ext. intros j.
  destruct (Nat.lt_ge_cases j 10) as [L|G].
  - rewrite !ic_rate25_std_shift by assumption. now rewrite Hk by lia.
  - destruct (Nat.lt_ge_cases j 13) as [L'|G'].
    + now rewrite !UncertaintyClaims.ic_rate25_std_floor by (assumption || lia).
    + pose proof (UncertaintyClaims.ic_rate25_std_length t H) as L1.
      pose proof (UncertaintyClaims.ic_rate25_std_length t' H') as L2.
      rewrite (proj2 (nth_error_None _ _)) by lia.
      rewrite (proj2 (nth_error_None _ _)) by lia. reflexivity.
Qed.

(** The table computed from no data has thirteen rows. *)
Lemma ic_rate25_std_entries_witness :
  length (ic_rate25_std icrate_example) = 13%nat /\
  nth_error (ic_rate25_std icrate_example) 12 = Some (Fin 2.0).
Proof.
  assert (L : length icrate_example = 13%nat) by (vm_compute; reflexivity).
  destruct (ic_rate25_std_entries icrate_example L) as (H1 & _ & H3 & _).
  split; [exact H1|]. apply H3. lia.
Defined.


(** *** The total against its sources, year by year *)

Lemma nth_error_exists {A : Type} (l : list A) j :
  (j < length l)%nat -> exists x, nth_error l j = Some x.
Proof.
  intros H. destruct (nth_error l j) as [x|] eqn:E; [eauto|].
  apply nth_error_None in E. lia.
Qed.

Lemma rounded_entry (d : ndarray) j y :
  nth_error (map (fun x => np_round x 1) d) j = Some y ->
  feq (np_round y 1) y.
Proof.
  rewrite nth_error_map. destruct (nth_error d j) as [x|]; [|discriminate].
  intros [= <-]. apply np_round_idem.
Qed.

(** Every entry of the spread assumed for cycle 25 is rounded to one
    decimal when the table comes from cell 6. *)
Lemma ic_rate25_std_rounded r t j y :
  icrate r = Ok t -> nth_error (ic_rate25_std t) j = Some y ->
  feq (np_round y 1) y.
Proof.
  intros Hr Hy.
  assert (Lt : length t = 13%nat).
  { unfold icrate in Hr. rewrite (mapM_length _ _ _ Hr).
    unfold range. rewrite length_map, length_seq. vm_compute. reflexivity. }
  assert (Hj : (j < 13)%nat).
  { rewrite <- (UncertaintyClaims.ic_rate25_std_length t Lt).
    apply nth_error_Some. congruence. }
  destruct (Nat.lt_ge_cases j 10) as [L|G].
  - rewrite (ic_rate25_std_shift t j Lt L) in Hy.
    destruct (nth_error t (2 + j)) as [row|] eqn:Er; [|discriminate].
    injection Hy as <-.
    destruct (icrate_row_spec r t _ row Hr Er) as (l & _ & _ & _ & _ & _ & ->).
    apply np_round_idem.
  - rewrite (UncertaintyClaims.ic_rate25_std_floor t j Lt) in Hy by lia.
    injection Hy as <-. reflexivity.
Qed.

(** X11.  In every year the total uncertainty of the panel prediction is not
    below the error from the fit nor below the rate spread. *)
Theorem total_at_least_fit_error_and_spread
        linfit msd mid low high r t e2 tot j T :
  length mid = 13%nat -> length low = 13%nat -> length high = 13%nat ->
  icrate r = Ok t ->
  ssnfit_error (rate_of linfit msd mid) (rate_low_of linfit msd mid) = Ok e2 ->
  ic_rate_25_pp_std linfit msd mid low high t = Ok tot ->
  nth_error tot j = Some (Fin T) ->
  exists b c, nth_error e2 j = Some (Fin b) /\
              nth_error (ic_rate25_std t) j = Some (Fin c) /\
              Qabs b <= T /\ Qabs c <= T.
Proof.
  intros Hm Hl Hh Hr He2 Htot Hj.
  assert (Lt : length t = 13%nat).
  { unfold icrate in Hr. rewrite (mapM_length _ _ _ Hr).
    unfold range. rewrite length_map, length_seq. vm_compute. reflexivity. }
  assert (Lr : forall sp, length (rate_of linfit msd sp) = length sp)
    by (intros; unfold rate_of; apply length_map).
  assert (Lrl : forall sp, length (rate_low_of linfit msd sp) = length sp)
    by (intros; unfold rate_low_of; apply length_map).
  destruct (UncertaintyClaims.ssnpred_error_length
              (rate_of linfit msd mid) (rate_of linfit msd low)
              (rate_of linfit msd high)) as (e1 & E1 & L1);
    [rewrite !Lr; congruence | rewrite !Lr; congruence |].
  destruct (UncertaintyClaims.ssnfit_error_length
              (rate_of linfit msd mid) (rate_low_of linfit msd mid))
    as (e2' & E2 & L2); [rewrite Lr, Lrl; reflexivity|].
  rewrite He2 in E2. injection E2 as <-.
  rewrite Lr, Hm in L1, L2.
  pose proof (UncertaintyClaims.ic_rate25_std_length t Lt) as L3.
  unfold ic_rate_25_pp_std in Htot. rewrite E1, He2 in Htot. cbn [bind] in Htot.
  rewrite UncertaintyClaims.std_of_three_same_length in Htot by congruence.
  injection Htot as <-.
  assert (J : (j < 13)%nat).
  { rewrite <- L1. rewrite <- (UncertaintyClaims.map3_length std_of_three_at e1 e2
                                 (ic_rate25_std t)) by congruence.
    apply nth_error_Some. congruence. }
  destruct (nth_error_exists e1 j ltac:(lia)) as (A & HA).
  destruct (nth_error_exists e2 j ltac:(lia)) as (B & HB).
  destruct (nth_error_exists (ic_rate25_std t) j ltac:(lia)) as (C & HC).
  rewrite (UncertaintyClaims.map3_nth_error std_of_three_at _ _ _ _ _ _ _ HA HB HC)
    in Hj.
  injection Hj as Hj.
  destruct (std_of_three_at_fin _ _ _ _ Hj) as (a & b & c & -> & -> & ->).
  exists b, c. split; [exact HB|]. split; [exact HC|].
  assert (Rb : feq (np_round (Fin b) 1) (Fin b)).
  { unfold ssnfit_error in He2. bind_inv. injection He2 as <-.
    eapply rounded_entry; eassumption. }
  assert (Rc : feq (np_round (Fin c) 1) (Fin c))
    by (eapply ic_rate25_std_rounded; eassumption).
  split.
  - exact (total_ge_rounded_source a b c T Rb Hj).
  - rewrite UncertaintyClaims.std_of_three_at_swap23 in Hj.
    exact (total_ge_rounded_source a c b T Rc Hj).
Qed.

(** With the example fit and predictions the errors of a year are 2.00,
    4.0 and 2.0 and the total is 4.9. *)
Lemma total_at_least_fit_error_and_spread_witness :
  exists e2 tot b c,
    ssnfit_error (rate_of linfit_example (Fin 2) spots_mid_example)
                 (rate_low_of linfit_example (Fin 2) spots_mid_example) = Ok e2 /\
    ic_rate_25_pp_std linfit_example (Fin 2) spots_mid_example
      spots_low_example spots_high_example icrate_example = Ok tot /\
    nth_error tot 12 = Some (Fin 4.9) /\
    nth_error e2 12 = Some (Fin b) /\
    nth_error (ic_rate25_std icrate_example) 12 = Some (Fin c) /\
    Qabs b <= 4.9 /\ Qabs c <= 4.9.
Proof.
  destruct (run_stage12 no_data) as [out|] eqn:Hrun;
    [|vm_compute in Hrun; discriminate].
  assert (Hr : icrate (rates_out out) = Ok icrate_example).
  { unfold icrate_example. rewrite Hrun.
    unfold run_stage12 in Hrun. bind_inv. injection Hrun as <-. exact E1. }
  destruct (ssnfit_error (rate_of linfit_example (Fin 2) spots_mid_example)
              (rate_low_of linfit_example (Fin 2) spots_mid_example))
    as [e2|] eqn:He2; [|vm_compute in He2; discriminate].
  destruct (ic_rate_25_pp_std linfit_example (Fin 2) spots_mid_example
              spots_low_example spots_high_example icrate_example)
    as [tot|] eqn:Htot; [|vm_compute in Htot; discriminate].
  assert (Hj : nth_error tot 12 = Some (Fin 4.9)).
  { pose proof Htot as H'. vm_compute in H'. injection H' as <-.
    vm_compute. reflexivity. }
  destruct (total_at_least_fit_error_and_spread linfit_example (Fin 2)
              spots_mid_example spots_low_example spots_high_example
              (rates_out out) icrate_example e2 tot 12 4.9
              eq_refl eq_refl eq_refl Hr He2 Htot Hj)
    as (b & c & Hb & Hc & Bb & Bc).
  exists e2, tot, b, c. auto 10.
Defined.


(** *** Two sources against three *)

Lemma Qsqrt_mono x y : x <= y -> Qsqrt x <= Qsqrt y.
Proof.
  intros H. unfold Qsqrt, Qle. cbn [Qnum Qden].
  apply Z.mul_le_mono_nonneg_r; [lia|].
  apply Z.sqrt_le_mono. apply Qfloor_resp_le.
  apply Qmult_le_compat_r; [exact H|]. discriminate.
Qed.

Lemma std_of_two_same_length e1 e2 :
  length e1 = length e2 ->
  std_of_two e1 e2
  = Ok (map2 (fun b c => np_round (fsqrt (fadd (fsquare b) (fsquare c))) 1) e1 e2).
Proof.
  intros H. unfold std_of_two.
  rewrite broadcast2_same_length by (now rewrite !length_map).
  cbn [bind]. apply f_equal. unfold map2. clear H. revert e2.
  induction e1 as [|a e1 IH]; intros [|b e2]; simpl; try reflexivity.
  apply f_equal. apply IH.
Qed.

(** One year: leaving the first source out does not raise the total. *)
Lemma two_sources_below_three a b c :
  fle (np_round (fsqrt (fadd (fsquare (Fin b)) (fsquare (Fin c)))) 1)
      (std_of_three_at (Fin a) (Fin b) (Fin c)) = true.
Proof.
  unfold std_of_three_at. apply np_round_mono.
  unfold fsquare. cbn [fmul fadd fsqrt].
  pose proof (Qsquare_nonneg a). pose proof (Qsquare_nonneg b).
  pose proof (Qsquare_nonneg c).
  replace (Qle_bool 0 (b * b + c * c)) with true
    by (symmetry; apply Qle_bool_iff; lra).
  replace (Qle_bool 0 (a * a + b * b + c * c)) with true
    by (symmetry; apply Qle_bool_iff; lra).
  cbn [fle]. apply Qle_bool_iff. apply Qsqrt_mono. lra.
Qed.

(** X12.  For the same sunspot numbers, the uncertainty of the mean cycle model
    (fit error and rate spread) is in no year above the uncertainty that
    also counts the error of the sunspot prediction. *)
Theorem two_source_total_not_above_three
        linfit msd mid low high t m2 m3 j x y :
  length mid = 13%nat -> length low = 13%nat -> length high = 13%nat ->
  length t = 13%nat ->
  ic_rate_25_m_std linfit msd mid t = Ok m2 ->
  ic_rate_25_pp_std linfit msd mid low high t = Ok m3 ->
  nth_error m2 j = Some x -> nth_error m3 j = Some (Fin y) ->
  fle x (Fin y) = true.
Proof.
  intros Hm Hl Hh Lt H2 H3 Hx Hy.
  assert (Lr : forall sp, length (rate_of linfit msd sp) = length sp)
    by (intros; unfold rate_of; apply length_map).
  assert (Lrl : forall sp, length (rate_low_of linfit msd sp) = length sp)
    by (intros; unfold rate_low_of; apply length_map).
  destruct (UncertaintyClaims.ssnpred_error_length
              (rate_of linfit msd mid) (rate_of linfit msd low)
              (rate_of linfit msd high)) as (e1 & E1 & L1);
    [rewrite !Lr; congruence | rewrite !Lr; congruence |].
  destruct (UncertaintyClaims.ssnfit_error_length
              (rate_of linfit msd mid) (rate_low_of linfit msd mid))
    as (e2 & E2 & L2); [rewrite Lr, Lrl; reflexivity|].
  rewrite Lr, Hm in L1, L2.
  pose proof (UncertaintyClaims.ic_rate25_std_length t Lt) as L3.
  unfold ic_rate_25_pp_std in H3. rewrite E1, E2 in H3. cbn [bind] in H3.
  rewrite UncertaintyClaims.std_of_three_same_length in H3 by congruence.
  injection H3 as <-.
  unfold ic_rate_25_m_std in H2. rewrite E2 in H2. cbn [bind] in H2.
  rewrite std_of_two_same_length in H2 by congruence.
  injection H2 as <-.
  assert (J : (j < 13)%nat).
  { rewrite <- L1. rewrite <- (UncertaintyClaims.map3_length std_of_three_at e1 e2
                                 (ic_rate25_std t)) by congruence.
    apply nth_error_Some. congruence. }
  destruct (nth_error_exists e1 j ltac:(lia)) as (A & HA).
  destruct (nth_error_exists e2 j ltac:(lia)) as (B & HB).
  destruct (nth_error_exists (ic_rate25_std t) j ltac:(lia)) as (C & HC).
  rewrite (UncertaintyClaims.map3_nth_error std_of_three_at _ _ _ _ _ _ _ HA HB HC)
    in Hy.
  rewrite (map2_nth_error _ _ _ _ _ _ HB HC) in Hx.
  injection Hx as <-. injection Hy as Hy.
  destruct (std_of_three_at_fin _ _ _ _ Hy) as (a & b & c & -> & -> & ->).
  rewrite <- Hy. apply two_sources_below_three.
Qed.

(** With the example fit the two totals of the last year are 4.5 and
    4.9. *)
Lemma two_source_total_not_above_three_witness :
  exists m2 m3 x,
    ic_rate_25_m_std linfit_example (Fin 2) spots_mid_example icrate_example = Ok m2 /\
    ic_rate_25_pp_std linfit_example (Fin 2) spots_mid_example
      spots_low_example spots_high_example icrate_example = Ok m3 /\
    nth_error m2 12 = Some x /\ nth_error m3 12 = Some (Fin 4.9) /\
    fle x (Fin 4.9) = true.
Proof.
  assert (Lt : length icrate_example = 13%nat) by (vm_compute; reflexivity).
  destruct (ic_rate_25_m_std linfit_example (Fin 2) spots_mid_example icrate_example)
    as [m2|] eqn:H2; [|vm_compute in H2; discriminate].
  destruct (ic_rate_25_pp_std linfit_example (Fin 2) spots_mid_example
              spots_low_example spots_high_example icrate_example)
    as [m3|] eqn:H3; [|vm_compute in H3; discriminate].
  assert (Hy : nth_error m3 12 = Some (Fin 4.9)).
  { pose proof H3 as H'. vm_compute in H'. injection H' as <-.
    vm_compute. reflexivity. }
  destruct (nth_error m2 12) as [x|] eqn:Hx.
  - exists m2, m3, x. split; [reflexivity|]. split; [reflexivity|].
    split; [exact Hx|]. split; [exact Hy|].
    exact (two_source_total_not_above_three linfit_example (Fin 2)
             spots_mid_example spots_low_example spots_high_example
             icrate_example m2 m3 12 x 4.9 eq_refl eq_refl eq_refl Lt
             H2 H3 Hx Hy).
  - exfalso. pose proof H2 as H'. vm_compute in H'. injection H' as <-.
    vm_compute in Hx. discriminate Hx.
Defined.

(** *** A table of another length *)

Lemma ic_rate25_std_length_any t :
  length (ic_rate25_std t) = (Nat.pred (length t - 2) + 3)%nat.
Proof.
  unfold ic_rate25_std, ic_rate24_std, drop_last, slice_from.
  rewrite length_app, removelast_firstn_len, length_firstn, length_skipn, length_map.
  simpl. lia.
Qed.

Lemma broadcast2_mismatch f (a b : ndarray) :
  length a <> length b -> (2 <= length a)%nat -> (2 <= length b)%nat ->
  broadcast2 f a b = Raise (ValueError "operands could not be broadcast together").
Proof.
  intros Hne Ha Hb. unfold broadcast2.
  replace (Nat.eqb (length a) (length b)) with false
    by (symmetry; now apply Nat.eqb_neq).
  destruct a as [|x [|x' a']]; simpl in Ha; try lia.
  destruct b as [|y [|y' b']]; simpl in Hb; try lia.
  reflexivity.
Qed.

(** X13.  The error composition needs a table of thirteen years: with thirteen
    predictions and a table of any other length it raises the
    broadcasting error of numpy. *)
Theorem error_composition_needs_thirteen_rows linfit msd mid low high t :
  length mid = 13%nat -> length low = 13%nat -> length high = 13%nat ->
  length t <> 13%nat ->
  ic_rate_25_pp_std linfit msd mid low high t
  = Raise (ValueError "operands could not be broadcast together") /\
  ic_rate_25_mc20_std linfit msd mid low high t
  = Raise (ValueError "operands could not be broadcast together") /\
  ic_rate_25_m_std linfit msd mid t
  = Raise (ValueError "operands could not be broadcast together").
Proof.
  intros Hm Hl Hh Lt.
  assert (Lr : forall sp, length (rate_of linfit msd sp) = length sp)
    by (intros; unfold rate_of; apply length_map).
  assert (Lrl : forall sp, length (rate_low_of linfit msd sp) = length sp)
    by (intros; unfold rate_low_of; apply length_map).
  destruct (UncertaintyClaims.ssnpred_error_length
              (rate_of linfit msd mid) (rate_of linfit msd low)
              (rate_of linfit msd high)) as (e1 & E1 & L1);
    [rewrite !Lr; congruence | rewrite !Lr; congruence |].
  destruct (UncertaintyClaims.ssnfit_error_length
              (rate_of linfit msd mid) (rate_low_of linfit msd mid))
    as (e2 & E2 & L2); [rewrite Lr, Lrl; reflexivity|].
  rewrite Lr, Hm in L1, L2.
  pose proof (ic_rate25_std_length_any t) as L3.
  assert (G3 : std_of_three e1 e2 (ic_rate25_std t)
               = Raise (ValueError "operands could not be broadcast together")).
  { unfold std_of_three.
    rewrite broadcast2_same_length by (rewrite !length_map; congruence).
    cbn [bind].
    rewrite broadcast2_mismatch;
      [reflexivity | | |]; rewrite ?map2_length, !length_map; lia. }
  assert (G2 : std_of_two e2 (ic_rate25_std t)
               = Raise (ValueError "operands could not be broadcast together")).
  { unfold std_of_two.
    rewrite broadcast2_mismatch;
      [reflexivity | | |]; rewrite !length_map; lia. }
  unfold ic_rate_25_pp_std, ic_rate_25_mc20_std, ic_rate_25_m_std.
  rewrite E1, E2. cbn [bind]. auto.
Qed.

(** A table of twelve rows. *)
Lemma error_composition_needs_thirteen_rows_witness :
  ic_rate_25_pp_std linfit_example (Fin 2) spots_mid_example
    spots_low_example spots_high_example (tl icrate_example)
  = Raise (ValueError "operands could not be broadcast together").
Proof.
  assert (Lt : length (tl icrate_example) <> 13%nat) by (vm_compute; discriminate).
  exact (proj1 (error_composition_needs_thirteen_rows linfit_example (Fin 2)
                  spots_mid_example spots_low_example spots_high_example
                  (tl icrate_example) eq_refl eq_refl eq_refl Lt)).
Defined.

End ErrorProperties.

(** ** Cell 3: the selections of events *)

Module CatalogProperties.

Import NumPy Dates Rates Catalog Examples.
Import ArrayFacts FloatFacts CoverageFacts.
Local Open Scope Q_scope.

Lemma where_from_ext {A : Type} (p q : A -> bool) (l : list A) i :
  (forall x, In x l -> p x = q x) -> where_from p l i = where_from q l i.
Proof.
  revert i; induction l as [|x t IH]; intros i H; [reflexivity|].
  cbn [where_from]. rewrite (H x (or_introl eq_refl)).
  rewrite (IH (i + 1)%Z) by (intros; apply H; now right). reflexivity.
Qed.

Lemma where_from_none {A : Type} (p : A -> bool) (l : list A) i :
  (forall x, In x l -> p x = false) -> where_from p l i = [].
Proof.
  revert i; induction l as [|x t IH]; intros i H; [reflexivity|].
  cbn [where_from]. rewrite (H x (or_introl eq_refl)).
  apply IH. intros; apply H; now right.
Qed.

(** Selecting within a selection: the positions found by a second
    [np.where] in the selected entries, looked up in the first index
    array, are the positions where both conditions hold. *)
Lemma np_take_where_within {A : Type} (p q : A -> bool) (pre : list Z) (l : list A) i :
  np_take (pre ++ where_from p l i)
          (where_from q (filter p l) (Z.of_nat (length pre)))
  = Ok (where_from (fun x => p x && q x) l i).
Proof.
  revert pre i; induction l as [|x t IH]; intros pre i; [reflexivity|].
  cbn [where_from filter]. destruct (p x) eqn:Px; cbn [andb].
  - specialize (IH (pre ++ [i]) (i + 1)%Z).
    rewrite <- app_assoc in IH. cbn [app] in IH.
    rewrite length_app in IH. cbn [length] in IH.
    replace (Z.of_nat (length pre + 1)) with (Z.of_nat (length pre) + 1)%Z in IH by lia.
    cbn [where_from]. destruct (q x); [|exact IH].
    unfold np_take in *. cbn [mapM]. rewrite IH.
    rewrite (np_get_nat (pre ++ i :: where_from p t (i + 1)) (length pre) i).
    + reflexivity.
    + rewrite nth_error_app2 by lia. now rewrite Nat.sub_diag.
  - apply IH.
Qed.

Lemma sc_within_where cat (w : icme -> bool) name :
  sc_within cat (np_where w cat) name
  = Ok (np_where (fun r => w r && String.eqb (sc_insitu r) name) cat).
Proof.
  unfold sc_within. rewrite np_take_where. cbn [bind].
  unfold np_where. rewrite where_from_map.
  exact (np_take_where_within w (fun r => String.eqb (sc_insitu r) name) [] cat 0).
Qed.

Lemma combine_map_same {A B C : Type} (f : A -> B) (g : A -> C) l :
  combine (map f l) (map g l) = map (fun x => (f x, g x)) l.
Proof. induction l as [|a t IH]; simpl; [reflexivity | now rewrite IH]. Qed.

Lemma merc_within_where cat (w : icme -> bool) :
  merc_within cat (np_where w cat)
  = Ok (np_where (fun r => w r && (String.eqb (sc_insitu r) "MESSENGER"
                                   && Qltb (plot_date 2011 3 18) (icme_start_time r)))
                 cat).
Proof.
  unfold merc_within. rewrite !np_take_where. cbn [bind].
  rewrite combine_map_same. unfold np_where. rewrite where_from_map.
  exact (np_take_where_within w
           (fun r => String.eqb (sc_insitu r) "MESSENGER"
                     && Qltb (plot_date 2011 3 18) (icme_start_time r)) [] cat 0).
Qed.

Lemma np_where_In {A : Type} (p : A -> bool) (l : list A) i :
  In i (np_where p l) <->
  exists j x, i = Z.of_nat j /\ nth_error l j = Some x /\ p x = true.
Proof.
  unfold np_where. rewrite ExposureClaims.where_from_In.
  split; intros (j & x & E & H); exists j, x; split; auto; lia.
Qed.

(** X14.  The events of a spacecraft during a phase of the cycle are the
    events that belong to both selections: to those of the spacecraft
    and to those of the phase. *)
Theorem events_of_phase_and_spacecraft cat lo hi name :
  exists l, sc_within cat (iall cat lo hi) name = Ok l /\
    l = np_where (fun r => (Qltb lo (icme_start_time r)
                            && Qltb (icme_start_time r) hi)
                           && String.eqb (sc_insitu r) name) cat /\
    forall i, In i l <-> In i (sc_index cat name) /\ In i (iall cat lo hi).
Proof.
  eexists. split; [apply sc_within_where|]. split; [reflexivity|].
  intros i. unfold sc_index, iall. rewrite !np_where_In. split.
  - intros (j & x & -> & Hx & B). apply andb_true_iff in B as [B1 B2].
    split; exists j, x; auto.
  - intros [(j & x & -> & Hx & B2) (j' & x' & E & Hx' & B1)].
    apply Nat2Z.inj in E. subst j'. rewrite Hx in Hx'. injection Hx' as <-.
    exists j, x. repeat split; auto. now rewrite B1, B2.
Qed.

Lemma Qltb_lt a b : Qltb a b = true <-> a < b.
Proof. apply ExposureClaims.Qltb_true. Qed.

Lemma Qltb_ge a b : Qltb a b = false <-> b <= a.
Proof.
  unfold Qltb. rewrite negb_false_iff. apply Qle_bool_iff.
Qed.

(** X15.  No event of solar minimum is one of MESSENGER at Mercury: the orbit
    insertion of March 18, 2011 comes after the end of the minimum.  During
    solar maximum, which starts after the insertion, the events at Mercury
    are all the MESSENGER events. *)
Theorem mercury_events_of_the_phases cat :
  merci_min cat = Ok [] /\ merci_max cat = mesi_max cat.
Proof.
  split.
  - unfold merci_min, iall_min, iall. rewrite merc_within_where.
    apply f_equal. apply where_from_none. intros r _.
    destruct (Qltb minstart (icme_start_time r) && Qltb (icme_start_time r) minend)
      eqn:W; [|reflexivity].
    apply andb_true_iff in W as [_ W]. apply Qltb_lt in W.
    cbn [andb]. apply andb_false_iff. right. apply Qltb_ge.
    apply Qlt_le_weak. apply Qlt_le_trans with (1 := W).
    vm_compute. discriminate.
  - unfold merci_max, mesi_max, iall_max, iall.
    rewrite merc_within_where, sc_within_where. apply f_equal.
    apply where_from_ext. intros r _.
    destruct (Qltb maxstart (icme_start_time r) && Qltb (icme_start_time r) maxend)
      eqn:W; [|reflexivity].
    apply andb_true_iff in W as [W _]. apply Qltb_lt in W.
    cbn [andb].
    replace (Qltb (plot_date 2011 3 18) (icme_start_time r)) with true;
      [now rewrite andb_true_r|].
    symmetry. apply Qltb_lt. apply Qle_lt_trans with (2 := W).
    vm_compute. discriminate.
Qed.

End CatalogProperties.

(** ** Cells 7, 9 and 10: the rates of the Richardson and Cane list *)

Module RichardsonCaneProperties.

Import NumPy Dates Rates Prediction RichardsonCane Examples MoreExamples.
Import ArrayFacts FloatFacts StatsFacts CoverageFacts CountProperties.
Local Open Scope Q_scope.

(** *** Counting the numbers of an array *)

Lemma finite_values_app a b :
  finite_values (a ++ b) = finite_values a ++ finite_values b.
Proof. unfold finite_values. apply flat_map_app. Qed.

Lemma count_app (p : Q -> bool) a b :
  length (filter p (finite_values (a ++ b)))
  = (length (filter p (finite_values a)) + length (filter p (finite_values b)))%nat.
Proof. now rewrite finite_values_app, filter_app, length_app. Qed.

Lemma count_rev (p : Q -> bool) a :
  length (filter p (finite_values (rev a))) = length (filter p (finite_values a)).
Proof.
  induction a as [|x t IH]; [reflexivity|].
  cbn [rev]. rewrite count_app, IH.
  change (x :: t) with ([x] ++ t). rewrite count_app. lia.
Qed.

Lemma count_insert_sorted (p : Q -> bool) x l :
  length (filter p (finite_values (insert_sorted x l)))
  = length (filter p (finite_values (x :: l))).
Proof.
  induction l as [|y t IH]; [reflexivity|].
  cbn [insert_sorted]. destruct (fle x y); [reflexivity|].
  change (y :: insert_sorted x t) with ([y] ++ insert_sorted x t).
  rewrite count_app, IH.
  change (x :: y :: t) with ([x] ++ [y] ++ t).
  change (x :: t) with ([x] ++ t).
  rewrite !count_app. lia.
Qed.

(** Sorting does not change how many entries satisfy a condition. *)
Lemma count_np_sort (p : Q -> bool) l :
  length (filter p (finite_values (np_sort l))) = length (filter p (finite_values l)).
Proof.
  induction l as [|x t IH]; [reflexivity|].
  cbn [np_sort]. rewrite count_insert_sorted.
  change (x :: np_sort t) with ([x] ++ np_sort t).
  change (x :: t) with ([x] ++ t). rewrite !count_app, IH. reflexivity.
Qed.

Lemma count_trim_front (p : Q -> bool) l :
  (forall q, Qeq_bool q 0 = true -> p q = false) ->
  length (filter p (finite_values (trim_front l))) = length (filter p (finite_values l)).
Proof.
  intros Hp. induction l as [|x t IH]; [reflexivity|].
  cbn [trim_front]. destruct (is_zero x) eqn:Z; [|reflexivity].
  rewrite IH. destruct x as [q| | |]; try discriminate Z.
  cbn [is_zero] in Z. unfold finite_values. cbn [flat_map app filter].
  now rewrite (Hp q Z).
Qed.

(** Cutting the zeros at both ends does not change how many entries
    satisfy a condition that zero does not satisfy. *)
Lemma count_trim_zeros (p : Q -> bool) l :
  (forall q, Qeq_bool q 0 = true -> p q = false) ->
  length (filter p (finite_values (np_trim_zeros l))) = length (filter p (finite_values l)).
Proof.
  intros Hp. unfold np_trim_zeros.
  now rewrite count_rev, (count_trim_front p _ Hp), count_rev, (count_trim_front p _ Hp).
Qed.

(** *** The bins *)

Lemma np_linspace_nth lo hi n k :
  (k <= n)%nat ->
  nth_error (np_linspace lo hi (S n)) k
  = Some (lo + inject_Z (Z.of_nat k) * ((hi - lo) / inject_Z (Z.of_nat n))).
Proof.
  intros H. unfold np_linspace.
  replace (S n - 1)%nat with n by lia.
  rewrite nth_error_map.
  rewrite (nth_error_nth' (seq 0 (S n)) 0%nat) by (rewrite length_seq; lia).
  rewrite seq_nth by lia. reflexivity.
Qed.

Lemma rc_edge k :
  1996 + inject_Z (Z.of_nat k) * ((2020 - 1996) / inject_Z (Z.of_nat 24))
  == inject_Z (1996 + Z.of_nat k).
Proof.
  rewrite inject_Z_plus. change (inject_Z 1996) with 1996.
  setoid_replace ((2020 - 1996) / inject_Z (Z.of_nat 24)) with 1 by reflexivity.
  ring.
Qed.

Lemma count_in_comp lo lo' hi hi' closed a :
  lo == lo' -> hi == hi' -> count_in lo hi closed a = count_in lo' hi' closed a.
Proof.
  intros E1 E2. unfold count_in. apply f_equal. apply f_equal.
  apply filter_ext. intros x.
  rewrite (Qleb_comp _ _ E1 x x (Qeq_refl x)).
  rewrite (Qleb_comp x x (Qeq_refl x) _ _ E2).
  rewrite (Qleb_comp _ _ E2 x x (Qeq_refl x)). reflexivity.
Qed.


(** *** The loop over the rows *)

Section Rows.

Variable is_float : string -> bool.
Variable py_float : string -> result npfloat.

(** What [heliocats.stats.is_float] is there for: [float] accepts the
    strings for which it answers [True]. *)
Hypothesis is_float_sound : forall s, is_float s = true -> exists v, py_float s = Ok v.

Lemma rc_year_values r1 :
  rc_year is_float py_float r1 = Ok (map (rc_year_value is_float py_float) r1).
Proof.
  unfold rc_year. apply mapM_all_ok. intros s _.
  unfold rc_year_at, rc_year_value.
  destruct (is_float (substring 0 4 s)) eqn:E; [|reflexivity].
  destruct (is_float_sound _ E) as (v & Hv). rewrite Hv. cbn [bind].
  destruct (isfinite v); reflexivity.
Qed.

Lemma count_rows lo hi (closed : bool) r1 :
  0 < lo ->
  length (filter (fun x => Qle_bool lo x
                           && (if closed then Qle_bool x hi else negb (Qle_bool hi x)))
                 (finite_values (map (rc_year_value is_float py_float) r1)))
  = length (filter (year_between is_float py_float lo hi closed) r1).
Proof.
  intros Hlo.
  assert (Z0 : Qle_bool lo 0 = false) by (now apply Qle_bool_false).
  induction r1 as [|s t IH]; [reflexivity|].
  cbn [map].
  change (rc_year_value is_float py_float s :: map (rc_year_value is_float py_float) t)
    with ([rc_year_value is_float py_float s]
            ++ map (rc_year_value is_float py_float) t).
  rewrite count_app, IH. cbn [filter].
  unfold rc_year_value, year_between, Qltb.
  destruct (is_float (substring 0 4 s)); cbn [andb].
  - destruct (py_float (substring 0 4 s)) as [[q| | |]|err];
      cbn [isfinite finite_values flat_map app filter];
      rewrite ?Z0; cbn [andb length]; try reflexivity.
    destruct (Qle_bool lo q && (if closed then Qle_bool q hi else negb (Qle_bool hi q)));
      reflexivity.
  - cbn [finite_values flat_map app filter]. rewrite Z0. reflexivity.
Qed.

(** The yearly rates of the list: bin [k] counts the rows whose year, read
    from the first four characters, is a number from [1996 + k] up to
    [1997 + k], which is left out except for the last bin; a row without a
    readable year is counted nowhere, and a year 2020 is counted with
    2019. *)
Lemma rc_rate_values_spec r1 :
  exists v, rc_rate_values is_float py_float r1 = Ok v /\
    length v = 24%nat /\
    forall k, (k < 24)%nat ->
      nth_error v k
      = Some (Z.of_nat (length (filter
                (year_between is_float py_float
                   (inject_Z (1996 + Z.of_nat k)) (inject_Z (1996 + Z.of_nat (S k)))
                   (Nat.eqb k 23))
                r1))).
Proof.
  unfold rc_rate_values, rc_icme_per_year. rewrite rc_year_values. cbn [bind].
  eexists. split; [reflexivity|]. split.
  - unfold np_histogram_range. rewrite np_histogram_length.
    unfold np_linspace. now rewrite length_map, length_seq.
  - intros k Hk. unfold np_histogram_range.
    rewrite (np_histogram_nth _ _ k _ _
               (np_linspace_nth 1996 2020 24 k ltac:(lia))
               (np_linspace_nth 1996 2020 24 (S k) ltac:(lia))).
    rewrite (count_in_comp _ _ _ _ _ _ (rc_edge k) (rc_edge (S k))).
    unfold np_linspace. rewrite length_map, length_seq.
    change (Nat.eqb (S (S k)) 25) with (Nat.eqb k 23).
    apply f_equal. unfold count_in. apply f_equal.
    assert (Hlo : 0 < inject_Z (1996 + Z.of_nat k)).
    { change 0 with (inject_Z 0). rewrite <- Zlt_Qlt. lia. }
    assert (Hz : forall q, Qeq_bool q 0 = true ->
              Qle_bool (inject_Z (1996 + Z.of_nat k)) q
              && (if Nat.eqb k 23
                  then Qle_bool q (inject_Z (1996 + Z.of_nat (S k)))
                  else negb (Qle_bool (inject_Z (1996 + Z.of_nat (S k))) q)) = false).
    { intros q Hq. apply Qeq_bool_iff in Hq.
      replace (Qle_bool (inject_Z (1996 + Z.of_nat k)) q) with false; [reflexivity|].
      symmetry. apply Qle_bool_false. rewrite Hq. exact Hlo. }
    rewrite (count_trim_zeros _ _ Hz), count_np_sort.
    apply count_rows. exact Hlo.
Qed.

End Rows.

(** X16.  When [float] raises nothing on the strings that [is_float]
    accepts, the list gives 24 yearly rates, and the rate of the year
    [1996 + k] is the number of rows whose year, read from the first four
    characters of the disturbance time, lies from [1996 + k] up to
    [1997 + k]; the upper end is left out except for the last year, 2019,
    with which a row of 2020 is counted. *)
Theorem rc_rates_by_year is_float py_float r1 :
  (forall s, is_float s = true -> exists v, py_float s = Ok v) ->
  exists v, rc_rate_values is_float py_float r1 = Ok v /\
    length v = 24%nat /\
    forall k, (k < 24)%nat ->
      nth_error v k
      = Some (Z.of_nat (length (filter
                (year_between is_float py_float
                   (inject_Z (1996 + Z.of_nat k)) (inject_Z (1996 + Z.of_nat (S k)))
                   (Nat.eqb k 23))
                r1))).
Proof. intros H. exact (rc_rate_values_spec is_float py_float H r1). Qed.

Lemma toy_is_float_sound s :
  toy_is_float s = true -> exists v, toy_float s = Ok v.
Proof.
  unfold toy_is_float, toy_float. intros H.
  destruct (String.eqb s "1996"); [eauto|].
  destruct (String.eqb s "2019"); [eauto|].
  destruct (String.eqb s "2020"); [eauto|]. discriminate H.
Qed.

(** Rows of 1996, 2019 and 2020 and a row without a year: one event in
    the first bin, two in the last. *)
Lemma rc_rates_by_year_witness :
  exists v, rc_rate_values toy_is_float toy_float rc_rows_example = Ok v /\
            nth_error v 0 = Some 1%Z /\ nth_error v 23 = Some 2%Z /\
            fold_right Z.add 0%Z v = 3%Z.
Proof.
  destruct (rc_rates_by_year toy_is_float toy_float rc_rows_example
              toy_is_float_sound) as (v & Hv & _ & Hk).
  exists v. split; [exact Hv|].
  split; [rewrite (Hk 0%nat ltac:(lia)); vm_compute; reflexivity|].
  split; [rewrite (Hk 23%nat ltac:(lia)); vm_compute; reflexivity|].
  vm_compute in Hv. injection Hv as <-. vm_compute. reflexivity.
Defined.

(** *** The two reference cycles have as many rates as years *)

(** X17.  The rates of cycle 23 are thirteen and those of cycle 24 eleven, as
    many as the years of [years23] and [years24]; with one sunspot number
    per year the spread [mean_stddev] is computed without a broadcasting
    error, and the fit gets two arrays of 24 entries. *)
Theorem reference_cycles_fit_together is_float py_float r1 linfit
        (spots23 spots24 : ndarray) v23 v24 :
  rc_rate23 is_float py_float r1 = Ok v23 ->
  rc_rate24 is_float py_float r1 = Ok v24 ->
  length spots23 = length years23 -> length spots24 = length years24 ->
  length v23 = 13%nat /\ length v24 = 11%nat /\
  length (spots23 ++ spots24) = length (v23 ++ v24) /\
  exists m, mean_stddev linfit spots23 v23 spots24 v24 = Ok m.
Proof.
  intros H23 H24 L23 L24.
  unfold rc_rate23 in H23. unfold rc_rate24 in H24. bind_inv.
  rewrite E in E0. injection E0 as <-.
  injection H23 as H23. injection H24 as H24.
  change (firstn 13 v = v23) in H23. change (skipn 13 v = v24) in H24.
  assert (Lv : length v = 24%nat).
  { unfold rc_rate_values in E. bind_inv. injection E as <-.
    unfold np_histogram_range. rewrite np_histogram_length.
    unfold np_linspace. now rewrite length_map, length_seq. }
  assert (Ly23 : length years23 = 13%nat) by reflexivity.
  assert (Ly24 : length years24 = 11%nat) by reflexivity.
  assert (G23 : length v23 = 13%nat) by (rewrite <- H23, length_firstn; lia).
  assert (G24 : length v24 = 11%nat) by (rewrite <- H24, length_skipn; lia).
  clear H23 H24 E.
  split; [exact G23|]. split; [exact G24|].
  split; [rewrite !length_app; lia|].
  unfold mean_stddev.
  rewrite broadcast2_same_length
    by (unfold of_ints; rewrite !length_map; lia).
  cbn [bind].
  rewrite broadcast2_same_length
    by (unfold of_ints; rewrite !length_map; lia).
  cbn [bind]. eauto.
Qed.

(** The four example rows with sunspot numbers of 50 and 80. *)
Lemma reference_cycles_fit_together_witness :
  exists v23 v24 m,
    rc_rate23 toy_is_float toy_float rc_rows_example = Ok v23 /\
    rc_rate24 toy_is_float toy_float rc_rows_example = Ok v24 /\
    length v23 = 13%nat /\ length v24 = 11%nat /\
    mean_stddev linfit_example (repeat (Fin 50) 13) v23 (repeat (Fin 80) 11) v24 = Ok m.
Proof.
  destruct (rc_rate23 toy_is_float toy_float rc_rows_example) as [v23|] eqn:H23;
    [|vm_compute in H23; discriminate].
  destruct (rc_rate24 toy_is_float toy_float rc_rows_example) as [v24|] eqn:H24;
    [|vm_compute in H24; discriminate].
  destruct (reference_cycles_fit_together toy_is_float toy_float rc_rows_example
              linfit_example (repeat (Fin 50) 13) (repeat (Fin 80) 11) v23 v24
              H23 H24 eq_refl eq_refl) as (L1 & L2 & _ & m & Hm).
  exists v23, v24, m. auto.
Defined.

End RichardsonCaneProperties.

(** ** Cells 19 and 20: perihelia and aphelia *)

Module OrbitProperties.

Import NumPy Dates Rates Orbit Examples MoreExamples.
Import ArrayFacts FloatFacts IcrateFacts CoverageProperties.
Local Open Scope Q_scope.

(** *** The gradient *)

Lemma gradient_interior_nth f j a c :
  nth_error f j = Some a -> nth_error f (S (S j)) = Some c ->
  nth_error (gradient_interior f) j
  = Some (fdiv (fsub c a) (fmul (Fin 2) (Fin 1))).
Proof.
  revert j; induction f as [|x t IH]; intros j Ha Hc; [destruct j; discriminate|].
  destruct t as [|y [|z t']]; try (destruct j as [|[|j]]; discriminate).
  destruct j as [|j].
  - cbn in Ha, Hc. injection Ha as <-. injection Hc as <-. reflexivity.
  - change (gradient_interior (x :: y :: z :: t'))
      with (fdiv (fsub z x) (fmul (Fin 2) (Fin 1)) :: gradient_interior (y :: z :: t')).
    cbn [nth_error]. apply IH; assumption.
Qed.

Lemma gradient_interior_length f :
  length (gradient_interior f) = (length f - 2)%nat.
Proof.
  induction f as [|x t IH]; [reflexivity|].
  destruct t as [|y [|z t']]; try reflexivity.
  change (gradient_interior (x :: y :: z :: t'))
    with (fdiv (fsub z x) (fmul (Fin 2) (Fin 1)) :: gradient_interior (y :: z :: t')).
  cbn [length] in *. rewrite IH. lia.
Qed.

Lemma rev_two {A : Type} (f : list A) :
  (2 <= length f)%nat ->
  exists fn fm rest, rev f = fn :: fm :: rest /\
    nth_error f (length f - 1) = Some fn /\ nth_error f (length f - 2) = Some fm.
Proof.
  intros H.
  pose proof (nth_error_rev 0 f) as H0. pose proof (nth_error_rev 1 f) as H1.
  replace (Nat.ltb 0 (length f)) with true in H0 by (symmetry; apply Nat.ltb_lt; lia).
  replace (Nat.ltb 1 (length f)) with true in H1 by (symmetry; apply Nat.ltb_lt; lia).
  destruct (rev f) as [|fn [|fm rest]] eqn:E.
  - apply (f_equal (@length A)) in E. rewrite length_rev in E. simpl in E. lia.
  - apply (f_equal (@length A)) in E. rewrite length_rev in E. simpl in E. lia.
  - exists fn, fm, rest. split; [reflexivity|].
    cbn in H0, H1. split; [now rewrite <- H0 | now rewrite <- H1].
Qed.

(** Fewer than two samples have no gradient. *)
Lemma np_gradient_small f :
  (length f < 2)%nat ->
  np_gradient f
  = Raise (ValueError "Shape of array too small to calculate a numerical gradient, at least (edge_order + 1) elements are required.").
Proof.
  destruct f as [|x [|y t]]; simpl; intros H; try reflexivity; lia.
Qed.

(** The entries of the gradient of two samples or more. *)
Lemma np_gradient_entries f :
  (2 <= length f)%nat ->
  exists dr, np_gradient f = Ok dr /\ length dr = length f /\
    (forall a b, nth_error f 0 = Some a -> nth_error f 1 = Some b ->
       nth_error dr 0 = Some (fdiv (fsub b a) (Fin 1))) /\
    (forall j a c, nth_error f j = Some a -> nth_error f (S (S j)) = Some c ->
       nth_error dr (S j) = Some (fdiv (fsub c a) (fmul (Fin 2) (Fin 1)))) /\
    (forall a b, nth_error f (length f - 2) = Some a ->
       nth_error f (length f - 1) = Some b ->
       nth_error dr (length f - 1) = Some (fdiv (fsub b a) (Fin 1))).
Proof.
  intros H. destruct (rev_two f H) as (fn & fm & rest & Er & Hn & Hm).
  destruct f as [|f0 [|f1 t]]; try (simpl in H; lia).
  unfold np_gradient. rewrite Er.
  eexists. split; [reflexivity|].
  pose proof (gradient_interior_length (f0 :: f1 :: t)) as Li.
  split; [|split; [|split]].
  - cbn [length]. rewrite length_app, Li. cbn [length]. lia.
  - intros a b Ha Hb. cbn in Ha, Hb. injection Ha as <-. injection Hb as <-.
    reflexivity.
  - intros j a c Ha Hc. cbn [nth_error].
    assert (Hj : (j < length (gradient_interior (f0 :: f1 :: t)))%nat).
    { rewrite Li. assert (S (S j) < length (f0 :: f1 :: t))%nat
        by (apply nth_error_Some; congruence). lia. }
    rewrite nth_error_app1 by exact Hj.
    now apply gradient_interior_nth.
  - intros a b Ha Hb. rewrite Hn in Hb. rewrite Hm in Ha.
    injection Ha as <-. injection Hb as <-.
    replace (length (f0 :: f1 :: t) - 1)%nat
      with (S (length (gradient_interior (f0 :: f1 :: t))))
      by (rewrite Li; cbn [length]; lia).
    cbn [nth_error]. rewrite nth_error_app2 by lia.
    now rewrite Nat.sub_diag.
Qed.

(** *** Differences and sign changes *)

Lemma diff_from_nth x t j a b :
  nth_error (x :: t) j = Some a -> nth_error (x :: t) (S j) = Some b ->
  nth_error (diff_from x t) j = Some (fsub b a).
Proof.
  revert x j; induction t as [|y t IH]; intros x j Ha Hb.
  - destruct j; discriminate.
  - destruct j as [|j].
    + cbn in Ha, Hb. injection Ha as <-. injection Hb as <-. reflexivity.
    + cbn [diff_from nth_error]. apply IH; assumption.
Qed.

Lemma diff_from_length x t : length (diff_from x t) = length t.
Proof.
  revert x; induction t as [|y t IH]; intros x; [reflexivity|].
  cbn [diff_from length]. now rewrite IH.
Qed.

Lemma np_diff_nth l j a b :
  nth_error l j = Some a -> nth_error l (S j) = Some b ->
  nth_error (np_diff l) j = Some (fsub b a).
Proof.
  destruct l as [|x t]; [destruct j; discriminate|]. apply diff_from_nth.
Qed.

Lemma np_diff_length l : length (np_diff l) = (length l - 1)%nat.
Proof.
  destruct l as [|x t]; [reflexivity|]. cbn [np_diff length].
  rewrite diff_from_length. lia.
Qed.

Lemma np_diff_nth_inv l j d :
  nth_error (np_diff l) j = Some d ->
  exists a b, nth_error l j = Some a /\ nth_error l (S j) = Some b /\ d = fsub b a.
Proof.
  intros H.
  assert (Hj : (j < length (np_diff l))%nat) by (apply nth_error_Some; congruence).
  rewrite np_diff_length in Hj.
  destruct (nth_error l j) as [a|] eqn:Ea;
    [|apply nth_error_None in Ea; lia].
  destruct (nth_error l (S j)) as [b|] eqn:Eb;
    [|apply nth_error_None in Eb; lia].
  exists a, b. repeat split.
  rewrite (np_diff_nth l j a b Ea Eb) in H. now injection H as <-.
Qed.

(** The reported positions are those where the sign of the gradient
    changes from one sample to the next. *)
Lemma dr_minmax_spec r dr idx :
  np_gradient r = Ok dr -> dr_minmax r = Ok idx ->
  forall i, In i idx <->
    exists j a b, i = Z.of_nat j /\ nth_error dr j = Some a /\
                  nth_error dr (S j) = Some b /\
                  nonzero (fsub (np_sign b) (np_sign a)) = true.
Proof.
  intros Hg H. unfold dr_minmax in H. rewrite Hg in H. cbn [bind] in H.
  injection H as <-. intros i. unfold np_where.
  rewrite ExposureClaims.where_from_In. split.
  - intros (j & d & E & Hd & Nz).
    apply np_diff_nth_inv in Hd as (sa & sb & Ha & Hb & ->).
    rewrite nth_error_map in Ha, Hb.
    destruct (nth_error dr j) as [a|] eqn:Ea; [|discriminate].
    destruct (nth_error dr (S j)) as [b|] eqn:Eb; [|discriminate].
    injection Ha as <-. injection Hb as <-.
    exists j, a, b. split; [lia|]. auto.
  - intros (j & a & b & -> & Ha & Hb & Nz).
    exists j, (fsub (np_sign b) (np_sign a)). split; [lia|]. split; [|exact Nz].
    apply np_diff_nth; rewrite nth_error_map; [now rewrite Ha | now rewrite Hb].
Qed.


Lemma div_one d : d / 1 == d.
Proof. field. Qed.

Lemma div_two_one d : d / (2 * 1) == d * (1 # 2).
Proof. field. Qed.

Lemma sign_change_fin ga gb :
  nonzero (fsub (np_sign (Fin gb)) (np_sign (Fin ga))) = true <->
  Qcompare ga 0 <> Qcompare gb 0.
Proof.
  unfold np_sign, sign.
  destruct (Qcompare ga 0), (Qcompare gb 0); cbn; split;
    congruence || discriminate || (intros; reflexivity).
Qed.

Lemma compare_neg g : g < 0 -> Qcompare g 0 = Lt.
Proof. intros H. now apply Qlt_alt. Qed.

Lemma compare_pos g : 0 < g -> Qcompare g 0 = Gt.
Proof. intros H. now apply Qgt_alt. Qed.

Lemma compare_not_neg g : Qcompare g 0 <> Lt <-> 0 <= g.
Proof.
  rewrite <- Qlt_alt. split; intros H.
  - destruct (Qlt_le_dec g 0); [contradiction | assumption].
  - intros L. lra.
Qed.

Lemma compare_not_pos g : Qcompare g 0 <> Gt <-> g <= 0.
Proof.
  rewrite <- Qgt_alt. split; intros H.
  - destruct (Qlt_le_dec 0 g); [contradiction | assumption].
  - intros L. lra.
Qed.

Section Minimum.

(** A series of distances that falls up to the sample of index [k] and
    rises from there. *)
Variable qs : list Q.
Variable k : nat.
Hypothesis k_inside : (1 <= k)%nat /\ (k + 2 <= length qs)%nat.
Hypothesis falls : forall i x y, (i < k)%nat ->
  nth_error qs i = Some x -> nth_error qs (S i) = Some y -> y < x.
Hypothesis rises : forall i x y, (k <= i)%nat ->
  nth_error qs i = Some x -> nth_error qs (S i) = Some y -> x < y.

Variable a c : Q.
Hypothesis before : nth_error qs (k - 1) = Some a.
Hypothesis after : nth_error qs (k + 1) = Some c.

Lemma sample j : (j < length qs)%nat -> exists x, nth_error qs j = Some x.
Proof.
  intros H. destruct (nth_error qs j) as [x|] eqn:E; [eauto|].
  apply nth_error_None in E. lia.
Qed.

Lemma fin_nth j x : nth_error qs j = Some x -> nth_error (map Fin qs) j = Some (Fin x).
Proof. intros H. rewrite nth_error_map, H. reflexivity. Qed.

(** The sign of the gradient: negative before [k], positive after it, and
    at [k] the sign of the difference of the two neighbours. *)
Lemma gradient_signs dr :
  np_gradient (map Fin qs) = Ok dr ->
  forall j, (j < length qs)%nat ->
    exists g, nth_error dr j = Some (Fin g) /\
              ((j < k)%nat -> g < 0) /\ ((k < j)%nat -> 0 < g) /\
              (j = k -> g == (c - a) * (1 # 2)).
Proof.
  intros Hdr j Hj. destruct k_inside as [K1 K2].
  destruct (np_gradient_entries (map Fin qs)) as (dr' & Hdr' & Ld & D0 & Di & Dn);
    [rewrite length_map; lia|].
  rewrite Hdr in Hdr'. injection Hdr' as <-.
  rewrite length_map in Dn.
  destruct j as [|j'].
  - (* the first sample *)
    destruct (sample 0 ltac:(lia)) as (x0 & H0).
    destruct (sample 1 ltac:(lia)) as (x1 & H1).
    exists ((x1 - x0) / 1). split; [|split; [|split]].
    + rewrite (D0 _ _ (fin_nth _ _ H0) (fin_nth _ _ H1)). reflexivity.
    + intros _. rewrite div_one. pose proof (falls 0%nat x0 x1 ltac:(lia) H0 H1). lra.
    + lia.
    + lia.
  - destruct (Nat.eq_dec (S j') (length qs - 1)) as [El|Nl].
    + (* the last sample *)
      destruct (sample (length qs - 2) ltac:(lia)) as (xm & Hm).
      destruct (sample (length qs - 1) ltac:(lia)) as (xn & Hn).
      exists ((xn - xm) / 1). split; [|split; [|split]].
      * rewrite El. rewrite (Dn _ _ (fin_nth _ _ Hm) (fin_nth _ _ Hn)). reflexivity.
      * lia.
      * intros _. rewrite div_one.
        assert (Hs : nth_error qs (S (length qs - 2)) = Some xn)
          by (replace (S (length qs - 2)) with (length qs - 1)%nat by lia; exact Hn).
        pose proof (rises (length qs - 2)%nat xm xn ltac:(lia) Hm Hs). lra.
      * lia.
    + (* a sample in between *)
      destruct (sample j' ltac:(lia)) as (x & Hx).
      destruct (sample (S j') ltac:(lia)) as (y & Hy).
      destruct (sample (S (S j')) ltac:(lia)) as (z & Hz).
      exists ((z - x) / (2 * 1)). split; [|split; [|split]].
      * rewrite (Di _ _ _ (fin_nth _ _ Hx) (fin_nth _ _ Hz)). reflexivity.
      * intros L. rewrite div_two_one.
        pose proof (falls j' x y ltac:(lia) Hx Hy).
        pose proof (falls (S j') y z ltac:(lia) Hy Hz). lra.
      * intros L. rewrite div_two_one.
        pose proof (rises j' x y ltac:(lia) Hx Hy).
        pose proof (rises (S j') y z ltac:(lia) Hy Hz). lra.
      * intros E. rewrite div_two_one.
        assert (Ea : x = a).
        { replace (k - 1)%nat with j' in before by lia. congruence. }
        assert (Ec : z = c).
        { replace (k + 1)%nat with (S (S j')) in after by lia. congruence. }
        subst x z. reflexivity.
Qed.

Lemma minimum_reported :
  exists idx, dr_minmax (map Fin qs) = Ok idx /\
    forall i, In i idx <->
      (i = Z.of_nat (k - 1) /\ a <= c) \/ (i = Z.of_nat k /\ c <= a).
Proof.
  destruct k_inside as [K1 K2].
  destruct (np_gradient_entries (map Fin qs)) as (dr & Hdr & Ld & _);
    [rewrite length_map; lia|].
  rewrite length_map in Ld.
  pose proof (gradient_signs dr Hdr) as G.
  assert (Hidx : exists idx, dr_minmax (map Fin qs) = Ok idx)
    by (unfold dr_minmax; rewrite Hdr; cbn [bind]; eauto).
  destruct Hidx as (idx & Hidx). exists idx. split; [exact Hidx|].
  intros i. rewrite (dr_minmax_spec _ _ _ Hdr Hidx). split.
  - intros (j & A & B & -> & HA & HB & Nz).
    assert (Hj : (S j < length qs)%nat).
    { rewrite <- Ld. apply nth_error_Some. congruence. }
    destruct (G j ltac:(lia)) as (ga & Ea & Na & Pa & Ka).
    destruct (G (S j) Hj) as (gb & Eb & Nb & Pb & Kb).
    rewrite Ea in HA. injection HA as <-.
    rewrite Eb in HB. injection HB as <-.
    apply sign_change_fin in Nz.
    destruct (lt_eq_lt_dec (S j) k) as [[L|E]|L].
    + exfalso. apply Nz.
      now rewrite (compare_neg ga (Na ltac:(lia))), (compare_neg gb (Nb L)).
    + left. split; [f_equal; lia|].
      rewrite (compare_neg ga (Na ltac:(lia))) in Nz.
      assert (H0 : 0 <= gb)
        by (apply compare_not_neg; intros C; apply Nz; symmetry; exact C).
      rewrite (Kb E) in H0. lra.
    + destruct (Nat.eq_dec j k) as [E|N].
      * right. split; [f_equal; exact E|].
        rewrite (compare_pos gb (Pb ltac:(lia))) in Nz.
        assert (H0 : ga <= 0) by (apply compare_not_pos; exact Nz).
        rewrite (Ka E) in H0. lra.
      * exfalso. apply Nz.
        now rewrite (compare_pos ga (Pa ltac:(lia))), (compare_pos gb (Pb ltac:(lia))).
  - intros [[-> Hac] | [-> Hca]].
    + destruct (G (k - 1)%nat ltac:(lia)) as (ga & Ea & Na & _ & _).
      destruct (G k ltac:(lia)) as (gb & Eb & _ & _ & Kb).
      exists (k - 1)%nat, (Fin ga), (Fin gb). split; [reflexivity|].
      split; [exact Ea|].
      split; [replace (S (k - 1)) with k by lia; exact Eb|].
      apply sign_change_fin. rewrite (compare_neg ga (Na ltac:(lia))).
      intros C. symmetry in C. apply Qlt_alt in C.
      rewrite (Kb eq_refl) in C. lra.
    + destruct (G k ltac:(lia)) as (ga & Ea & _ & _ & Ka).
      destruct (G (S k) ltac:(lia)) as (gb & Eb & _ & Pb & _).
      exists k, (Fin ga), (Fin gb). split; [reflexivity|].
      split; [exact Ea|]. split; [exact Eb|].
      apply sign_change_fin. rewrite (compare_pos gb (Pb ltac:(lia))).
      intros C. apply Qgt_alt in C.
      rewrite (Ka eq_refl) in C. lra.
Qed.

End Minimum.


(** X18.  In a series of distances that falls up to the sample of index [k] and
    rises from there, the minimum is the only extremum reported; it is
    reported at [k] or at the sample before, [k - 1], and at both when the
    two neighbours of the minimum are at the same distance. *)
Theorem minimum_found_at_or_before qs k a c :
  (1 <= k)%nat /\ (k + 2 <= length qs)%nat ->
  (forall i x y, (i < k)%nat ->
     nth_error qs i = Some x -> nth_error qs (S i) = Some y -> y < x) ->
  (forall i x y, (k <= i)%nat ->
     nth_error qs i = Some x -> nth_error qs (S i) = Some y -> x < y) ->
  nth_error qs (k - 1) = Some a -> nth_error qs (k + 1) = Some c ->
  exists idx, dr_minmax (map Fin qs) = Ok idx /\
    forall i, In i idx <->
      (i = Z.of_nat (k - 1) /\ a <= c) \/ (i = Z.of_nat k /\ c <= a).
Proof.
  intros Hk Hf Hr Ha Hc. exact (minimum_reported qs k Hk Hf Hr a c Ha Hc).
Qed.

(** Distances 5, 3, 1, 3, 5: the minimum at index 2 is reported twice, at
    1 and at 2. *)
Lemma minimum_found_at_or_before_witness :
  exists idx, dr_minmax (map Fin [5; 3; 1; 3; 5]) = Ok idx /\
              (In 1%Z idx /\ In 2%Z idx) /\ idx = [1; 2]%Z.
Proof.
  destruct (minimum_found_at_or_before [5; 3; 1; 3; 5] 2 3 3) as (idx & H & Hin).
  - simpl. lia.
  - intros [|[|i]] x y Hi Hx Hy; simpl in Hx, Hy; try lia;
      injection Hx as <-; injection Hy as <-; reflexivity.
  - intros [|[|[|[|i]]]] x y Hi Hx Hy; simpl in Hx, Hy; try lia;
      try (destruct i; discriminate);
      injection Hx as <-; injection Hy as <-; reflexivity.
  - reflexivity.
  - reflexivity.
  - exists idx. split; [exact H|]. split.
    + split; apply Hin; [left | right]; split; try reflexivity; discriminate.
    + vm_compute in H. now injection H as <-.
Defined.

(** *** Too few samples, and where the positions lie *)

Lemma dr_minmax_range r idx :
  dr_minmax r = Ok idx ->
  forall i, In i idx -> (0 <= i < Z.of_nat (length r) - 1)%Z.
Proof.
  intros H i Hi. unfold dr_minmax in H.
  destruct (Nat.lt_ge_cases (length r) 2) as [L|G].
  - rewrite np_gradient_small in H by exact L. discriminate H.
  - destruct (np_gradient_entries r G) as (dr & Hdr & Ld & _).
    rewrite Hdr in H. cbn [bind] in H. injection H as <-.
    apply where_from_range in Hi.
    rewrite np_diff_length, length_map, Ld in Hi. lia.
Qed.

(** X19.  With fewer than two samples there is no gradient and the search for
    extrema raises a [ValueError]; otherwise it returns positions below
    the last sample. *)
Theorem extrema_need_two_samples r :
  ((length r < 2)%nat ->
   dr_minmax r
   = Raise (ValueError "Shape of array too small to calculate a numerical gradient, at least (edge_order + 1) elements are required.")) /\
  ((2 <= length r)%nat ->
   exists idx, dr_minmax r = Ok idx /\
     forall i, In i idx -> (0 <= i < Z.of_nat (length r) - 1)%Z).
Proof.
  split; intros H.
  - unfold dr_minmax. now rewrite np_gradient_small.
  - destruct (np_gradient_entries r H) as (dr & Hdr & _).
    destruct (dr_minmax r) as [idx|err] eqn:E.
    + exists idx. split; [reflexivity|]. exact (dr_minmax_range r idx E).
    + unfold dr_minmax in E. rewrite Hdr in E. discriminate E.
Qed.

(** *** The numbers in the figure *)

Lemma mapM_Raise {A B : Type} (f : A -> result B) l e :
  mapM f l = Raise e -> exists x, In x l /\ f x = Raise e.
Proof.
  induction l as [|a t IH]; simpl; [discriminate|].
  destruct (f a) eqn:E; cbn [bind].
  - destruct (mapM f t) eqn:Et; cbn [bind]; [discriminate|].
    intros [= <-]. destruct (IH eq_refl) as (x & Hx & Hf). eauto.
  - intros [= <-]. eauto.
Qed.

Lemma label_numbers : arange_step 0 48 2 = map (fun j => Z.of_nat (2 * j)) (seq 0 24).
Proof. vm_compute. reflexivity. Qed.

Lemma half_of_even j :
  py_int (fdiv (of_Z (Z.of_nat (2 * j))) (Fin 2)) = Ok (Z.of_nat j).
Proof.
  unfold of_Z, fdiv.
  replace (Qeq_bool 2 0) with false by reflexivity.
  unfold py_int. apply f_equal.
  unfold Qdiv, Qmult, Qinv, inject_Z. cbn [Qnum Qden].
  rewrite Z.mul_1_r. cbn [Pos.mul].
  replace (Z.of_nat (2 * j)) with (Z.of_nat j * 2)%Z by lia.
  apply Z.quot_mul. discriminate.
Qed.

Lemma label_at_Raise t r idx i e :
  label_at t r idx (Z.of_nat (2 * i)) = Raise e ->
  e = IndexError "index out of bounds".
Proof.
  unfold label_at. rewrite half_of_even. intros H.
  repeat raise_step H. discriminate H.
Qed.

(** X20.  The loop that writes the numbers 1 to 24 at every second extremum
    needs 47 extrema: with fewer it raises an [IndexError]; with 47 or
    more it labels the extrema of index 0, 2, ..., 46 with 1, 2, ..., 24,
    each at its time and 0.038 below its distance. *)
Theorem labels_need_47_extrema (t : list Q) (r : ndarray) idx :
  dr_minmax r = Ok idx -> length t = length r ->
  ((length idx < 47)%nat ->
   perihelion_labels t r idx = Raise (IndexError "index out of bounds")) /\
  ((47 <= length idx)%nat ->
   exists l, perihelion_labels t r idx = Ok l /\ length l = 24%nat /\
     forall j, (j < 24)%nat ->
       exists p x y,
         nth_error idx (2 * j) = Some (Z.of_nat p) /\
         nth_error t p = Some x /\ nth_error r p = Some y /\
         nth_error l j = Some (x, fsub y (Fin 0.038), (Z.of_nat j + 1)%Z)).
Proof.
  intros Hidx Lt.
  pose proof (dr_minmax_range r idx Hidx) as Hpos.
  unfold perihelion_labels. rewrite label_numbers.
  assert (Hrow : forall j, (2 * j < length idx)%nat ->
            exists p x y,
              nth_error idx (2 * j) = Some (Z.of_nat p) /\
              nth_error t p = Some x /\ nth_error r p = Some y /\
              label_at t r idx (Z.of_nat (2 * j))
              = Ok (x, fsub y (Fin 0.038), (Z.of_nat j + 1)%Z)).
  { intros j Hj.
    destruct (nth_error idx (2 * j)) as [kp|] eqn:Ek;
      [|apply nth_error_None in Ek; lia].
    pose proof (Hpos kp (nth_error_In _ _ Ek)) as Hk.
    destruct (nth_error t (Z.to_nat kp)) as [x|] eqn:Ex;
      [|apply nth_error_None in Ex; lia].
    destruct (nth_error r (Z.to_nat kp)) as [y|] eqn:Ey;
      [|apply nth_error_None in Ey; lia].
    exists (Z.to_nat kp), x, y.
    rewrite Z2Nat.id by lia. repeat split; auto.
    assert (Gt : np_get t kp = Ok x)
      by (rewrite <- (Z2Nat.id kp) by lia; now apply np_get_nat).
    assert (Gr : np_get r kp = Ok y)
      by (rewrite <- (Z2Nat.id kp) by lia; now apply np_get_nat).
    unfold label_at.
    rewrite (np_get_nat idx (2 * j) kp Ek). cbn [bind].
    rewrite Gt. cbn [bind]. rewrite Gr. cbn [bind].
    rewrite half_of_even. reflexivity. }
  split.
  - intros Hshort.
    destruct (mapM (label_at t r idx) (map (fun j => Z.of_nat (2 * j)) (seq 0 24)))
      as [l|e] eqn:E.
    + exfalso.
      assert (H23 : nth_error (map (fun j => Z.of_nat (2 * j)) (seq 0 24)) 23
                    = Some (Z.of_nat (2 * 23))) by reflexivity.
      destruct (mapM_nth_error _ _ _ E 23%nat _ H23) as (row & Hr & _).
      unfold label_at in Hr. bind_inv.
      apply np_get_nat_inv in E0.
      assert (2 * 23 < length idx)%nat by (apply nth_error_Some; congruence). lia.
    + apply mapM_Raise in E as (x & Hx & Hf).
      apply in_map_iff in Hx as (j & <- & _).
      now rewrite (label_at_Raise _ _ _ _ _ Hf).
  - intros Hlong.
    destruct (mapM_total (label_at t r idx)
                (map (fun j => Z.of_nat (2 * j)) (seq 0 24))) as (l & Hl).
    { intros x Hx. apply in_map_iff in Hx as (j & <- & Hj). apply in_seq in Hj.
      destruct (Hrow j ltac:(lia)) as (p & a & b & _ & _ & _ & ->). eauto. }
    exists l. split; [exact Hl|]. split.
    + rewrite (mapM_length _ _ _ Hl). now rewrite length_map, length_seq.
    + intros j Hj.
      destruct (Hrow j ltac:(lia)) as (p & x & y & Hp & Hx & Hy & Hlab).
      exists p, x, y. repeat split; auto.
      assert (Hn : nth_error (map (fun j => Z.of_nat (2 * j)) (seq 0 24)) j
                   = Some (Z.of_nat (2 * j))).
      { rewrite nth_error_map.
        rewrite (nth_error_nth' (seq 0 24) 0%nat) by (rewrite length_seq; lia).
        rewrite seq_nth by lia. reflexivity. }
      destruct (mapM_nth_error _ _ _ Hl j _ Hn) as (row & Hr & Hlj).
      rewrite Hlab in Hr. injection Hr as <-. exact Hlj.
Qed.


(** Five samples have two extrema at most: no number can be written. *)
Lemma labels_need_47_extrema_witness :
  perihelion_labels [0; 1; 2; 3; 4] (map Fin [5; 3; 1; 3; 5]) [1; 2]%Z
  = Raise (IndexError "index out of bounds").
Proof.
  assert (H : dr_minmax (map Fin [5; 3; 1; 3; 5]) = Ok [1; 2]%Z)
    by (vm_compute; reflexivity).
  apply (proj1 (labels_need_47_extrema [0; 1; 2; 3; 4] (map Fin [5; 3; 1; 3; 5])
                  [1; 2]%Z H eq_refl)).
  simpl. lia.
Defined.

End OrbitProperties.

(** ** Cells 21 and 22: splines and expected counts *)

Module ExposureProperties.

Import NumPy Dates Rates Prediction Exposure Examples.
Import ArrayFacts FloatFacts IcrateFacts CoverageProperties.
Local Open Scope Q_scope.

(** *** The splines of a scenario *)

Lemma yearly_mid_times_25_length : length yearly_mid_times_25_num = 13%nat.
Proof. reflexivity. Qed.

Lemma make_interp1d_length_13 (y : ndarray) :
  length y = 13%nat -> exists f, make_interp1d yearly_mid_times_25_num y 2 = Ok f.
Proof.
  intros L. unfold make_interp1d.
  rewrite yearly_mid_times_25_length, L. cbn [Nat.eqb negb Nat.ltb Nat.leb Nat.add].
  eauto.
Qed.

Lemma make_interp1d_other_length (y : ndarray) :
  length y <> 13%nat ->
  make_interp1d yearly_mid_times_25_num y 2
  = Raise (ValueError "x and y arrays must be equal in length along interpolation axis.").
Proof.
  intros L. unfold make_interp1d. rewrite yearly_mid_times_25_length.
  replace (Nat.eqb 13 (length y)) with false
    by (symmetry; apply Nat.eqb_neq; congruence).
  reflexivity.
Qed.

(** X21.  A spline of cell 21 needs thirteen yearly rates, one for each
    mid-year time: any other number raises the [ValueError] of
    [interp1d]; with thirteen the spline is built, and its evaluation on
    the 4383 days of [times_25_daily_icrange_num] passes the bounds check
    and gives one value per day. *)
Theorem splines_cover_the_daily_times
        (spline : list Q -> ndarray -> nat -> Q -> npfloat) (y : ndarray) :
  (length y <> 13%nat ->
   fmc y = Raise (ValueError "x and y arrays must be equal in length along interpolation axis.") /\
   fpp y = Raise (ValueError "x and y arrays must be equal in length along interpolation axis.")) /\
  (length y = 13%nat ->
   exists f, fmc y = Ok f /\ fpp y = Ok f /\
     interp1d_call spline f times_25_daily_icrange_num
     = Ok (map (spline yearly_mid_times_25_num y 2%nat) times_25_daily_icrange_num) /\
     length times_25_daily_icrange_num = 4383%nat).
Proof.
  split; intros L.
  - unfold fmc, fpp. now rewrite make_interp1d_other_length.
  - destruct (make_interp1d_length_13 y L) as (f & Hf).
    exists f. unfold fmc, fpp. split; [exact Hf|]. split; [exact Hf|].
    split; [exact (ExposureClaims.interp1d_call_daily spline y f Hf)|].
    vm_compute. reflexivity.
Qed.


(** Thirteen yearly rates, 20 to 32. *)
Lemma splines_cover_the_daily_times_witness :
  exists f, fmc yearly_rates_example = Ok f /\
    interp1d_call (fun _ _ _ _ => Fin 25) f times_25_daily_icrange_num
    = Ok (map (fun _ => Fin 25) times_25_daily_icrange_num).
Proof.
  destruct (proj2 (splines_cover_the_daily_times (fun _ _ _ _ => Fin 25)
                     yearly_rates_example) eq_refl) as (f & Hf & _ & Hc & _).
  exists f. split; [exact Hf | exact Hc].
Defined.

(** *** Cell 22 raises nothing *)

Lemma broadcast2_13 f (a b : ndarray) :
  length a = 13%nat -> length b = 13%nat ->
  broadcast2 f a b = Ok (map2 f a b) /\ length (map2 f a b) = 13%nat.
Proof.
  intros La Lb. split.
  - apply broadcast2_same_length. congruence.
  - rewrite map2_length. lia.
Qed.

(** X22.  With thirteen yearly rates and thirteen yearly errors, whatever the
    trajectory of the probe and the threshold, the three splines are
    built and cell 22 returns its three sums: the 1888 days of the
    trajectory all have a daily rate among the 4383 of the curves. *)
Theorem cell_22_raises_nothing
        (spline : list Q -> ndarray -> nat -> Q -> npfloat)
        (psp_distance : Q -> npfloat) (y std : ndarray) thr :
  length y = 13%nat -> length std = 13%nat ->
  exists f fl fh t,
    fmc y = Ok f /\ fmc_low y std = Ok fl /\ fmc_high y std = Ok fh /\
    icmes_psp_predict spline psp_distance f fl fh thr = Ok t /\
    length (psp_r psp_distance) = 1888%nat /\
    (psp_below (psp_r psp_distance) thr = [] -> t = (Fin 0, Fin 0, Fin 0)).
Proof.
  intros Ly Ls.
  destruct (broadcast2_13 fsub y std Ly Ls) as [Bl Ll].
  destruct (broadcast2_13 fadd y std Ly Ls) as [Bh Lh].
  destruct (make_interp1d_length_13 y Ly) as (f & Hf).
  destruct (make_interp1d_length_13 _ Ll) as (fl & Hfl).
  destruct (make_interp1d_length_13 _ Lh) as (fh & Hfh).
  exists f, fl, fh.
  pose proof (ExposureClaims.icmes_psp_predict_returns spline psp_distance
                y (map2 fsub y std) (map2 fadd y std) f fl fh thr Hf Hfl Hfh) as H.
  cbv zeta in H. eexists. split; [exact Hf|].
  split; [unfold fmc_low; rewrite Bl; exact Hfl|].
  split; [unfold fmc_high; rewrite Bh; exact Hfh|].
  split; [exact H|].
  split.
  - unfold psp_r. rewrite length_map. vm_compute. reflexivity.
  - intros E. rewrite E. reflexivity.
Qed.

(** A probe that stays at 0.5 AU expects no event below 0.3 AU. *)
Lemma cell_22_raises_nothing_witness :
  exists f fl fh t,
    fmc yearly_rates_example = Ok f /\
    fmc_low yearly_rates_example (repeat (Fin 4.9) 13) = Ok fl /\
    fmc_high yearly_rates_example (repeat (Fin 4.9) 13) = Ok fh /\
    icmes_psp_predict (fun _ _ _ _ => Fin 25) (fun _ => Fin 0.5) f fl fh 0.3 = Ok t /\
    t = (Fin 0, Fin 0, Fin 0).
Proof.
  destruct (cell_22_raises_nothing (fun _ _ _ _ => Fin 25) (fun _ => Fin 0.5)
              yearly_rates_example (repeat (Fin 4.9) 13) 0.3 eq_refl eq_refl)
    as (f & fl & fh & t & H1 & H2 & H3 & H4 & _ & H6).
  exists f, fl, fh, t.
  split; [exact H1|]. split; [exact H2|]. split; [exact H3|]. split; [exact H4|].
  apply H6. vm_compute. reflexivity.
Defined.

(** *** A trajectory longer than a curve *)

Lemma sum_at_Raise daily idx e :
  sum_at daily idx = Raise e -> e = IndexError "index out of bounds".
Proof.
  unfold sum_at. destruct (np_take daily idx) eqn:E; cbn [bind]; [discriminate|].
  intros [= <-]. eapply np_take_Raise; eassumption.
Qed.

Lemma sum_at_out_of_range daily idx i :
  In i idx -> (Z.of_nat (length daily) <= i)%Z ->
  sum_at daily idx = Raise (IndexError "index out of bounds").
Proof.
  intros Hin Hi. unfold sum_at.
  now rewrite (np_take_out_of_range daily idx i Hin Hi).
Qed.

(** X23.  A day of the trajectory that is below the threshold and has no entry
    in one of the three daily curves makes the sums fail with an
    [IndexError]: the curves are not extended. *)
Theorem day_beyond_the_curves r thr (mean low high : ndarray) i :
  In i (psp_below r thr) ->
  (Z.of_nat (length mean) <= i \/ Z.of_nat (length low) <= i
   \/ Z.of_nat (length high) <= i)%Z ->
  expected_icmes r thr mean low high = Raise (IndexError "index out of bounds").
Proof.
  intros Hin Hlen. unfold expected_icmes.
  assert (Lp : forall c, length (per_day c) = length c)
    by (intros; unfold per_day, scalar_r; apply length_map).
  destruct (sum_at (per_day mean) (psp_below r thr)) as [a|e] eqn:E1; cbn [bind];
    [|now rewrite (sum_at_Raise _ _ _ E1)].
  destruct (sum_at (per_day low) (psp_below r thr)) as [b|e] eqn:E2; cbn [bind];
    [|now rewrite (sum_at_Raise _ _ _ E2)].
  destruct (sum_at (per_day high) (psp_below r thr)) as [c|e] eqn:E3; cbn [bind];
    [|now rewrite (sum_at_Raise _ _ _ E3)].
  exfalso. destruct Hlen as [H|[H|H]].
  - rewrite (sum_at_out_of_range _ _ i Hin) in E1 by (rewrite Lp; exact H).
    discriminate E1.
  - rewrite (sum_at_out_of_range _ _ i Hin) in E2 by (rewrite Lp; exact H).
    discriminate E2.
  - rewrite (sum_at_out_of_range _ _ i Hin) in E3 by (rewrite Lp; exact H).
    discriminate E3.
Qed.

(** Ten distances, of which the one of index 5 is below 0.3 AU, against a
    curve of three days. *)
Lemma day_beyond_the_curves_witness :
  expected_icmes psp_r_example 0.3 (repeat (Fin 18.262) 3) curve_example curve_example
  = Raise (IndexError "index out of bounds").
Proof.
  apply (day_beyond_the_curves psp_r_example 0.3 (repeat (Fin 18.262) 3)
           curve_example curve_example 5%Z).
  - vm_compute. auto 10.
  - left. vm_compute. discriminate.
Defined.


(** *** A wider threshold cannot lower the expected counts *)

Lemma flt_wider x thr1 thr2 :
  thr1 <= thr2 -> flt x (Fin thr1) = true -> flt x (Fin thr2) = true.
Proof.
  intros H. destruct x as [q| | |]; simpl; auto.
  rewrite !negb_true_iff. intros L. qbool. lra.
Qed.

Lemma where_from_wider {A : Type} (p1 p2 : A -> bool) (v : Z -> Q) (l : list A) :
  (forall x, p1 x = true -> p2 x = true) -> (forall i, 0 <= v i) ->
  forall n a a', a <= a' ->
    fold_left Qplus (map v (where_from p1 l n)) a
    <= fold_left Qplus (map v (where_from p2 l n)) a'.
Proof.
  intros Hp Hv. induction l as [|x t IH]; intros n a a' Ha; [exact Ha|].
  cbn [where_from]. destruct (p1 x) eqn:P1.
  - rewrite (Hp x P1). cbn [map fold_left]. apply IH. lra.
  - destruct (p2 x); [|now apply IH].
    cbn [map fold_left]. apply IH. pose proof (Hv n). lra.
Qed.

Lemma where_from_wider_length {A : Type} (p1 p2 : A -> bool) (l : list A) n :
  (forall x, p1 x = true -> p2 x = true) ->
  (length (where_from p1 l n) <= length (where_from p2 l n))%nat.
Proof.
  intros Hp. revert n; induction l as [|x t IH]; intros n; [apply Nat.le_refl|].
  cbn [where_from]. destruct (p1 x) eqn:P1.
  - rewrite (Hp x P1). cbn [length]. specialize (IH (n + 1)%Z). lia.
  - destruct (p2 x); [cbn [length]; specialize (IH (n + 1)%Z); lia | apply IH].
Qed.

Lemma fold_fadd_fin (l : list Q) a :
  fold_left fadd (map Fin l) (Fin a) = Fin (fold_left Qplus l a).
Proof.
  revert a; induction l as [|x t IH]; intros a; [reflexivity|].
  cbn [map fold_left fadd]. apply IH.
Qed.

Lemma sum_at_inv daily idx c :
  (forall i, In i idx -> (0 <= i)%Z) ->
  sum_at daily idx = Ok c ->
  forall i, In i idx -> (0 <= i < Z.of_nat (length daily))%Z.
Proof.
  intros Hpos H i Hi. split; [now apply Hpos|].
  destruct (Z.lt_ge_cases i (Z.of_nat (length daily))) as [L|G]; [exact L|].
  rewrite (sum_at_out_of_range daily idx i Hi G) in H. discriminate H.
Qed.

(** The sum over the selected days of a curve of numbers. *)
Lemma sum_at_fin (cs : list Q) idx c :
  (forall i, In i idx -> (0 <= i)%Z) ->
  sum_at (per_day (map Fin cs)) idx = Ok c ->
  c = Fin (fold_left Qplus
             (map (fun i => nth (Z.to_nat i) cs 0 / 365.24) idx) 0).
Proof.
  intros Hpos H.
  pose proof (sum_at_inv _ _ _ Hpos H) as Hr.
  unfold per_day, scalar_r in Hr. rewrite !length_map in Hr.
  rewrite ExposureClaims.sum_at_per_day in H
    by (intros i Hi; rewrite length_map; now apply Hr).
  injection H as <-. unfold np_sum.
  rewrite <- fold_fadd_fin. apply f_equal2; [|reflexivity].
  rewrite map_map. apply map_ext_in. intros i Hi.
  rewrite (nth_indep (map Fin cs) NaN (Fin 0))
    by (rewrite length_map; specialize (Hr i Hi); lia).
  rewrite (map_nth Fin cs 0). reflexivity.
Qed.

Lemma psp_below_nonneg r thr i : In i (psp_below r thr) -> (0 <= i)%Z.
Proof. intros H. apply where_from_range in H. lia. Qed.

(** One curve: a wider threshold selects at least as many days and, for
    rates that are not negative, sums to at least as much. *)
Lemma sum_at_wider r thr1 thr2 (cs : list Q) c1 c2 :
  thr1 <= thr2 -> (forall c, In c cs -> 0 <= c) ->
  sum_at (per_day (map Fin cs)) (psp_below r thr1) = Ok c1 ->
  sum_at (per_day (map Fin cs)) (psp_below r thr2) = Ok c2 ->
  fle c1 c2 = true.
Proof.
  intros Hthr Hcs H1 H2.
  rewrite (sum_at_fin cs _ c1 (psp_below_nonneg r thr1) H1).
  rewrite (sum_at_fin cs _ c2 (psp_below_nonneg r thr2) H2).
  cbn [fle]. apply Qle_bool_iff. unfold psp_below, np_where.
  apply where_from_wider.
  - intros x. now apply flt_wider.
  - intros i. apply Qle_shift_div_l; [reflexivity|].
    destruct (nth_in_or_default (Z.to_nat i) cs 0) as [Hin|E].
    + pose proof (Hcs _ Hin). lra.
    + rewrite E. lra.
  - lra.
Qed.

(** X24.  With yearly rates that are not negative, a wider distance threshold
    selects at least as many days of the trajectory and gives expected
    counts (mean, lower and upper) that are at least as large: what the
    probe is expected to see below 0.1 AU it also sees below 0.2 AU. *)
Theorem wider_threshold_more_events r thr1 thr2 (mean low high : list Q) t1 t2 :
  thr1 <= thr2 ->
  (forall c, In c mean -> 0 <= c) -> (forall c, In c low -> 0 <= c) ->
  (forall c, In c high -> 0 <= c) ->
  expected_icmes r thr1 (map Fin mean) (map Fin low) (map Fin high) = Ok t1 ->
  expected_icmes r thr2 (map Fin mean) (map Fin low) (map Fin high) = Ok t2 ->
  (length (psp_below r thr1) <= length (psp_below r thr2))%nat /\
  fle (tup0 t1) (tup0 t2) = true /\ fle (tup1 t1) (tup1 t2) = true /\
  fle (tup2 t1) (tup2 t2) = true.
Proof.
  intros Hthr Hm Hl Hh H1 H2.
  unfold expected_icmes in H1, H2.
  apply bind_Ok in H1 as (a1 & A1 & H1). apply bind_Ok in H1 as (b1 & B1 & H1).
  apply bind_Ok in H1 as (c1 & C1 & H1).
  apply bind_Ok in H2 as (a2 & A2 & H2). apply bind_Ok in H2 as (b2 & B2 & H2).
  apply bind_Ok in H2 as (c2 & C2 & H2).
  injection H1 as <-. injection H2 as <-.
  unfold tup0, tup1, tup2. cbn [fst snd].
  split.
  - unfold psp_below, np_where. apply where_from_wider_length.
    intros x. now apply flt_wider.
  - split; [exact (sum_at_wider r thr1 thr2 mean a1 a2 Hthr Hm A1 A2)|].
    split; [exact (sum_at_wider r thr1 thr2 low b1 b2 Hthr Hl B1 B2)|].
    exact (sum_at_wider r thr1 thr2 high c1 c2 Hthr Hh C1 C2).
Qed.

(** Ten daily distances and a constant rate: four days below 0.3 AU give
    0.2 events, the six days below 0.45 AU give 0.3. *)
Lemma wider_threshold_more_events_witness :
  exists t1 t2,
    expected_icmes psp_r_example 0.3 (map Fin (repeat 18.262 12))
      (map Fin (repeat 18.262 12)) (map Fin (repeat 18.262 12)) = Ok t1 /\
    expected_icmes psp_r_example 0.45 (map Fin (repeat 18.262 12))
      (map Fin (repeat 18.262 12)) (map Fin (repeat 18.262 12)) = Ok t2 /\
    length (psp_below psp_r_example 0.3) = 4%nat /\
    length (psp_below psp_r_example 0.45) = 6%nat /\
    fle (tup0 t1) (tup0 t2) = true.
Proof.
  destruct (expected_icmes psp_r_example 0.3 (map Fin (repeat 18.262 12))
              (map Fin (repeat 18.262 12)) (map Fin (repeat 18.262 12)))
    as [t1|] eqn:H1; [|vm_compute in H1; discriminate].
  destruct (expected_icmes psp_r_example 0.45 (map Fin (repeat 18.262 12))
              (map Fin (repeat 18.262 12)) (map Fin (repeat 18.262 12)))
    as [t2|] eqn:H2; [|vm_compute in H2; discriminate].
  assert (Hc : forall c, In c (repeat 18.262 12) -> 0 <= c).
  { intros c Hin. apply repeat_spec in Hin. subst c. discriminate. }
  destruct (wider_threshold_more_events psp_r_example 0.3 0.45
              (repeat 18.262 12) (repeat 18.262 12) (repeat 18.262 12) t1 t2
              ltac:(discriminate) Hc Hc Hc H1 H2) as (_ & G & _).
  exists t1, t2. split; [reflexivity|]. split; [reflexivity|].
  split; [vm_compute; reflexivity|]. split; [vm_compute; reflexivity|].
  exact G.
Defined.

End ExposureProperties.

(** ** Cell 5: MESSENGER and MAVEN; cell 6: a year with one spacecraft *)

Module PairingProperties.

Import NumPy Dates Rates Reference Examples MoreExamples.
Import ArrayFacts FloatFacts RatesFacts StatsFacts IcrateFacts NanFacts CoverageFacts.
Import CoverageProperties.
Local Open Scope Q_scope.

(** *** Positions found in one array, values taken from another *)

Lemma skipn_nth_error {A : Type} (b : list A) k v :
  nth_error b k = Some v -> skipn k b = v :: skipn (S k) b.
Proof.
  revert k; induction b as [|x t IH]; intros [|k]; simpl; intros H;
    try discriminate.
  - now injection H as <-.
  - now apply IH.
Qed.

Lemma skipn_S_nil {A : Type} (b : list A) k : skipn k b = [] -> skipn (S k) b = [].
Proof.
  intros H. apply skipn_all_iff in H. apply skipn_all_iff. lia.
Qed.

(** The values taken at the positions where a condition on [t] holds
    are the values of [b] that stand at the same position as an entry
    of [t] with the condition. *)
Lemma np_take_where_other {A B : Type} (p : A -> bool) (t : list A) (b : list B) :
  forall k sel,
  np_take b (where_from p t (Z.of_nat k)) = Ok sel ->
  sel = map snd (filter (fun tb => p (fst tb)) (combine t (skipn k b))).
Proof.
  induction t as [|x t IH]; intros k sel H.
  - simpl in H. now injection H as <-.
  - cbn [where_from] in H.
    replace (Z.of_nat k + 1)%Z with (Z.of_nat (S k)) in H by lia.
    destruct (p x) eqn:Px.
    + unfold np_take in H. cbn [mapM] in H. bind_inv. injection H as <-.
      apply np_get_nat_inv in E.
      rewrite (skipn_nth_error _ _ _ E). cbn [combine filter fst]. rewrite Px.
      cbn [map snd]. apply f_equal. now apply IH.
    + specialize (IH (S k) sel H).
      destruct (skipn k b) as [|y r] eqn:Sk.
      * rewrite (skipn_S_nil _ _ Sk) in IH. rewrite IH.
        destruct t; reflexivity.
      * assert (Sk' : skipn (S k) b = r).
        { destruct (nth_error b k) as [v|] eqn:Ev.
          - rewrite (skipn_nth_error _ _ _ Ev) in Sk. now injection Sk.
          - apply nth_error_None in Ev.
            rewrite skipn_all2 in Sk by lia. discriminate Sk. }
        rewrite Sk' in IH. cbn [combine filter fst]. rewrite Px. exact IH.
Qed.

Lemma Spacecraft_eq_MESSENGER sc : sc = MESSENGER \/ sc <> MESSENGER.
Proof. destruct sc; (now left) || (right; discriminate). Qed.

(** [datas] counts the positions at which the time stamp lies in the
    year and the field value, of another file perhaps, is defined. *)
Lemma datas_of_pairs t (b : ndarray) s e n :
  datas_of t b s e = Ok n ->
  n = Z.of_nat (length (filter (fun tb => Qltb s (fst tb) && Qltb (fst tb) e
                                          && notnan (snd tb))
                               (combine t b))).
Proof.
  unfold datas_of, thisyear_of, np_where. intros H. bind_inv.
  injection H as <-. apply f_equal.
  apply (np_take_where_other _ t b 0) in E. cbn [skipn] in E. subst v.
  unfold where_notnan, np_where. rewrite where_from_length.
  rewrite filter_map, length_map, filter_filter.
  apply f_equal. apply filter_ext. intros [x y]. cbn [fst snd].
  destruct (notnan y), (Qltb s x), (Qltb x e); reflexivity.
Qed.

(** What the loop leaves in the entry of a year, for a spacecraft
    sampled every minute, from the count of that year. *)
Lemma days_entry_after_loop inp d sc j n :
  total_data_days inp = Ok d -> (j < 13)%nat ->
  sc <> MAVEN -> ~ (sc = Wind /\ (11 <= j)%nat) ->
  datas_in_year inp sc (Z.of_nat j) = Ok n ->
  nth_error (days_of sc d) j
  = Some (if (0 <? n)%Z then fmul (of_Z n) (Fin (1 / (60 * 24))) else NaN).
Proof.
  intros H Hj Hmav Hw Hn.
  assert (N0 : (0 <= n)%Z).
  { unfold datas_in_year in Hn. bind_inv. apply datas_of_pairs in Hn. lia. }
  destruct (0 <? n)%Z eqn:Pn.
  - unfold total_data_days in H.
    apply (for_each_establish days_shape
             (fun st => nth_error (days_of sc st) j
                        = Some (fmul (of_Z n) (Fin (1 / (60 * 24)))))
             (year_step inp) (range (length yearly_mid_times_num)) (Z.of_nat j))
      with (st := data_days_init) (st' := d).
    + now apply In_range_13.
    + intros i st st' Hi HI Hstep. apply range_13_In in Hi as (k & -> & Hk).
      split; [eapply year_step_shape; eassumption|].
      destruct (year_step_entry inp k st st' sc j HI Hk Hstep Hmav Hw)
        as (n' & Hdn & Hent).
      destruct (Nat.eqb j k) eqn:Ejk.
      * apply Nat.eqb_eq in Ejk. subst k.
        rewrite Hn in Hdn. injection Hdn as <-.
        rewrite Pn in Hent. cbn [andb] in Hent. auto.
      * cbn [andb] in Hent. split.
        -- intros Q. now rewrite Hent.
        -- intros Ek. apply Nat2Z.inj in Ek. subst k.
           rewrite Nat.eqb_refl in Ejk. discriminate Ejk.
    + apply data_days_init_shape.
    + exact H.
  - apply Z.ltb_ge in Pn. assert (n = 0%Z) by lia. subst n.
    exact (no_samples_no_coverage inp d sc j H Hj Hw Hn).
Qed.

(** Every count of a loop that ends can be computed. *)
Lemma datas_in_year_computed inp d sc j :
  total_data_days inp = Ok d -> (j < 13)%nat ->
  exists n, datas_in_year inp sc (Z.of_nat j) = Ok n.
Proof.
  intros H Hj.
  destruct (Spacecraft_eq_MESSENGER sc) as [->|Hsc].
  - unfold total_data_days in H.
    destruct (for_each_steps days_shape (year_step inp)
                (range (length yearly_mid_times_num))
                (fun i s s' Hi HI => year_step_shape inp i s s' HI)
                data_days_init d data_days_init_shape H (Z.of_nat j)
                (In_range_13 j Hj)) as (s0 & s1 & HI & Hstep).
    destruct (year_step_entry inp j s0 s1 MESSENGER 0 HI Hj Hstep)
      as (n & Hn & _); [discriminate | intros [C _]; discriminate C | eauto].
  - destruct (datas_in_year_same_file inp sc j Hsc Hj) as (s & e & _ & _ & Hn).
    eauto.
Qed.

(** X25.  The MESSENGER data days of a year count the positions at which the
    time stamp of the full file, [mesnon], lies in the year and the field
    value of the file with the magnetosphere removed, [mes], at the same
    position, is defined. *)
Theorem messenger_days_pair_two_files inp d j s e :
  total_data_days inp = Ok d ->
  nth_error yearly_start_times j = Some s ->
  nth_error yearly_end_times j = Some e ->
  nth_error (total_data_days_yearly_mes d) j
  = Some (match filter (fun tb => Qltb s (fst tb) && Qltb (fst tb) e
                                  && notnan (snd tb))
                       (combine (times (mesnon inp)) (bts (mes inp))) with
          | [] => NaN
          | l => Fin (inject_Z (Z.of_nat (length l)) * (1 / (60 * 24)))
          end).
Proof.
  intros H Hs He.
  assert (Hj : (j < 13)%nat).
  { assert (L : (j < length yearly_start_times)%nat)
      by (apply nth_error_Some; congruence).
    vm_compute in L. exact L. }
  destruct (datas_in_year_computed inp d MESSENGER j H Hj) as (n & Hn).
  pose proof (days_entry_after_loop inp d MESSENGER j n H Hj
                ltac:(discriminate) ltac:(intros [C _]; discriminate C) Hn) as G.
  cbn [days_of] in G. rewrite G. apply f_equal.
  unfold datas_in_year in Hn.
  rewrite (np_get_nat _ _ _ Hs), (np_get_nat _ _ _ He) in Hn. cbn [bind] in Hn.
  cbn [time_source field_source] in Hn.
  apply datas_of_pairs in Hn.
  destruct (filter _ (combine (times (mesnon inp)) (bts (mes inp)))) as [|x l].
  - subst n. reflexivity.
  - subst n. replace (0 <? Z.of_nat (length (x :: l)))%Z with true
      by (symmetry; apply Z.ltb_lt; simpl length; lia).
    reflexivity.
Qed.

(** Three time stamps of June 2012 against the field values [nan, 5, 5,
    5] of another year: two data minutes in 2012. *)
Lemma messenger_days_pair_two_files_witness :
  exists d, total_data_days messenger_input = Ok d /\
            nth_error (total_data_days_yearly_mes d) 5
            = Some (Fin (inject_Z 2 * (1 / (60 * 24)))).
Proof.
  destruct (total_data_days messenger_input) as [d|] eqn:E;
    [|vm_compute in E; discriminate].
  exists d. split; [reflexivity|].
  assert (Hs : nth_error yearly_start_times 5 = Some (plot_date 2012 1 1))
    by (vm_compute; reflexivity).
  assert (He : nth_error yearly_end_times 5 = Some (plot_date 2012 12 31))
    by (vm_compute; reflexivity).
  rewrite (messenger_days_pair_two_files messenger_input d 5 _ _ E Hs He).
  vm_compute. reflexivity.
Defined.

(** *** MAVEN: the year whose samples open the file *)

Lemma np_get_app {A : Type} (a b : list A) i v :
  (0 <= i)%Z -> np_get a i = Ok v -> np_get (a ++ b) i = Ok v.
Proof.
  intros Hi H. rewrite <- (Z2Nat.id i) in * by exact Hi.
  apply np_get_nat_inv in H. apply np_get_nat.
  rewrite nth_error_app1; [exact H|]. apply nth_error_Some. congruence.
Qed.

Lemma np_take_app {A : Type} (a b : list A) idx sel :
  (forall i, In i idx -> (0 <= i)%Z) ->
  np_take a idx = Ok sel -> np_take (a ++ b) idx = Ok sel.
Proof.
  unfold np_take. revert sel; induction idx as [|i t IH]; intros sel Hp H.
  - exact H.
  - cbn [mapM] in *. bind_inv. injection H as <-.
    rewrite (np_get_app a b i v (Hp i (or_introl eq_refl)) E). cbn [bind].
    rewrite (IH v0 (fun i' Hi' => Hp i' (or_intror Hi')) E0).
    reflexivity.
Qed.

Lemma filter_all {A : Type} (p : A -> bool) (l : list A) :
  (forall x, In x l -> p x = true) -> filter p l = l.
Proof.
  induction l as [|x t IH]; intros H; simpl; [reflexivity|].
  rewrite (H x (or_introl eq_refl)). apply f_equal. apply IH.
  intros y Hy. apply H. now right.
Qed.

Lemma filter_none {A : Type} (p : A -> bool) (l : list A) :
  (forall x, In x l -> p x = false) -> filter p l = [].
Proof.
  induction l as [|x t IH]; intros H; simpl; [reflexivity|].
  rewrite (H x (or_introl eq_refl)). apply IH.
  intros y Hy. apply H. now right.
Qed.

Section Leading.

Variables (head rest : insitu) (s e : Q).
Hypothesis head_in : forall x, In x head -> s < time x /\ time x < e.
Hypothesis rest_out : forall x, In x rest -> ~ (s < time x /\ time x < e).

Lemma head_in_year x :
  In x head -> Qltb s (time x) && Qltb (time x) e = true.
Proof.
  intros Hx. destruct (head_in x Hx) as [A B].
  apply andb_true_iff. split; now apply ExposureClaims.Qltb_true.
Qed.

Lemma rest_not_in_year x :
  In x rest -> Qltb s (time x) && Qltb (time x) e = false.
Proof.
  intros Hx. destruct (Qltb s (time x) && Qltb (time x) e) eqn:E; [|reflexivity].
  exfalso. apply (rest_out x Hx).
  apply andb_true_iff in E as [A B].
  split; now apply ExposureClaims.Qltb_true.
Qed.

Lemma defined_in_year_leading :
  defined_in_year (head ++ rest) s e = filter (fun x => notnan (bt x)) head.
Proof.
  unfold defined_in_year. rewrite filter_app.
  rewrite (filter_none _ rest).
  - rewrite app_nil_r. apply filter_ext_in. intros x Hx.
    now rewrite (head_in_year x Hx).
  - intros x Hx. now rewrite (rest_not_in_year x Hx).
Qed.

(** The MAVEN branch for the year whose samples open the file. *)
Lemma mav_days_leading a i :
  mav_days (head ++ rest) a i s e
  = let d := defined_in_year (head ++ rest) s e in
    if (0 <? Z.of_nat (length d))%Z
    then np_set a i (np_sum (filter (fun g => flt g (Fin 0.25))
                                    (np_diff (map (fun x => Fin (time x)) d))))
    else Ok a.
Proof.
  unfold mav_days.
  assert (Hsel : np_take (bts (head ++ rest)) (thisyear_of (times (head ++ rest)) s e)
                 = Ok (map bt head)).
  { unfold thisyear_of, times, bts, np_where. rewrite where_from_map.
    etransitivity; [apply np_take_where|]. apply f_equal. apply f_equal.
    rewrite filter_app.
    rewrite (filter_none (fun x => Qltb s (time x) && Qltb (time x) e) rest
               rest_not_in_year).
    rewrite app_nil_r. apply (filter_all _ head head_in_year). }
  rewrite Hsel. cbn [bind].
  assert (Ht : np_take (map Fin (times (head ++ rest))) (where_notnan (map bt head))
               = Ok (map (fun x => Fin (time x))
                         (filter (fun x => notnan (bt x)) head))).
  { unfold times. rewrite map_app, map_app.
    apply np_take_app.
    - intros k Hk. apply where_from_range in Hk. lia.
    - unfold where_notnan, np_where. rewrite where_from_map, map_map.
      apply np_take_where. }
  rewrite Ht. cbn [bind].
  rewrite defined_in_year_leading. cbv zeta.
  unfold where_notnan at 1. unfold np_where at 1.
  rewrite where_from_length, filter_map, length_map.
  destruct (0 <? _)%Z; [|reflexivity].
  set (t := np_diff _).
  pose proof (np_take_where (fun g => flt g (Fin 0.25)) (fun g => g) t) as Hd.
  rewrite map_id in Hd. rewrite map_id in Hd. rewrite Hd. reflexivity.
Qed.

End Leading.

(** An iteration for another year leaves the MAVEN entry as it is. *)
Lemma mav_days_other m a k s e a' j :
  length a = 13%nat -> (k < 13)%nat -> k <> j ->
  mav_days m a (Z.of_nat k) s e = Ok a' -> nth_error a' j = nth_error a j.
Proof.
  intros La Hk Ne H. unfold mav_days in H. bind_inv.
  destruct (0 <? _)%Z; [|now injection H as <-].
  bind_inv.
  exact (np_set_other _ _ _ _ 13 j k La (norm_index_nat _ _ Hk) Ne H).
Qed.

Lemma year_step_mav inp i st st' :
  year_step inp i st = Ok st' ->
  exists s e, np_get yearly_start_times i = Ok s /\
              np_get yearly_end_times i = Ok e /\
              mav_days (mav inp) (total_data_days_yearly_mav st) i s e
              = Ok (total_data_days_yearly_mav st').
Proof.
  intros H. unfold year_step in H. bind_inv. injection H as <-.
  exists v, v0. auto.
Qed.

(** X26.  When the samples of a year are the first samples of the MAVEN
    file, the MAVEN data days of that year are the sum of the gaps below
    a quarter of a day between its consecutive samples with a field
    value, and NaN when there is no such sample. *)
Theorem maven_days_of_leading_year inp d j s e head rest :
  total_data_days inp = Ok d ->
  nth_error yearly_start_times j = Some s ->
  nth_error yearly_end_times j = Some e ->
  mav inp = head ++ rest ->
  (forall x, In x head -> s < time x /\ time x < e) ->
  (forall x, In x rest -> ~ (s < time x /\ time x < e)) ->
  nth_error (total_data_days_yearly_mav d) j
  = Some (mav_days_of_year (mav inp) s e).
Proof.
  intros H Hs He Hm Hh Hr.
  assert (Hj : (j < 13)%nat).
  { assert (L : (j < length yearly_start_times)%nat)
      by (apply nth_error_Some; congruence).
    vm_compute in L. exact L. }
  unfold mav_days_of_year.
  destruct (defined_in_year (mav inp) s e) as [|x l] eqn:D.
  - apply (no_samples_no_coverage inp d MAVEN j H Hj);
      [intros [C _]; discriminate C|].
    destruct (datas_in_year_same_file inp MAVEN j ltac:(discriminate) Hj)
      as (s' & e' & Hs' & He' & Hn).
    rewrite Hs in Hs'. injection Hs' as <-.
    rewrite He in He'. injection He' as <-.
    cbn [time_source] in Hn. rewrite D in Hn. exact Hn.
  - unfold total_data_days in H.
    apply (for_each_establish days_shape
             (fun st => nth_error (total_data_days_yearly_mav st) j
                        = Some (np_sum (filter (fun g => flt g (Fin 0.25))
                                  (np_diff (map (fun x => Fin (time x)) (x :: l))))))
             (year_step inp) (range (length yearly_mid_times_num)) (Z.of_nat j))
      with (st := data_days_init) (st' := d).
    + now apply In_range_13.
    + intros i st st' Hi HI Hstep. apply range_13_In in Hi as (k & -> & Hk).
      split; [eapply year_step_shape; eassumption|].
      pose proof (HI MAVEN) as Lmv. cbn [days_of] in Lmv.
      destruct (year_step_mav inp _ st st' Hstep) as (s' & e' & Gs & Ge & Gm).
      split.
      * intros Q. destruct (Nat.eq_dec k j) as [->|Ne].
        -- apply np_get_nat_inv in Gs, Ge.
           rewrite Hs in Gs. injection Gs as <-.
           rewrite He in Ge. injection Ge as <-.
           rewrite Hm in Gm. rewrite (mav_days_leading head rest s e Hh Hr) in Gm.
           rewrite <- Hm in Gm. rewrite D in Gm. cbv zeta in Gm.
           replace (0 <? Z.of_nat (length (x :: l)))%Z with true in Gm
             by (symmetry; apply Z.ltb_lt; simpl length; lia).
           destruct (np_set_13 _ _ _ j _ Lmv (norm_index_nat _ _ Hj) Gm) as [_ G].
           rewrite G, Nat.eqb_refl. reflexivity.
        -- rewrite (mav_days_other _ _ _ _ _ _ j Lmv Hk Ne Gm). exact Q.
      * intros Ek. apply Nat2Z.inj in Ek. subst k.
        apply np_get_nat_inv in Gs, Ge.
        rewrite Hs in Gs. injection Gs as <-.
        rewrite He in Ge. injection Ge as <-.
        rewrite Hm in Gm. rewrite (mav_days_leading head rest s e Hh Hr) in Gm.
        rewrite <- Hm in Gm. rewrite D in Gm. cbv zeta in Gm.
        replace (0 <? Z.of_nat (length (x :: l)))%Z with true in Gm
          by (symmetry; apply Z.ltb_lt; simpl length; lia).
        destruct (np_set_13 _ _ _ j _ Lmv (norm_index_nat _ _ Hj) Gm) as [_ G].
        rewrite G, Nat.eqb_refl. reflexivity.
    + apply data_days_init_shape.
    + exact H.
Qed.

(** The two samples of October 2014 open the example file: a tenth of a
    day of data in 2014. *)
Lemma maven_days_of_leading_year_witness :
  exists d y, total_data_days maven_input = Ok d /\
              nth_error (total_data_days_yearly_mav d) 7 = Some y /\
              feq y (Fin 0.1).
Proof.
  destruct (total_data_days maven_input) as [d|] eqn:E;
    [|vm_compute in E; discriminate].
  exists d, (mav_days_of_year (mav maven_input) (plot_date 2014 1 1)
                              (plot_date 2014 12 31)).
  split; [reflexivity|]. split.
  - apply (maven_days_of_leading_year maven_input d 7 _ _
             [measured (plot_date 2014 10 1); measured (plot_date 2014 10 1 + 0.1)]
             [measured (plot_date 2015 3 1); measured (plot_date 2015 3 1 + 0.2);
              measured (plot_date 2015 3 1 + 0.3)] E).
    + vm_compute. reflexivity.
    + vm_compute. reflexivity.
    + reflexivity.
    + intros x [<-|[<-|[]]]; split; vm_compute; reflexivity.
    + intros x [<-|[<-|[<-|[]]]] [A B]; vm_compute in B; discriminate B.
  - vm_compute. reflexivity.
Defined.

(** *** A year with the rate of one spacecraft *)

Lemma np_mean_single q : feq (np_mean [Fin q]) (Fin q).
Proof. unfold np_mean, np_sum. simpl. field. Qed.

Lemma np_std_single q : feq (np_round (np_std [Fin q]) 1) (Fin 0).
Proof.
  apply feq_trans with (np_round (fsqrt (Fin 0)) 1);
    [|vm_compute; reflexivity].
  apply np_round_feq. unfold np_std. apply fsqrt_feq.
  unfold np_var, np_mean, np_sum. simpl. field.
Qed.

(** X27.  In a year for which one spacecraft alone has a rate, mean, median,
    maximum and minimum of [icrate] are that rate and the standard
    deviation is 0. *)
Theorem single_spacecraft_year inp out i row l q :
  run_stage12 inp = Ok out ->
  nth_error (icrate_out out) i = Some row ->
  rates_of_year (rates_out out) (Z.of_nat i) = Ok l ->
  filter notnan l = [Fin q] ->
  feq (mean1 row) (Fin q) /\ feq (median1 row) (Fin q) /\
  feq (std1 row) (Fin 0) /\ max1 row = Fin q /\ min1 row = Fin q.
Proof.
  intros Hrun Hrow Hl Hf.
  unfold run_stage12 in Hrun. bind_inv. injection Hrun as <-.
  cbn [icrate_out rates_out] in *.
  destruct (icrate_row_spec _ _ _ _ E1 Hrow)
    as (l' & Hl' & Hmx & Hmn & Hme & Hmd & Hsd).
  rewrite Hl in Hl'. injection Hl' as <-.
  assert (Hin : In (Fin q) l).
  { assert (I : In (Fin q) (filter notnan l)) by (rewrite Hf; now left).
    now apply filter_In in I. }
  assert (Hq : feq (np_round (Fin q) 1) (Fin q)).
  { destruct (rates_of_year_spec _ _ _ Hl) as [Hsc _].
    destruct (Hsc _ Hin) as (sc & Hy).
    exact (proj2 (rate_shape inp v v0 sc i (Fin q)
                    (total_data_days_shape _ _ E) E0 Hy)). }
  assert (Hex : exists x, In x l /\ isnan x = false)
    by (exists (Fin q); split; [exact Hin | reflexivity]).
  split; [|split; [|split; [|split]]].
  - rewrite Hme. apply feq_trans with (np_round (Fin q) 1); [|exact Hq].
    apply np_round_feq. eapply feq_trans; [apply nanmean_filter|].
    rewrite Hf. apply np_mean_single.
  - rewrite Hmd. apply feq_trans with (np_round (Fin q) 1); [|exact Hq].
    apply np_round_feq. rewrite nanmedian_filter, Hf.
    apply np_mean_single.
  - rewrite Hsd. apply feq_trans with (np_round (np_std [Fin q]) 1);
      [|apply np_std_single].
    apply np_round_feq. rewrite <- Hf. apply nanstd_filter.
  - destruct (nanmax_defined l _ Hmx Hex) as [I _].
    rewrite Hf in I. destruct I as [<-|[]]. reflexivity.
  - destruct (nanmin_defined l _ Hmn Hex) as [I _].
    rewrite Hf in I. destruct I as [<-|[]]. reflexivity.
Qed.

(** With VEX data alone in 2010, the row of 2010 is the VEX rate,
    75135.1, with a spread of 0. *)
Lemma single_spacecraft_year_witness :
  exists out row,
    run_stage12 vex_2010_input = Ok out /\
    nth_error (icrate_out out) 3 = Some row /\
    feq (mean1 row) (Fin 75135.1) /\ feq (median1 row) (Fin 75135.1) /\
    feq (std1 row) (Fin 0) /\ max1 row = Fin 75135.1 /\ min1 row = Fin 75135.1.
Proof.
  destruct (run_stage12 vex_2010_input) as [out|] eqn:E;
    [|vm_compute in E; discriminate].
  destruct (nth_error (icrate_out out) 3) as [row|] eqn:Er;
    [|exfalso; pose proof E as E'; vm_compute in E'; injection E' as <-;
      vm_compute in Er; discriminate Er].
  destruct (rates_of_year (rates_out out) (Z.of_nat 3)) as [l|] eqn:El;
    [|exfalso; pose proof E as E'; vm_compute in E'; injection E' as <-;
      vm_compute in El; discriminate El].
  exists out, row. split; [reflexivity|]. split; [exact Er|].
  apply (single_spacecraft_year vex_2010_input out 3 row l 75135.1 E Er El).
  pose proof E as E'. vm_compute in E'. injection E' as <-.
  vm_compute in El. injection El as <-. vm_compute. reflexivity.
Defined.

End PairingProperties.

(** ** Cells 5 and 6: data days of zero *)

Module InfinityProperties.

Import NumPy Dates Rates Reference Examples MoreExamples.
Import ArrayFacts FloatFacts RatesFacts StatsFacts IcrateFacts NanFacts CoverageFacts.
Local Open Scope Q_scope.

(** *** A year with data days of zero *)

Lemma fold_fadd_nan l : fold_left fadd l NaN = NaN.
Proof. induction l as [|x t IH]; simpl; auto. Qed.

Lemma fold_fadd_nan_entry (f : npfloat -> npfloat) l x :
  In x l -> f x = NaN -> forall acc, fold_left fadd (map f l) acc = NaN.
Proof.
  induction l as [|y t IH]; intros Hin Hx acc; [contradiction|].
  cbn [map fold_left]. destruct Hin as [->|Hin].
  - rewrite Hx. replace (fadd acc NaN) with NaN by (destruct acc; reflexivity).
    apply fold_fadd_nan.
  - now apply IH.
Qed.

Lemma nanmean_pinf l :
  (forall x, In x l -> x <> NInf) -> In PInf l -> nanmean l = PInf.
Proof.
  intros Hn Hin. unfold nanmean, np_sum.
  rewrite (fold_fadd_pinf l Hn Hin).
  apply fdiv_pinf_pos. exact (count_notnan_pos l PInf Hin eq_refl).
Qed.

Lemma nanstd_pinf l :
  (forall x, In x l -> x <> NInf) -> In PInf l -> nanstd l = NaN.
Proof.
  intros Hn Hin. unfold nanstd, nanvar. cbv zeta.
  rewrite (nanmean_pinf l Hn Hin). unfold np_sum. rewrite map_map.
  rewrite (fold_fadd_nan_entry _ l PInf Hin eq_refl). reflexivity.
Qed.

Lemma computed_rate_zero_days c d :
  (0 < c)%Z -> d == 0 -> computed_rate c (Fin d) = PInf.
Proof.
  intros Hc Hd. unfold computed_rate, of_Z, fdiv.
  replace (Qeq_bool d 0) with true by (symmetry; now apply Qeq_bool_iff).
  replace (inject_Z c ?= 0) with Gt; [reflexivity|].
  symmetry. apply Qgt_alt. change 0 with (inject_Z 0). rewrite <- Zlt_Qlt. exact Hc.
Qed.

(** X28.  MAVEN data days of zero, which a year with a single sample has,
    make the MAVEN rate of a year with an event infinite (but for 2014,
    whose rate is set to NaN); the year's maximum and mean rate are then
    infinite and its standard deviation is NaN. *)
Theorem maven_zero_days_infinite_rate inp out j c d row :
  run_stage12 inp = Ok out ->
  nth_error (total_data_days_yearly_mav (days_out out)) j = Some (Fin d) ->
  d == 0 -> j <> 7%nat ->
  nth_error (yearly_counts (ic inp) "MAVEN") j = Some c -> (0 < c)%Z ->
  nth_error (icrate_out out) j = Some row ->
  nth_error (histmav (rates_out out)) j = Some PInf /\
  max1 row = PInf /\ mean1 row = PInf /\ std1 row = NaN.
Proof.
  intros Hrun Hd Hz Hj Hc Hpos Hrow.
  unfold run_stage12 in Hrun. bind_inv. injection Hrun as <-.
  cbn [days_out rates_out icrate_out] in *.
  pose proof (total_data_days_shape _ _ E) as Sd.
  destruct (icme_rates_entry inp v v0 Sd E0) as [Hr He].
  assert (Hm : nth_error (histmav v0) j = Some PInf).
  { change (histmav v0) with (hist_of MAVEN v0).
    rewrite (He MAVEN j c (Fin d) Hc Hd). cbn [pinned].
    replace (Nat.eqb j 7) with false by (symmetry; now apply Nat.eqb_neq).
    apply f_equal. now apply computed_rate_zero_days. }
  split; [exact Hm|].
  destruct (icrate_row_spec _ _ _ _ E1 Hrow)
    as (l & Hl & Hmx & Hmn & Hme & Hmd & Hsd).
  destruct (rates_of_year_spec _ _ _ Hl) as [Hfrom Hto].
  assert (Hin : In PInf l) by exact (Hto MAVEN PInf Hm).
  assert (Hn : forall x, In x l -> x <> NInf).
  { intros x Hx. destruct (Hfrom x Hx) as (sc & Hy).
    exact (proj1 (rate_shape inp v v0 sc j x Sd E0 Hy)). }
  split; [|split].
  - apply nanmax_spec in Hmx as [_ U].
    specialize (U PInf Hin eq_refl). destruct (max1 row); try discriminate U.
    reflexivity.
  - rewrite Hme, (nanmean_pinf l Hn Hin). reflexivity.
  - rewrite Hsd, (nanstd_pinf l Hn Hin). reflexivity.
Qed.

(** One MAVEN sample and one MAVEN event in 2015. *)
Lemma maven_zero_days_infinite_rate_witness :
  exists out row,
    run_stage12 maven_one_sample_input = Ok out /\
    nth_error (icrate_out out) 8 = Some row /\
    nth_error (total_data_days_yearly_mav (days_out out)) 8 = Some (Fin 0) /\
    nth_error (histmav (rates_out out)) 8 = Some PInf /\
    max1 row = PInf /\ mean1 row = PInf /\ std1 row = NaN.
Proof.
  destruct (run_stage12 maven_one_sample_input) as [out|] eqn:E;
    [|vm_compute in E; discriminate].
  destruct (nth_error (icrate_out out) 8) as [row|] eqn:Er;
    [|exfalso; pose proof E as E'; vm_compute in E'; injection E' as <-;
      vm_compute in Er; discriminate Er].
  assert (Hd : nth_error (total_data_days_yearly_mav (days_out out)) 8 = Some (Fin 0)).
  { pose proof E as E'. vm_compute in E'. injection E' as <-.
    vm_compute. reflexivity. }
  exists out, row. split; [reflexivity|]. split; [exact Er|]. split; [exact Hd|].
  apply (maven_zero_days_infinite_rate maven_one_sample_input out 8 1 0 row E Hd).
  - reflexivity.
  - discriminate.
  - vm_compute. reflexivity.
  - reflexivity.
  - exact Er.
Defined.

End InfinityProperties.
